(** * FDE-Pipeline: the extract-and-load utility, embedded and verified

    The Python sources under [Extractor/] are embedded shallowly:

    - [CSV_Extractor.py]   : [camel_to_snake], the structured column policy,
                             [CSVExtractor.load_to_landing];
    - [JSON_Extractor.py]  : [JSONExtractor.load_to_landing],
                             [get_table_columns];
    - [Database_Connector.py] : the cached psycopg2 session and the engine;
    - [S3_Extractor.py], [API_Extractor.py], [Main_Extractor.py] :
                             the fetchers and the [extract_all] loops.

    Python code that talks to the database, the clock or the network is
    written in a state-and-exception monad over an explicit [world].
    Logging and [cursor.close()] change nothing a caller can observe in
    that world and are left out. *)

From Stdlib Require Import List String Ascii Bool Arith ZArith Lia.
From Stdlib Require Import Sorting.Sorted Sorting.Permutation.
Import ListNotations.
Open Scope string_scope.
Open Scope list_scope.
Open Scope nat_scope.

(* ================================================================== *)
(** * Part I: definitions                                              *)
(* ================================================================== *)

(** ** Python strings

    A [str] is a [string]; a character is a code point below 256. *)

Module PyStr.

Definition code (c : ascii) : nat := nat_of_ascii c.

(** [\s] of the [re] module on [str] patterns, for code points < 256:
    TAB..CR, FS..US, SPACE, NEL and NBSP. *)
Definition is_space (c : ascii) : bool :=
  let n := code c in
  ((9 <=? n) && (n <=? 13)) || ((28 <=? n) && (n <=? 32))
  || (n =? 133) || (n =? 160).

Definition is_dash (c : ascii) : bool := code c =? 45.

(** The class [[\s\-]]. *)
Definition is_space_or_dash (c : ascii) : bool := is_space c || is_dash c.

(** The class [[A-Z]]. *)
Definition is_upper (c : ascii) : bool :=
  let n := code c in (65 <=? n) && (n <=? 90).

(** The class [[a-z0-9]]. *)
Definition is_lower_or_digit (c : ascii) : bool :=
  let n := code c in
  ((97 <=? n) && (n <=? 122)) || ((48 <=? n) && (n <=? 57)).

Definition is_underscore (c : ascii) : bool := code c =? 95.

Definition underscore : ascii := "_"%char.

(** [str.lower] on one code point < 256: A-Z and the Latin-1 capitals
    (all of 0xC0..0xDE but the multiplication sign) move up by 32. *)
Definition lower_char (c : ascii) : ascii :=
  let n := code c in
  if ((65 <=? n) && (n <=? 90))
     || ((192 <=? n) && (n <=? 222) && negb (n =? 215))
  then ascii_of_nat (n + 32) else c.

(** [re.sub(cls + '+', '_', s)]: every maximal run of characters of the
    class becomes one underscore.  [in_run] tells whether the previous
    character already belonged to the run being replaced. *)
Fixpoint sub_runs (cls : ascii -> bool) (in_run : bool) (s : list ascii)
  : list ascii :=
  match s with
  | [] => []
  | c :: t =>
      if cls c
      then (if in_run then sub_runs cls true t
            else underscore :: sub_runs cls true t)
      else c :: sub_runs cls false t
  end.

(** [re.sub(r'([a-z0-9])([A-Z])', r'\1_\2', s)]: matches are found left
    to right and do not overlap; a match consumes both characters. *)
Fixpoint sub_camel (s : list ascii) : list ascii :=
  match s with
  | [] => []
  | c1 :: t =>
      match t with
      | [] => [c1]
      | c2 :: t' =>
          if is_lower_or_digit c1 && is_upper c2
          then c1 :: underscore :: c2 :: sub_camel t'
          else c1 :: sub_camel t
      end
  end.

Fixpoint lstrip (cls : ascii -> bool) (s : list ascii) : list ascii :=
  match s with
  | [] => []
  | c :: t => if cls c then lstrip cls t else s
  end.

Definition rstrip (cls : ascii -> bool) (s : list ascii) : list ascii :=
  rev (lstrip cls (rev s)).

(** [s.strip('_')]. *)
Definition strip (cls : ascii -> bool) (s : list ascii) : list ascii :=
  rstrip cls (lstrip cls s).

Definition lower (s : list ascii) : list ascii := map lower_char s.

(** [s.endswith(suffix)]. *)
Fixpoint starts_with (p s : list ascii) : bool :=
  match p, s with
  | [], _ => true
  | _ :: _, [] => false
  | a :: p', b :: s' => Ascii.eqb a b && starts_with p' s'
  end.

Definition ends_with (s suffix : list ascii) : bool :=
  starts_with (rev suffix) (rev s).

(** ['.' in s] and [s.split('.', 1)] when it holds: the text before the
    first dot and the text after it. *)
Definition is_dot (c : ascii) : bool := code c =? 46.

Fixpoint split_first_dot (s : list ascii)
  : option (list ascii * list ascii) :=
  match s with
  | [] => None
  | c :: t =>
      if is_dot c then Some ([], t)
      else match split_first_dot t with
           | Some (a, b) => Some (c :: a, b)
           | None => None
           end
  end.

End PyStr.

(** [CSVExtractor.camel_to_snake] on the characters of the name. *)
Definition camel_to_snake_chars (name : list ascii) : list ascii :=
  (* name = re.sub(r'[\s\-]+', '_', name) *)
  let name := PyStr.sub_runs PyStr.is_space_or_dash false name in
  (* name = re.sub(r'([a-z0-9])([A-Z])', r'\1_\2', name) *)
  let name := PyStr.sub_camel name in
  (* name = re.sub(r'_+', '_', name.lower().strip('_')) *)
  PyStr.sub_runs PyStr.is_underscore false
    (PyStr.strip PyStr.is_underscore (PyStr.lower name)).

Definition camel_to_snake (name : string) : string :=
  string_of_list_ascii (camel_to_snake_chars (list_ascii_of_string name)).


(** Shapes of strings, used to describe normalized names. *)

(** The head of a string is outside the class (or the string is empty). *)
Definition head_ok (cls : ascii -> bool) (s : list ascii) : bool :=
  match s with
  | [] => true
  | c :: _ => negb (cls c)
  end.

(** No two neighbours are both in the class. *)
Fixpoint no_double (cls : ascii -> bool) (s : list ascii) : bool :=
  match s with
  | [] => true
  | c1 :: t => (negb (cls c1) || head_ok cls t) && no_double cls t
  end.

(** What [lower] leaves behind: no capital, nothing [lower] would change. *)
Definition settled (c : ascii) : bool :=
  negb (PyStr.is_space_or_dash c) && negb (PyStr.is_upper c)
  && Ascii.eqb (PyStr.lower_char c) c.

(** The shape of every result of [camel_to_snake_chars]: settled
    characters, no underscore at either end, no two underscores in a row. *)
Definition normalized (s : list ascii) : Prop :=
  Forall (fun c => settled c = true) s
  /\ head_ok PyStr.is_underscore s = true
  /\ head_ok PyStr.is_underscore (rev s) = true
  /\ no_double PyStr.is_underscore s = true.

(** ** Python values

    The objects the loaders pass around: JSON payloads, data-frame cells,
    the values bound to the [%s] placeholders of a statement. *)

#[warnings="-register-all"]
Inductive pyval : Type :=
| PNone
| PBool (b : bool)
| PInt (z : Z)
| PStr (s : string)
| PTime (t : Z)                          (* a [datetime] *)
| PList (l : list pyval)
| PDict (d : list (string * pyval))      (* insertion-ordered, unique keys *)
| PJson (v : pyval).                     (* [psycopg2.extras.Json(v)] *)

(** [x in xs] for a list of strings. *)
Definition py_in (x : string) (xs : list string) : bool :=
  existsb (String.eqb x) xs.

(** Truth value of an optional string argument: [None] and [''] are false. *)
Definition truthy (a : option string) : bool :=
  match a with
  | None => false
  | Some s => negb (String.eqb s "")
  end.

(** [x is not None]. *)
Definition is_not_None {A : Type} (a : option A) : bool :=
  match a with
  | None => false
  | Some _ => true
  end.

(** [', '.join(xs)]. *)
Fixpoint join (sep : string) (xs : list string) : string :=
  match xs with
  | [] => ""
  | [x] => x
  | x :: t => (x ++ sep ++ join sep t)%string
  end.

(** [d[k] = v] on a dict: an existing key keeps its place and takes the
    new value, a new key goes last. *)
Fixpoint dict_set (k : string) (v : pyval) (d : list (string * pyval))
  : list (string * pyval) :=
  match d with
  | [] => [(k, v)]
  | (k', v') :: t =>
      if String.eqb k k' then (k, v) :: t else (k', v') :: dict_set k v t
  end.

(** [dict(zip(keys, vals))]. *)
Definition dict_of_pairs (kvs : list (string * pyval)) : list (string * pyval) :=
  fold_left (fun d kv => dict_set (fst kv) (snd kv) d) kvs [].

(** ** The world outside the process *)

Inductive exn : Type :=
| AttributeError        (* [None.cursor()] *)
| InterfaceError        (* psycopg2: connection already closed *)
| DatabaseError         (* psycopg2 / SQLAlchemy: a statement or commit failed *)
| OperationalError      (* psycopg2.connect / create_engine failed *)
| RequestException      (* requests: transport error *)
| HTTPError             (* requests: raise_for_status *)
| ValueError            (* a body that does not parse *)
| GenericException.     (* [raise Exception(...)] *)

(** One line of [information_schema.columns]. *)
Record catalog_row : Type := {
  table_schema : string;
  table_name : string;
  column_name : string;
  ordinal_position : nat
}.

(** A stored row: the columns named by the statement and their values. *)
Definition row : Type := list (string * pyval).

(** The statements the loaders send. *)
Inductive stmt : Type :=
| SelectColumns (schema : option string) (table : string)
| InsertInto (table : string) (columns placeholders : list string)
             (values : list pyval)
| TruncateTable (table : string).

(** A [pandas.DataFrame]: column labels and rows of cells. *)
Record DataFrame : Type := {
  df_columns : list string;
  df_rows : list (list pyval)
}.

(** What [requests.get] brings back, with the two parsers applied to the
    body: [response.json()] and [pd.read_csv(StringIO(response.text))];
    [None] where the body does not parse. *)
Record response : Type := {
  status_code : Z;
  json_body : option pyval;
  csv_body : option DataFrame
}.

(** The state of [DatabaseConnector.connection]. *)
Inductive session : Type :=
| NoSession          (* [self.connection] is [None] *)
| OpenSession
| ClosedSession.     (* [close()] was called; the attribute still holds it *)

(** What the process cannot control.  [fault n] tells whether the [n]-th
    fallible external call raises, [now n] is the [n]-th reading of the
    clock, [http n url] the answer to a GET issued as external call [n]. *)
Record environment : Type := {
  fault : nat -> bool;
  now : nat -> Z;
  catalog : list catalog_row;
  http : nat -> string -> option response
}.

Record world : Type := {
  env : environment;
  calls : nat;                     (* fallible external calls so far *)
  reads : nat;                     (* clock readings so far *)
  connection : session;            (* [DatabaseConnector.connection] *)
  engine : bool;                   (* [DatabaseConnector.engine] is set *)
  tables : string -> list row;     (* committed content, by table name *)
  pending : list stmt;             (* the open psycopg2 transaction *)
  executed : list stmt             (* every statement given to [execute] *)
}.

Definition set_calls (n : nat) (w : world) : world :=
  {| env := env w; calls := n; reads := reads w; connection := connection w;
     engine := engine w; tables := tables w; pending := pending w;
     executed := executed w |}.

Definition set_reads (n : nat) (w : world) : world :=
  {| env := env w; calls := calls w; reads := n; connection := connection w;
     engine := engine w; tables := tables w; pending := pending w;
     executed := executed w |}.

Definition set_connection (c : session) (w : world) : world :=
  {| env := env w; calls := calls w; reads := reads w; connection := c;
     engine := engine w; tables := tables w; pending := pending w;
     executed := executed w |}.

Definition set_engine (e : bool) (w : world) : world :=
  {| env := env w; calls := calls w; reads := reads w;
     connection := connection w; engine := e; tables := tables w;
     pending := pending w; executed := executed w |}.

Definition set_tables (t : string -> list row) (w : world) : world :=
  {| env := env w; calls := calls w; reads := reads w;
     connection := connection w; engine := engine w; tables := t;
     pending := pending w; executed := executed w |}.

Definition set_pending (p : list stmt) (w : world) : world :=
  {| env := env w; calls := calls w; reads := reads w;
     connection := connection w; engine := engine w; tables := tables w;
     pending := p; executed := executed w |}.

Definition set_executed (x : list stmt) (w : world) : world :=
  {| env := env w; calls := calls w; reads := reads w;
     connection := connection w; engine := engine w; tables := tables w;
     pending := pending w; executed := x |}.

(** ** Python control flow: a state and exception monad *)

Inductive outcome (A : Type) : Type :=
| Returned (a : A)
| Raised (e : exn).
Arguments Returned {A} a.
Arguments Raised {A} e.

Definition M (A : Type) : Type := world -> outcome A * world.

Definition ret {A : Type} (a : A) : M A := fun w => (Returned a, w).

Definition bind {A B : Type} (m : M A) (k : A -> M B) : M B :=
  fun w =>
    match m w with
    | (Returned a, w') => k a w'
    | (Raised e, w') => (Raised e, w')
    end.

Definition raise {A : Type} (e : exn) : M A := fun w => (Raised e, w).

(** [try: body / except Exception as e: handler]. *)
Definition try_except {A : Type} (body : M A) (handler : exn -> M A) : M A :=
  fun w =>
    match body w with
    | (Returned a, w') => (Returned a, w')
    | (Raised e, w') => handler e w'
    end.

Definition get {A : Type} (f : world -> A) : M A := fun w => (Returned (f w), w).

Definition modify (f : world -> world) : M unit := fun w => (Returned tt, f w).

Declare Scope py_scope.
Delimit Scope py_scope with py.
Notation "x <- m ;; k" := (bind m (fun x => k))
  (at level 61, m at next level, right associativity) : py_scope.
Notation "m ;; k" := (bind m (fun _ => k))
  (at level 61, right associativity) : py_scope.
Open Scope py_scope.

(** A call that leaves the process and may fail: it consumes one entry of
    the fault oracle and raises [e] when that entry says so. *)
Definition external (e : exn) : M unit :=
  fun w =>
    let w' := set_calls (S (calls w)) w in
    if fault (env w) (calls w) then (Raised e, w') else (Returned tt, w').

(** [datetime.now()]. *)
Definition datetime_now : M Z :=
  fun w => (Returned (now (env w) (reads w)), set_reads (S (reads w)) w).


(** ** The database as psycopg2 and SQLAlchemy show it *)

Definition str_lower (s : string) : string :=
  string_of_list_ascii (PyStr.lower (list_ascii_of_string s)).

Definition str_endswith (s suffix : string) : bool :=
  PyStr.ends_with (list_ascii_of_string s) (list_ascii_of_string suffix).

(** [s.split('.', 1)] when ['.' in s], else [None]. *)
Definition split_qualified (s : string) : option (string * string) :=
  match PyStr.split_first_dot (list_ascii_of_string s) with
  | Some (a, b) => Some (string_of_list_ascii a, string_of_list_ascii b)
  | None => None
  end.

Definition catalog_match (schema : option string) (table : string)
  (r : catalog_row) : bool :=
  match schema with
  | Some s => String.eqb (table_schema r) s && String.eqb (table_name r) table
  | None => String.eqb (table_name r) table
  end.

(** [ORDER BY ordinal_position], as a stable insertion sort. *)
Fixpoint insert_by_ordinal (r : catalog_row) (l : list catalog_row)
  : list catalog_row :=
  match l with
  | [] => [r]
  | h :: t =>
      if ordinal_position r <=? ordinal_position h then r :: l
      else h :: insert_by_ordinal r t
  end.

Definition order_by_ordinal (l : list catalog_row) : list catalog_row :=
  fold_right insert_by_ordinal [] l.

(** The tuples a statement returns: one-element tuples of column names for
    the catalog query, nothing for the others. *)
Definition result_set (s : stmt) (cat : list catalog_row) : list (list string) :=
  match s with
  | SelectColumns schema table =>
      map (fun r => [column_name r])
          (order_by_ordinal (filter (catalog_match schema table) cat))
  | _ => []
  end.

Definition update (t : string) (rows : list row) (tb : string -> list row)
  : string -> list row :=
  fun t' => if String.eqb t' t then rows else tb t'.

Definition apply_stmt (tb : string -> list row) (s : stmt)
  : string -> list row :=
  match s with
  | SelectColumns _ _ => tb
  | InsertInto t columns _ values => update t (tb t ++ [combine columns values]) tb
  | TruncateTable t => update t [] tb
  end.

Definition apply_all (ss : list stmt) (tb : string -> list row)
  : string -> list row :=
  fold_left apply_stmt ss tb.

(** The object [get_connection] hands out. *)
Inductive connection_object : Type := the_connection.

(** [connection.cursor()]: on [None] an [AttributeError], on a closed
    connection an [InterfaceError]. *)
Definition cursor (conn : option connection_object) : M unit :=
  match conn with
  | None => raise AttributeError
  | Some _ =>
      c <- get connection;;
      match c with
      | OpenSession => ret tt
      | _ => raise InterfaceError
      end
  end.

(** [cursor.execute(query, params)] followed, for a query, by
    [cursor.fetchall()]: the statement joins the open transaction, or
    raises and leaves it as it was. *)
Definition cursor_execute (s : stmt) : M (list (list string)) :=
  modify (fun w => set_executed (executed w ++ [s]) w);;
  c <- get connection;;
  match c with
  | OpenSession =>
      external DatabaseError;;
      match s with
      | SelectColumns _ _ =>
          cat <- get (fun w => catalog (env w));;
          ret (result_set s cat)
      | _ =>
          modify (fun w => set_pending (pending w ++ [s]) w);;
          ret []
      end
  | _ => raise InterfaceError
  end.

(** [connection.commit()]: all pending statements take effect in order, or
    the commit fails and the transaction is gone. *)
Definition commit : M unit :=
  c <- get connection;;
  match c with
  | OpenSession =>
      try_except
        (external DatabaseError;;
         modify (fun w =>
           set_pending [] (set_tables (apply_all (pending w) (tables w)) w)))
        (fun e => modify (set_pending []);; raise e)
  | _ => raise InterfaceError
  end.

(** [connection.rollback()]: drops the pending statements of an open
    session; on a closed connection an [InterfaceError]. *)
Definition rollback : M unit :=
  c <- get connection;;
  match c with
  | OpenSession => modify (set_pending [])
  | _ => raise InterfaceError
  end.

(** [df.to_sql(name, engine, schema=..., if_exists='append', index=False)]:
    the engine's own session appends every row of the frame, or none. *)
Definition to_sql (df : DataFrame) (name : string) (schema : option string)
  : M unit :=
  external DatabaseError;;
  let target := match schema with
                | Some s => (s ++ "." ++ name)%string
                | None => name
                end in
  modify (fun w =>
    set_tables
      (update target
         (tables w target ++ map (combine (df_columns df)) (df_rows df))
         (tables w)) w).

(** ** Database_Connector.py *)

Module DatabaseConnector.

Definition get_connection : M (option connection_object) :=
  try_except
    (c <- get connection;;
     match c with
     | NoSession =>
         (* self.connection = psycopg2.connect(...) *)
         external OperationalError;;
         modify (set_connection OpenSession);;
         ret (Some the_connection)
     | _ => ret (Some the_connection)
     end)
    (fun _ => ret None).

Definition get_engine : M bool :=
  try_except
    (e <- get engine;;
     if negb e
     then (external OperationalError;; modify (set_engine true);; ret true)
     else ret true)
    (fun _ => ret false).

Definition close_connection : M unit :=
  try_except
    (c <- get connection;;
     match c with
     | NoSession => ret tt
     | _ => modify (fun w => set_pending [] (set_connection ClosedSession w))
     end)
    (fun _ => ret tt).

(** [truncate_table].  The handler tests the attribute [self.connection],
    which holds a closed connection too. *)
Definition truncate_table (table_name : string) : M bool :=
  try_except
    (connection <- get_connection;;
     match connection with
     | None => raise GenericException
     | Some _ => ret tt
     end;;
     cursor connection;;
     cursor_execute (TruncateTable table_name);;
     commit;;
     ret true)
    (fun _ =>
       c <- get connection;;
       match c with
       | NoSession => ret tt
       | _ => rollback
       end;;
       ret false).

(** What [load_to_landing_table] may be given: a frame, or anything else
    for [pd.DataFrame] to convert. *)
Inductive table_data : Type :=
| FrameData (df : DataFrame)
| OtherData (v : pyval).

(** [load_to_landing_table].  The value of [truncate_table] is dropped
    (line 78); [pd_DataFrame] stands for the constructor [pd.DataFrame],
    [None] where it raises. *)
Definition load_to_landing_table (pd_DataFrame : pyval -> option DataFrame)
  (data : table_data) (table_name : string) : M bool :=
  try_except
    (truncate_table table_name;;
     df <- match data with
           | FrameData df => ret df
           | OtherData v =>
               match pd_DataFrame v with
               | Some df => ret df
               | None => raise ValueError
               end
           end;;
     engine <- get_engine;;
     (if negb engine then raise GenericException else ret tt);;
     to_sql df table_name None;;
     ret true)
    (fun _ => ret false).

End DatabaseConnector.

(** ** JSON_Extractor.py *)

Definition str_arg (a : option string) : pyval :=
  match a with
  | Some s => PStr s
  | None => PNone
  end.

Definition int_arg (a : option Z) : pyval :=
  match a with
  | Some z => PInt z
  | None => PNone
  end.

Module JSONExtractor.

Definition get_table_columns (table_name : string) : M (list string) :=
  try_except
    (connection <- DatabaseConnector.get_connection;;
     cursor connection;;
     rows <- match split_qualified table_name with
             | Some (schema_name, table_name_only) =>
                 cursor_execute (SelectColumns (Some schema_name) table_name_only)
             | None =>
                 cursor_execute (SelectColumns None table_name)
             end;;
     (* columns = [row[0] for row in cursor.fetchall()] *)
     let columns := map (fun row => hd "" row) rows in
     ret columns)
    (fun _ => ret []).

(** Lines 36-57: the column list and, in step, the placeholders. *)
Definition insert_columns (table_columns : list string)
  (file_name api_endpoint : option string) (response_status : option Z)
  : list string :=
  let columns := ["raw_data"] in
  let columns := if py_in "loaded_at" table_columns
                 then columns ++ ["loaded_at"] else columns in
  let columns := if py_in "file_name" table_columns && truthy file_name
                 then columns ++ ["file_name"] else columns in
  let columns := if py_in "api_endpoint" table_columns && truthy api_endpoint
                 then columns ++ ["api_endpoint"] else columns in
  let columns := if py_in "request_timestamp" table_columns
                 then columns ++ ["request_timestamp"] else columns in
  let columns := if py_in "response_status" table_columns
                    && is_not_None response_status
                 then columns ++ ["response_status"] else columns in
  columns.

Definition insert_placeholders (table_columns : list string)
  (file_name api_endpoint : option string) (response_status : option Z)
  : list string :=
  let placeholders := ["%s"] in
  let placeholders := if py_in "loaded_at" table_columns
                      then placeholders ++ ["%s"] else placeholders in
  let placeholders := if py_in "file_name" table_columns && truthy file_name
                      then placeholders ++ ["%s"] else placeholders in
  let placeholders := if py_in "api_endpoint" table_columns
                         && truthy api_endpoint
                      then placeholders ++ ["%s"] else placeholders in
  let placeholders := if py_in "request_timestamp" table_columns
                      then placeholders ++ ["%s"] else placeholders in
  let placeholders := if py_in "response_status" table_columns
                         && is_not_None response_status
                      then placeholders ++ ["%s"] else placeholders in
  placeholders.

(** Which optional column a call would fill, judged by its arguments
    alone: the conditions of lines 39-57 without the catalog test. *)
Definition column_enabled (file_name api_endpoint : option string)
  (response_status : option Z) (c : string) : bool :=
  String.eqb c "loaded_at"
  || (String.eqb c "file_name" && truthy file_name)
  || (String.eqb c "api_endpoint" && truthy api_endpoint)
  || String.eqb c "request_timestamp"
  || (String.eqb c "response_status" && is_not_None response_status).

(** Lines 60-63, without the line breaks of the f-string. *)
Definition insert_query (table_name : string)
  (columns placeholders : list string) : string :=
  ("INSERT INTO " ++ table_name ++ " (" ++ join ", " columns ++ ") VALUES ("
     ++ join ", " placeholders ++ ")")%string.

(** Lines 70-85: the values of one record. *)
Definition row_values (table_columns : list string)
  (file_name api_endpoint : option string) (response_status : option Z)
  (request_time : Z) (json_obj : pyval) : M (list pyval) :=
  let values := [PJson json_obj] in
  values <- (if py_in "loaded_at" table_columns
             then (t <- datetime_now;; ret (values ++ [PTime t]))
             else ret values);;
  let values := if py_in "file_name" table_columns && truthy file_name
                then values ++ [str_arg file_name] else values in
  let values := if py_in "api_endpoint" table_columns && truthy api_endpoint
                then values ++ [str_arg api_endpoint] else values in
  let values := if py_in "request_timestamp" table_columns
                then values ++ [PTime request_time] else values in
  let values := if py_in "response_status" table_columns
                   && is_not_None response_status
                then values ++ [int_arg response_status] else values in
  ret values.

(** Lines 69-88: the loop over the records. *)
Fixpoint insert_records (table_name : string) (table_columns : list string)
  (file_name api_endpoint : option string) (response_status : option Z)
  (columns placeholders : list string) (request_time : Z)
  (json_data : list pyval) (records_inserted : nat) : M nat :=
  match json_data with
  | [] => ret records_inserted
  | json_obj :: rest =>
      values <- row_values table_columns file_name api_endpoint
                  response_status request_time json_obj;;
      cursor_execute (InsertInto table_name columns placeholders values);;
      insert_records table_name table_columns file_name api_endpoint
        response_status columns placeholders request_time rest
        (records_inserted + 1)
  end.

(** [load_to_landing].  The handler reads the local [connection]; line 29
    binds it before anything in the block can raise, since
    [get_connection] handles its own exceptions. *)
Definition load_to_landing (json_data : pyval) (table_name : string)
  (file_name api_endpoint : option string) (response_status : option Z)
  : M bool :=
  let json_data := match json_data with
                   | PList l => l
                   | v => [v]
                   end in
  connection <- DatabaseConnector.get_connection;;
  try_except
    (cursor connection;;
     table_columns <- get_table_columns table_name;;
     let columns :=
       insert_columns table_columns file_name api_endpoint response_status in
     let placeholders :=
       insert_placeholders table_columns file_name api_endpoint
         response_status in
     request_time <- datetime_now;;
     insert_records table_name table_columns file_name api_endpoint
       response_status columns placeholders request_time json_data 0;;
     commit;;
     ret true)
    (fun _ =>
       match connection with
       | Some _ => rollback
       | None => ret tt
       end;;
       ret false).

Definition extract_from_object (json_obj : pyval) (table_name : string)
  (source_name : option string) : M bool :=
  try_except
    (load_to_landing json_obj table_name source_name None None)
    (fun _ => ret false).

(** [extract_from_file]: [read_json] stands for opening the file and
    [json.load], [None] where either raises. *)
Definition extract_from_file (read_json : string -> option pyval)
  (file_path table_name : string) : M bool :=
  try_except
    (json_data <- match read_json file_path with
                  | Some v => ret v
                  | None => raise ValueError
                  end;;
     load_to_landing json_data table_name (Some file_path) None None)
    (fun _ => ret false).

(** [extract_from_string]: [json_loads] stands for [json.loads]. *)
Definition extract_from_string (json_loads : string -> option pyval)
  (json_string table_name : string) (source_name : option string) : M bool :=
  try_except
    (json_data <- match json_loads json_string with
                  | Some v => ret v
                  | None => raise ValueError
                  end;;
     load_to_landing json_data table_name source_name None None)
    (fun _ => ret false).

End JSONExtractor.


(** ** pandas *)

(** [df.to_dict('records')]: one dict per row. *)
Definition to_dict_records (df : DataFrame) : list pyval :=
  map (fun r => PDict (dict_of_pairs (combine (df_columns df) r))) (df_rows df).

(** [df.columns = names]. *)
Definition set_columns (names : list string) (df : DataFrame) : DataFrame :=
  {| df_columns := names; df_rows := df_rows df |}.

(** [df[name] = v] for a scalar [v]: an existing label keeps its place and
    every cell under it becomes [v]; a new label goes last. *)
Definition df_assign (name : string) (v : pyval) (df : DataFrame) : DataFrame :=
  if py_in name (df_columns df)
  then {| df_columns := df_columns df;
          df_rows :=
            map (fun r =>
                   map (fun cv => if String.eqb (fst cv) name then v else snd cv)
                       (combine (df_columns df) r))
                (df_rows df) |}
  else {| df_columns := df_columns df ++ [name];
          df_rows := map (fun r => r ++ [v]) (df_rows df) |}.

(** [df[labels]]: for each label in turn, every column that carries it. *)
Definition df_select (labels : list string) (df : DataFrame) : DataFrame :=
  {| df_columns :=
       flat_map (fun l => filter (String.eqb l) (df_columns df)) labels;
     df_rows :=
       map (fun r =>
              flat_map
                (fun l =>
                   map snd (filter (fun cv => String.eqb l (fst cv))
                                   (combine (df_columns df) r)))
                labels)
           (df_rows df) |}.

(** ** CSV_Extractor.py *)

Module CSVExtractor.

Definition get_table_columns (table_name : string) : M (list string) :=
  try_except
    (connection <- DatabaseConnector.get_connection;;
     cursor connection;;
     rows <- match split_qualified table_name with
             | Some (schema_name, table_name_only) =>
                 cursor_execute (SelectColumns (Some schema_name) table_name_only)
             | None =>
                 cursor_execute (SelectColumns None table_name)
             end;;
     let columns := map (fun row => hd "" row) rows in
     ret columns)
    (fun _ => ret []).

(** Lines 54-65 once the clock has been read (line 58 reads it only when
    the destination has [loaded_at]). *)
Definition structured_frame (df : DataFrame) (table_columns : list string)
  (source_file : option string) (loaded_at : option Z) : DataFrame :=
  (* df.columns = [self.camel_to_snake(col) for col in df.columns] *)
  let df := set_columns (map camel_to_snake (df_columns df)) df in
  let df := match loaded_at with
            | Some t => df_assign "loaded_at" (PTime t) df
            | None => df
            end in
  let df := if py_in "source_file" table_columns && truthy source_file
            then df_assign "source_file" (str_arg source_file) df
            else df in
  let matching_columns :=
    filter (fun col => py_in col table_columns) (df_columns df) in
  df_select matching_columns df.

(** Lines 68-96, the inner [try] block: truncate through the psycopg2
    session, commit, then append through the engine. *)
Definition truncate_and_append (df_filtered : DataFrame) (table_name : string)
  : M bool :=
  try_except
    (engine <- DatabaseConnector.get_engine;;
     (if negb engine then raise GenericException else ret tt);;
     connection <- DatabaseConnector.get_connection;;
     cursor connection;;
     cursor_execute (TruncateTable table_name);;
     commit;;
     match split_qualified table_name with
     | Some (schema_name, table_name_only) =>
         to_sql df_filtered table_name_only (Some schema_name)
     | None =>
         to_sql df_filtered table_name None
     end;;
     ret true)
    (fun _ => ret false).

Definition load_to_landing (df : DataFrame) (table_name : string)
  (source_file : option string) : M bool :=
  try_except
    (table_columns <- get_table_columns table_name;;
     success <-
       (if py_in "raw_data" table_columns
        then
          let records := to_dict_records df in
          JSONExtractor.load_to_landing (PList records) table_name
            source_file None None
        else
          loaded_at <- (if py_in "loaded_at" table_columns
                        then (t <- datetime_now;; ret (Some t))
                        else ret None);;
          let df_filtered :=
            structured_frame df table_columns source_file loaded_at in
          truncate_and_append df_filtered table_name);;
     ret success)
    (fun _ => ret false).

Definition extract_from_dataframe (df : DataFrame) (table_name : string)
  (source_file : option string) : M bool :=
  try_except
    (load_to_landing df table_name source_file)
    (fun _ => ret false).

(** [extract_from_file]: [read_csv_file] stands for [pd.read_csv] on a
    path, [None] where it raises. *)
Definition extract_from_file (read_csv_file : string -> option DataFrame)
  (file_path table_name : string) : M bool :=
  try_except
    (df <- match read_csv_file file_path with
           | Some df => ret df
           | None => raise ValueError
           end;;
     load_to_landing df table_name (Some file_path))
    (fun _ => ret false).

End CSVExtractor.

(** ** Fetching over HTTP *)

(** [requests.get(url)]. *)
Definition requests_get (url : string) : M response :=
  fun w =>
    let w' := set_calls (S (calls w)) w in
    match http (env w) (calls w) url with
    | Some r => (Returned r, w')
    | None => (Raised RequestException, w')
    end.

(** [response.raise_for_status()]: 4xx and 5xx raise. *)
Definition raise_for_status (r : response) : M unit :=
  if ((400 <=? status_code r) && (status_code r <? 600))%Z
  then raise HTTPError else ret tt.

(** [response.json()]. *)
Definition response_json (r : response) : M pyval :=
  match json_body r with
  | Some v => ret v
  | None => raise ValueError
  end.

(** [pd.read_csv(StringIO(response.text))]. *)
Definition read_csv (r : response) : M DataFrame :=
  match csv_body r with
  | Some df => ret df
  | None => raise ValueError
  end.

(** The loop shared by both [extract_all] methods:
    [for key, table_name in config.items(): if process(key, table_name):
    successful_extractions += 1]. *)
Fixpoint extract_loop (process : string -> string -> M bool)
  (items : list (string * string)) (successful_extractions : nat) : M nat :=
  match items with
  | [] => ret successful_extractions
  | (key, table_name) :: rest =>
      ok <- process key table_name;;
      extract_loop process rest
        (if ok then successful_extractions + 1 else successful_extractions)
  end.

(** ** S3_Extractor.py *)

Record s3_config : Type := {
  bucket_name : string;
  region : string;
  files : list (string * string)      (* file key -> table, in config order *)
}.

Module PublicS3Extractor.

Definition get_public_url (cfg : s3_config) (file_key : string)
  : M (option string) :=
  try_except
    (ret (Some ("https://" ++ bucket_name cfg ++ ".s3." ++ region cfg
                  ++ ".amazonaws.com/" ++ file_key)%string))
    (fun _ => ret None).

Definition extract_file (cfg : s3_config) (file_key table_name : string)
  : M bool :=
  try_except
    (public_url <- get_public_url cfg file_key;;
     match public_url with
     | None => ret false
     | Some url =>
         if negb (truthy public_url) then ret false else
         response <- requests_get url;;
         raise_for_status response;;
         if str_endswith (str_lower file_key) ".json" then
           json_data <- response_json response;;
           JSONExtractor.extract_from_object json_data table_name
             (Some file_key)
         else if str_endswith (str_lower file_key) ".csv" then
           df <- read_csv response;;
           CSVExtractor.extract_from_dataframe df table_name (Some file_key)
         else
           (* logger.error("Unsupported file format ...") *)
           ret false
     end)
    (fun _ => ret false).

Definition extract_all (cfg : s3_config) : M bool :=
  try_except
    (let files_config := files cfg in
     let total_files := List.length files_config in
     successful_extractions <-
       extract_loop (extract_file cfg) files_config 0;;
     ret (successful_extractions =? total_files))
    (fun _ => ret false).

End PublicS3Extractor.

(** ** API_Extractor.py *)

Record api_config : Type := {
  endpoints : list (string * string)  (* endpoint -> table, in config order *)
}.

Module APIExtractor.

Definition make_api_request_with_details (endpoint : string)
  : M (option (pyval * Z)) :=
  try_except
    (response <- requests_get endpoint;;
     raise_for_status response;;
     json_data <- response_json response;;
     ret (Some (json_data, status_code response)))
    (fun _ => ret None).

Definition extract_endpoint (endpoint table_name : string) : M bool :=
  try_except
    (response_data <- make_api_request_with_details endpoint;;
     match response_data with
     | None => ret false
     | Some (json_data, status_code) =>
         JSONExtractor.load_to_landing json_data table_name
           (Some endpoint) (Some endpoint) (Some status_code)
     end)
    (fun _ => ret false).

Definition extract_all (cfg : api_config) : M bool :=
  try_except
    (let endpoints_config := endpoints cfg in
     let total_endpoints := List.length endpoints_config in
     successful_extractions <-
       extract_loop extract_endpoint endpoints_config 0;;
     ret (successful_extractions =? total_endpoints))
    (fun _ => ret false).


End APIExtractor.

(** ** Main_Extractor.py *)

Record config : Type := {
  s3 : s3_config;
  api : api_config
}.

Module MainExtractor.

Definition extract_from_s3 (cfg : config) : M bool :=
  try_except (PublicS3Extractor.extract_all (s3 cfg)) (fun _ => ret false).

Definition extract_from_api (cfg : config) : M bool :=
  try_except (APIExtractor.extract_all (api cfg)) (fun _ => ret false).

(** [try: ... except: return False / finally: close_connection()]. *)
Definition extract_all (cfg : config) : M bool :=
  overall_success <-
    try_except
      (s3_success <- extract_from_s3 cfg;;
       api_success <- extract_from_api cfg;;
       ret (s3_success && api_success))
      (fun _ => ret false);;
  DatabaseConnector.close_connection;;
  ret overall_success.

(** The orchestrator's own inspector: it does not split the name. *)
Definition get_table_columns (table_name : string) : M (list string) :=
  try_except
    (connection <- DatabaseConnector.get_connection;;
     cursor connection;;
     rows <- cursor_execute (SelectColumns None table_name);;
     let columns := map (fun row => hd "" row) rows in
     ret columns)
    (fun _ => ret []).

Definition truncate_table (table_name : string) : M bool :=
  try_except
    (DatabaseConnector.truncate_table table_name)
    (fun _ => ret false).

(** [run_extraction]: the source is compared in lower case. *)
Definition run_extraction (cfg : config) (source : string) : M bool :=
  try_except
    (if String.eqb (str_lower source) "s3" then extract_from_s3 cfg
     else if String.eqb (str_lower source) "api" then extract_from_api cfg
     else if String.eqb (str_lower source) "all" then extract_all cfg
     else ret false)
    (fun _ => ret false).

End MainExtractor.


(** ** dataExtraction.py *)

Module dataExtraction.

(** [load_data]: the extension is tested as written, without lowering;
    the two readers stand for [pd.read_csv] and [pd.read_json], [None]
    where they raise. *)
Definition load_data (read_csv_file read_json_file : string -> option DataFrame)
  (file_path : string) : M DataFrame :=
  if str_endswith file_path ".csv" then
    match read_csv_file file_path with
    | Some df => ret df
    | None => raise GenericException
    end
  else if str_endswith file_path ".json" then
    match read_json_file file_path with
    | Some df => ret df
    | None => raise GenericException
    end
  else raise ValueError.

End dataExtraction.

(** ** Vocabulary of the statements below *)

(** The catalog query the Schema Inspector sends for a table name. *)
Definition catalog_query (table_name : string) : stmt :=
  match split_qualified table_name with
  | Some (schema_name, table_name_only) =>
      SelectColumns (Some schema_name) table_name_only
  | None => SelectColumns None table_name
  end.

(** Does the query select this catalog line? *)
Definition selects (s : stmt) (r : catalog_row) : bool :=
  match s with
  | SelectColumns schema table => catalog_match schema table r
  | _ => false
  end.

(** The catalog lines a query selects, in the order it returns them. *)
Definition catalog_rows (s : stmt) (cat : list catalog_row) : list catalog_row :=
  order_by_ordinal (filter (selects s) cat).


(** The value a stored row holds in a column. *)
Fixpoint row_get (c : string) (r : row) : option pyval :=
  match r with
  | [] => None
  | (c', v) :: t => if String.eqb c c' then Some v else row_get c t
  end.

(** The row an insert statement stores. *)
Definition stored_row (s : stmt) : row :=
  match s with
  | InsertInto _ columns _ values => combine columns values
  | _ => []
  end.

Definition is_insert (s : stmt) : bool :=
  match s with
  | InsertInto _ _ _ _ => true
  | _ => false
  end.

Definition is_truncate (s : stmt) : bool :=
  match s with
  | TruncateTable _ => true
  | _ => false
  end.

(** The values of one record (lines 70-85) when the clock, if it is read
    for [loaded_at], shows [loaded_at]. *)
Definition row_values_at (table_columns : list string)
  (file_name api_endpoint : option string) (response_status : option Z)
  (request_time loaded_at : Z) (json_obj : pyval) : list pyval :=
  let values := [PJson json_obj] in
  let values := if py_in "loaded_at" table_columns
                then values ++ [PTime loaded_at] else values in
  let values := if py_in "file_name" table_columns && truthy file_name
                then values ++ [str_arg file_name] else values in
  let values := if py_in "api_endpoint" table_columns && truthy api_endpoint
                then values ++ [str_arg api_endpoint] else values in
  let values := if py_in "request_timestamp" table_columns
                then values ++ [PTime request_time] else values in
  let values := if py_in "response_status" table_columns
                   && is_not_None response_status
                then values ++ [int_arg response_status] else values in
  values.

(** The insert statements of one call, record by record: the clock has
    been read [reads] times when the loop reaches the first record, and is
    read once more per record when the destination has [loaded_at]. *)
Fixpoint insert_stmts (table_name : string) (table_columns : list string)
  (file_name api_endpoint : option string) (response_status : option Z)
  (request_time : Z) (clock : nat -> Z) (reads : nat) (json_data : list pyval)
  : list stmt :=
  match json_data with
  | [] => []
  | json_obj :: rest =>
      InsertInto table_name
        (JSONExtractor.insert_columns table_columns file_name api_endpoint
           response_status)
        (JSONExtractor.insert_placeholders table_columns file_name
           api_endpoint response_status)
        (row_values_at table_columns file_name api_endpoint response_status
           request_time (clock reads) json_obj)
      :: insert_stmts table_name table_columns file_name api_endpoint
           response_status request_time clock
           (if py_in "loaded_at" table_columns then S reads else reads) rest
  end.

(** [isinstance(json_data, list)] and the coercion of line 26. *)
Definition as_records (json_data : pyval) : list pyval :=
  match json_data with
  | PList l => l
  | v => [v]
  end.

(** The statement stores one record of the batch in the table: the
    document goes first, under [raw_data]. *)
Definition inserts_record (table : string) (record : pyval) (s : stmt) : Prop :=
  exists columns placeholders rest,
    s = InsertInto table ("raw_data" :: columns) placeholders
          (PJson record :: rest).

(** Running every entry in its turn, whatever the earlier results, and
    collecting the results: entry [i] meets the world that entries
    [0..i-1] left behind. *)
Fixpoint run_entries (process : string -> string -> M bool)
  (items : list (string * string)) (w : world) : list bool * world :=
  match items with
  | [] => ([], w)
  | (key, table_name) :: rest =>
      let (o, w1) := process key table_name w in
      let (results, w2) := run_entries process rest w1 in
      (match o with
       | Returned ok => ok
       | Raised _ => false
       end :: results, w2)
  end.

Definition all_succeeded (results : list bool) : bool :=
  forallb (fun ok => ok) results.

(** ** Sample worlds *)

Module Examples.

Definition col (t c : string) (n : nat) : catalog_row :=
  {| table_schema := "public"; table_name := t; column_name := c;
     ordinal_position := n |}.

(** Four landing tables: two with a document column, two structured. *)
Definition sample_catalog : list catalog_row :=
  [ col "lnd_items" "raw_data" 1; col "lnd_items" "loaded_at" 2;
    col "lnd_items" "api_endpoint" 3; col "lnd_items" "response_status" 4;
    col "lnd_docs" "raw_data" 1; col "lnd_docs" "loaded_at" 2;
    col "lnd_docs" "request_timestamp" 3;
    col "lnd_users" "id" 1; col "lnd_users" "source_file" 2;
    col "lnd_prices" "id" 1; col "lnd_prices" "price" 2;
    col "lnd_prices" "loaded_at" 3 ].

(** A clock that advances by one at every reading. *)
Definition ticking (n : nat) : Z := (1000 + Z.of_nat n)%Z.

(** Nothing fails; the network serves nothing. *)
Definition calm : environment :=
  {| fault := fun _ => false; now := ticking; catalog := sample_catalog;
     http := fun _ _ => None |}.

(** Only the external call number [k] fails. *)
Definition failing_at (k : nat) : environment :=
  {| fault := fun n => n =? k; now := ticking; catalog := sample_catalog;
     http := fun _ _ => None |}.

(** A process that has not touched the database yet. *)
Definition fresh (e : environment) : world :=
  {| env := e; calls := 0; reads := 0; connection := NoSession;
     engine := false; tables := fun _ => []; pending := []; executed := [] |}.

(** A process with an open session and one row already in [lnd_docs]. *)
Definition old_row : row := [("raw_data", PJson (PStr "old"))].

Definition stocked (e : environment) : world :=
  {| env := e; calls := 1; reads := 0; connection := OpenSession;
     engine := false;
     tables := fun t => if String.eqb t "lnd_docs" then [old_row] else [];
     pending := []; executed := [] |}.

(** A process whose session was closed by an earlier full run. *)
Definition closed (e : environment) : world :=
  {| env := e; calls := 1; reads := 0; connection := ClosedSession;
     engine := false; tables := fun _ => []; pending := []; executed := [] |}.

Definition two_records : pyval := PList [PInt 1; PInt 2].

(** An object store with three files, the unsupported one first. *)
Definition sample_s3 : s3_config :=
  {| bucket_name := "landing"; region := "eu-west-1";
     files := [("notes.txt", "lnd_docs"); ("DATA.CSV", "lnd_prices");
               ("data.Json", "lnd_docs")] |}.

Definition prices_frame : DataFrame :=
  {| df_columns := ["Id"; "Price"; "Remark"];
     df_rows := [[PInt 1; PInt 10; PStr "x"]; [PInt 2; PInt 20; PStr "y"]] |}.

Definition ok_response (j : option pyval) (c : option DataFrame) : response :=
  {| status_code := 200; json_body := j; csv_body := c |}.

Definition sample_http (n : nat) (url : string) : option response :=
  if String.eqb url "https://landing.s3.eu-west-1.amazonaws.com/DATA.CSV"
  then Some (ok_response None (Some prices_frame))
  else if String.eqb url "https://landing.s3.eu-west-1.amazonaws.com/data.Json"
  then Some (ok_response (Some two_records) None)
  else if String.eqb url "https://landing.s3.eu-west-1.amazonaws.com/notes.txt"
  then Some (ok_response None None)
  else if String.eqb url "https://api.example/items"
  then Some (ok_response (Some (PList [PInt 7; PInt 8; PInt 9])) None)
  else None.

(** Nothing fails and the network serves the sample files. *)
Definition online : environment :=
  {| fault := fun _ => false; now := ticking; catalog := sample_catalog;
     http := sample_http |}.

Definition sample_config : config :=
  {| s3 := sample_s3;
     api := {| endpoints := [("https://api.example/down", "lnd_docs");
                             ("https://api.example/items", "lnd_items")] |} |}.

End Examples.

(** ** Vocabulary of the further properties *)

(** ['.' in s]. *)
Definition has_dot (s : string) : bool :=
  existsb PyStr.is_dot (list_ascii_of_string s).



(** The rows a frame stores when it is appended to a table. *)
Definition frame_rows (df : DataFrame) : list row :=
  map (combine (df_columns df)) (df_rows df).

(** A configuration every entry of which the sample network serves. *)
Definition served_config : config :=
  {| s3 := {| bucket_name := "landing"; region := "eu-west-1";
              files := [("data.Json", "lnd_docs");
                        ("DATA.CSV", "lnd_prices")] |};
     api := {| endpoints := [("https://api.example/items", "lnd_items")] |} |}.

(** An operation keeps the session: it leaves the environment alone and
    does not close a session that was not closed. *)
Definition keeps {A : Type} (m : M A) : Prop :=
  forall w,
    env (snd (m w)) = env w
    /\ (connection w <> ClosedSession ->
        connection (snd (m w)) <> ClosedSession).

(* ================================================================== *)
(** * Part II: theorems                                                *)
(* ================================================================== *)

Example camel_to_snake_userID : camel_to_snake "userID" = "user_id".
Proof. reflexivity. Qed.

Example camel_to_snake_first_name : camel_to_snake "First Name" = "first_name".
Proof. reflexivity. Qed.

Example camel_to_snake_order_date : camel_to_snake "order-date" = "order_date".
Proof. reflexivity. Qed.

Example camel_to_snake_mess : camel_to_snake "__ HTTPResponse -- Code9X_ " = "httpresponse_code9_x".
Proof. reflexivity. Qed.

(** ** Column-name normalization *)

Section Runs.

Variable cls : ascii -> bool.

Lemma lstrip_head_ok (s : list ascii) : head_ok cls (PyStr.lstrip cls s) = true.
Proof.
  induction s as [|c t IH]; simpl; [reflexivity|].
  destruct (cls c) eqn:E; [exact IH|]. simpl. now rewrite E.
Qed.

Lemma lstrip_id (s : list ascii) :
  head_ok cls s = true -> PyStr.lstrip cls s = s.
Proof.
  destruct s as [|c t]; simpl; [reflexivity|].
  intros H. apply negb_true_iff in H. now rewrite H.
Qed.

Lemma lstrip_snoc (s : list ascii) (c : ascii) :
  cls c = false -> PyStr.lstrip cls (s ++ [c]) = PyStr.lstrip cls s ++ [c].
Proof.
  intros Hc. induction s as [|a t IH]; simpl.
  - now rewrite Hc.
  - destruct (cls a); [exact IH | reflexivity].
Qed.

Lemma rstrip_cons (c : ascii) (t : list ascii) :
  cls c = false -> PyStr.rstrip cls (c :: t) = c :: PyStr.rstrip cls t.
Proof.
  intros Hc. unfold PyStr.rstrip. simpl.
  rewrite lstrip_snoc by exact Hc.
  rewrite rev_app_distr. reflexivity.
Qed.

Lemma strip_head_ok (s : list ascii) : head_ok cls (PyStr.strip cls s) = true.
Proof.
  unfold PyStr.strip.
  pose proof (lstrip_head_ok s) as H.
  destruct (PyStr.lstrip cls s) as [|c t]; [reflexivity|].
  simpl in H. apply negb_true_iff in H.
  rewrite rstrip_cons by exact H. simpl. now rewrite H.
Qed.

Lemma strip_last_ok (s : list ascii) :
  head_ok cls (rev (PyStr.strip cls s)) = true.
Proof.
  unfold PyStr.strip, PyStr.rstrip. rewrite rev_involutive.
  apply lstrip_head_ok.
Qed.

Lemma strip_id (s : list ascii) :
  head_ok cls s = true -> head_ok cls (rev s) = true -> PyStr.strip cls s = s.
Proof.
  intros H1 H2. unfold PyStr.strip, PyStr.rstrip.
  rewrite (lstrip_id s H1), (lstrip_id (rev s) H2).
  apply rev_involutive.
Qed.

Lemma strip_Forall (P : ascii -> Prop) (s : list ascii) :
  Forall P s -> Forall P (PyStr.strip cls s).
Proof.
  assert (L : forall l, Forall P l -> Forall P (PyStr.lstrip cls l)).
  { induction l as [|c t IH]; simpl; intros H; [constructor|].
    destruct (cls c); [apply IH; now inversion H | exact H]. }
  intros H. unfold PyStr.strip, PyStr.rstrip.
  apply Forall_rev, L, Forall_rev, L, H.
Qed.

Lemma sub_runs_Forall (P : ascii -> Prop) (b : bool) (s : list ascii) :
  P PyStr.underscore -> Forall P s -> Forall P (PyStr.sub_runs cls b s).
Proof.
  intros Hu H. revert b.
  induction H as [|c t Hc Ht IH]; intros b; simpl; [constructor|].
  destruct (cls c); [destruct b|]; auto.
Qed.

(** When the replacement character is outside the class, nothing of the
    class is left. *)
Lemma sub_runs_outside (b : bool) (s : list ascii) :
  cls PyStr.underscore = false ->
  Forall (fun c => cls c = false) (PyStr.sub_runs cls b s).
Proof.
  intros Hu. revert b.
  induction s as [|c t IH]; intros b; simpl; [constructor|].
  destruct (cls c) eqn:E; [destruct b|]; auto.
Qed.

(** A string without characters of the class has no run to replace. *)
Lemma sub_runs_none (b : bool) (s : list ascii) :
  Forall (fun c => cls c = false) s -> PyStr.sub_runs cls b s = s.
Proof.
  intros H. revert b.
  induction H as [|c t Hc Ht IH]; intros b; simpl; [reflexivity|].
  rewrite Hc. now rewrite IH.
Qed.

Lemma sub_runs_snoc (b : bool) (s : list ascii) (c : ascii) :
  cls c = false ->
  PyStr.sub_runs cls b (s ++ [c]) = PyStr.sub_runs cls b s ++ [c].
Proof.
  intros Hc. revert b.
  induction s as [|a t IH]; intros b; simpl.
  - now rewrite Hc.
  - destruct (cls a); [destruct b|]; simpl; now rewrite IH.
Qed.

Lemma sub_runs_in_run_head (s : list ascii) :
  cls PyStr.underscore = true ->
  head_ok cls (PyStr.sub_runs cls true s) = true.
Proof.
  intros _. induction s as [|c t IH]; simpl; [reflexivity|].
  destruct (cls c) eqn:E; [exact IH|]. simpl. now rewrite E.
Qed.

Lemma sub_runs_no_double (b : bool) (s : list ascii) :
  cls PyStr.underscore = true ->
  no_double cls (PyStr.sub_runs cls b s) = true.
Proof.
  intros Hu. revert b.
  induction s as [|c t IH]; intros b; simpl; [reflexivity|].
  destruct (cls c) eqn:E.
  - destruct b; [apply IH|]. simpl.
    rewrite (sub_runs_in_run_head t Hu), IH. now rewrite orb_true_r.
  - simpl. rewrite E, IH. reflexivity.
Qed.

Lemma sub_runs_head_ok (s : list ascii) :
  head_ok cls s = true -> head_ok cls (PyStr.sub_runs cls false s) = true.
Proof.
  destruct s as [|c t]; simpl; [reflexivity|].
  intros H. apply negb_true_iff in H. rewrite H. simpl. now rewrite H.
Qed.

Lemma sub_runs_last_ok (s : list ascii) :
  head_ok cls (rev s) = true -> head_ok cls (rev (PyStr.sub_runs cls false s)) = true.
Proof.
  intros H. destruct (rev s) as [|c r] eqn:E.
  - apply (f_equal (@rev ascii)) in E. rewrite rev_involutive in E.
    subst s. reflexivity.
  - apply (f_equal (@rev ascii)) in E. rewrite rev_involutive in E.
    simpl in E. subst s. simpl in H. apply negb_true_iff in H.
    rewrite sub_runs_snoc by exact H.
    rewrite rev_app_distr. simpl. now rewrite H.
Qed.

(** Collapsing leaves a string alone when the class is the single
    replacement character and no two of them are neighbours. *)
Lemma sub_runs_collapsed (b : bool) (s : list ascii) :
  (forall c, cls c = true -> c = PyStr.underscore) ->
  no_double cls s = true ->
  (b = true -> head_ok cls s = true) ->
  PyStr.sub_runs cls b s = s.
Proof.
  intros Hone. revert b.
  induction s as [|c t IH]; intros b Hnd Hb; simpl; [reflexivity|].
  simpl in Hnd. apply andb_true_iff in Hnd. destruct Hnd as [Hh Hnd].
  destruct (cls c) eqn:E.
  - destruct b.
    + specialize (Hb eq_refl). simpl in Hb. rewrite E in Hb. discriminate.
    + simpl in Hh. rewrite (Hone c E). f_equal. apply IH; auto.
  - f_equal. apply IH; [exact Hnd | discriminate].
Qed.

End Runs.

Lemma sub_camel_cons2 (c1 c2 : ascii) (t : list ascii) :
  PyStr.sub_camel (c1 :: c2 :: t) =
  if PyStr.is_lower_or_digit c1 && PyStr.is_upper c2
  then c1 :: PyStr.underscore :: c2 :: PyStr.sub_camel t
  else c1 :: PyStr.sub_camel (c2 :: t).
Proof. reflexivity. Qed.

Lemma sub_camel_Forall (P : ascii -> Prop) (s : list ascii) :
  P PyStr.underscore -> Forall P s -> Forall P (PyStr.sub_camel s).
Proof.
  intros Hu H.
  enough (G : Forall P (PyStr.sub_camel s)
              /\ forall c, P c -> Forall P (PyStr.sub_camel (c :: s)))
    by apply G.
  induction H as [|a t Ha Ht [IH1 IH2]].
  - split; [constructor | intros c Hc; repeat constructor; exact Hc].
  - assert (G1 : Forall P (PyStr.sub_camel (a :: t))) by (apply IH2, Ha).
    split; [exact G1|].
    intros c Hc. rewrite sub_camel_cons2.
    destruct (PyStr.is_lower_or_digit c && PyStr.is_upper a);
      repeat constructor; auto.
Qed.

(** Without a capital letter there is no camel-case boundary. *)
Lemma sub_camel_none (s : list ascii) :
  Forall (fun c => PyStr.is_upper c = false) s -> PyStr.sub_camel s = s.
Proof.
  induction 1 as [|c1 t H1 Ht IH]; [reflexivity|].
  destruct t as [|c2 t']; [reflexivity|].
  rewrite sub_camel_cons2.
  inversion Ht as [|? ? H2 _]; subst.
  rewrite H2, andb_false_r. now rewrite IH.
Qed.

Lemma lower_char_settled (c : ascii) :
  PyStr.is_space_or_dash c = false -> settled (PyStr.lower_char c) = true.
Proof.
  destruct c as [[] [] [] [] [] [] [] []]; vm_compute; congruence.
Qed.

Lemma is_underscore_inv (c : ascii) :
  PyStr.is_underscore c = true -> c = PyStr.underscore.
Proof.
  destruct c as [[] [] [] [] [] [] [] []]; vm_compute; congruence.
Qed.

Lemma settled_inv (c : ascii) :
  settled c = true ->
  PyStr.is_space_or_dash c = false /\ PyStr.is_upper c = false
  /\ PyStr.lower_char c = c.
Proof.
  unfold settled. intros H.
  apply andb_true_iff in H. destruct H as [H H3].
  apply andb_true_iff in H. destruct H as [H1 H2].
  apply negb_true_iff in H1. apply negb_true_iff in H2.
  apply Ascii.eqb_eq in H3. auto.
Qed.

Lemma camel_to_snake_chars_normalized (name : list ascii) :
  normalized (camel_to_snake_chars name).
Proof.
  unfold camel_to_snake_chars, normalized.
  repeat split.
  - apply sub_runs_Forall; [reflexivity|].
    apply strip_Forall. unfold PyStr.lower.
    apply Forall_map.
    assert (H : Forall (fun c => PyStr.is_space_or_dash c = false)
                  (PyStr.sub_camel
                     (PyStr.sub_runs PyStr.is_space_or_dash false name))).
    { apply sub_camel_Forall; [reflexivity|].
      now apply sub_runs_outside. }
    eapply Forall_impl; [|exact H].
    intros c Hc. now apply lower_char_settled.
  - apply sub_runs_head_ok, strip_head_ok.
  - apply sub_runs_last_ok, strip_last_ok.
  - now apply sub_runs_no_double.
Qed.

Lemma camel_to_snake_chars_fixes_normalized (s : list ascii) :
  normalized s -> camel_to_snake_chars s = s.
Proof.
  intros (Hs & Hh & Hl & Hd). unfold camel_to_snake_chars.
  rewrite (sub_runs_none PyStr.is_space_or_dash false s).
  2:{ eapply Forall_impl; [|exact Hs]. intros c Hc.
      now destruct (settled_inv c Hc). }
  rewrite sub_camel_none.
  2:{ eapply Forall_impl; [|exact Hs]. intros c Hc.
      now destruct (settled_inv c Hc) as (_ & ? & _). }
  replace (PyStr.lower s) with s.
  2:{ unfold PyStr.lower. clear Hh Hl Hd.
      induction Hs as [|c t Hc Ht IH]; simpl; [reflexivity|].
      destruct (settled_inv c Hc) as (_ & _ & E). rewrite E. now f_equal. }
  rewrite strip_id by assumption.
  apply sub_runs_collapsed; auto using is_underscore_inv; discriminate.
Qed.

(** C8.  Column-name normalization is idempotent: [camel_to_snake] applied
    to one of its own results returns that result unchanged, for every
    input string. *)
Theorem camel_to_snake_idempotent (name : string) :
  camel_to_snake (camel_to_snake name) = camel_to_snake name.
Proof.
  unfold camel_to_snake.
  rewrite list_ascii_of_string_of_list_ascii.
  f_equal. apply camel_to_snake_chars_fixes_normalized.
  apply camel_to_snake_chars_normalized.
Qed.

Example camel_to_snake_user_id : camel_to_snake "user_id" = "user_id".
Proof. reflexivity. Qed.

(** ** Membership and small list facts *)

Lemma py_in_In (x : string) (xs : list string) :
  py_in x xs = true <-> In x xs.
Proof.
  unfold py_in. rewrite existsb_exists. split.
  - intros (y & Hy & E). apply String.eqb_eq in E. now subst.
  - intros H. exists x. split; [exact H | apply String.eqb_refl].
Qed.

Lemma py_in_false (x : string) (xs : list string) :
  py_in x xs = false <-> ~ In x xs.
Proof.
  rewrite <- py_in_In. destruct (py_in x xs); split; congruence.
Qed.

Lemma is_not_None_true {A : Type} (a : option A) :
  is_not_None a = true <-> a <> None.
Proof. destruct a; simpl; split; congruence. Qed.

(** ** The column list of the Document Loader *)

Lemma append_if {A : Type} (b : bool) (l : list A) (x : A) :
  (if b then l ++ [x] else l) = l ++ (if b then [x] else []).
Proof. destruct b; [reflexivity | now rewrite app_nil_r]. Qed.

Lemma column_enabled_cases fn ep st :
  JSONExtractor.column_enabled fn ep st "loaded_at" = true
  /\ JSONExtractor.column_enabled fn ep st "file_name" = truthy fn
  /\ JSONExtractor.column_enabled fn ep st "api_endpoint" = truthy ep
  /\ JSONExtractor.column_enabled fn ep st "request_timestamp" = true
  /\ JSONExtractor.column_enabled fn ep st "response_status" = is_not_None st.
Proof.
  unfold JSONExtractor.column_enabled.
  generalize (truthy fn), (truthy ep), (is_not_None st).
  intros [] [] []; repeat split; reflexivity.
Qed.

Lemma insert_columns_filter tc fn ep st :
  JSONExtractor.insert_columns tc fn ep st =
  "raw_data"
    :: filter (fun c => py_in c tc && JSONExtractor.column_enabled fn ep st c)
         ["loaded_at"; "file_name"; "api_endpoint"; "request_timestamp";
          "response_status"].
Proof.
  destruct (column_enabled_cases fn ep st) as (E1 & E2 & E3 & E4 & E5).
  unfold JSONExtractor.insert_columns. cbn [filter].
  rewrite E1, E2, E3, E4, E5, !andb_true_r, !append_if.
  generalize (py_in "loaded_at" tc), (py_in "file_name" tc && truthy fn),
    (py_in "api_endpoint" tc && truthy ep), (py_in "request_timestamp" tc),
    (py_in "response_status" tc && is_not_None st).
  intros [] [] [] [] []; reflexivity.
Qed.

Lemma length_append_if {A : Type} (b : bool) (l : list A) (x : A) :
  List.length (if b then l ++ [x] else l)
  = List.length l + (if b then 1 else 0).
Proof.
  destruct b; [rewrite length_app; reflexivity | now rewrite Nat.add_0_r].
Qed.

Lemma insert_placeholders_length tc fn ep st :
  List.length (JSONExtractor.insert_placeholders tc fn ep st)
  = List.length (JSONExtractor.insert_columns tc fn ep st).
Proof.
  unfold JSONExtractor.insert_placeholders, JSONExtractor.insert_columns.
  rewrite !length_append_if. reflexivity.
Qed.

Lemma insert_columns_NoDup tc fn ep st :
  NoDup (JSONExtractor.insert_columns tc fn ep st).
Proof.
  rewrite insert_columns_filter. constructor.
  - rewrite filter_In. cbn [In]. intuition discriminate.
  - apply NoDup_filter.
    repeat (constructor; [cbn [In]; intuition discriminate|]). constructor.
Qed.

Lemma insert_columns_In tc fn ep st (c : string) :
  In c (JSONExtractor.insert_columns tc fn ep st) <->
  c = "raw_data"
  \/ (In c tc
      /\ (c = "loaded_at"
          \/ (c = "file_name" /\ truthy fn = true)
          \/ (c = "api_endpoint" /\ truthy ep = true)
          \/ c = "request_timestamp"
          \/ (c = "response_status" /\ st <> None))).
Proof.
  rewrite insert_columns_filter. cbn [In]. rewrite filter_In.
  rewrite andb_true_iff, py_in_In. unfold JSONExtractor.column_enabled.
  rewrite !orb_true_iff, !andb_true_iff, !String.eqb_eq, is_not_None_true.
  cbn [In]. intuition (subst; auto).
Qed.

(** ** Reading a field of an updated world *)

Lemma env_set_calls x (w : world) : env (set_calls x w) = env w.
Proof. reflexivity. Qed.

Lemma calls_set_calls x (w : world) : calls (set_calls x w) = x.
Proof. reflexivity. Qed.

Lemma reads_set_calls x (w : world) : reads (set_calls x w) = reads w.
Proof. reflexivity. Qed.

Lemma connection_set_calls x (w : world) : connection (set_calls x w) = connection w.
Proof. reflexivity. Qed.

Lemma engine_set_calls x (w : world) : engine (set_calls x w) = engine w.
Proof. reflexivity. Qed.

Lemma tables_set_calls x (w : world) : tables (set_calls x w) = tables w.
Proof. reflexivity. Qed.

Lemma pending_set_calls x (w : world) : pending (set_calls x w) = pending w.
Proof. reflexivity. Qed.

Lemma executed_set_calls x (w : world) : executed (set_calls x w) = executed w.
Proof. reflexivity. Qed.

Lemma env_set_reads x (w : world) : env (set_reads x w) = env w.
Proof. reflexivity. Qed.

Lemma calls_set_reads x (w : world) : calls (set_reads x w) = calls w.
Proof. reflexivity. Qed.

Lemma reads_set_reads x (w : world) : reads (set_reads x w) = x.
Proof. reflexivity. Qed.

Lemma connection_set_reads x (w : world) : connection (set_reads x w) = connection w.
Proof. reflexivity. Qed.

Lemma engine_set_reads x (w : world) : engine (set_reads x w) = engine w.
Proof. reflexivity. Qed.

Lemma tables_set_reads x (w : world) : tables (set_reads x w) = tables w.
Proof. reflexivity. Qed.

Lemma pending_set_reads x (w : world) : pending (set_reads x w) = pending w.
Proof. reflexivity. Qed.

Lemma executed_set_reads x (w : world) : executed (set_reads x w) = executed w.
Proof. reflexivity. Qed.

Lemma env_set_connection x (w : world) : env (set_connection x w) = env w.
Proof. reflexivity. Qed.

Lemma calls_set_connection x (w : world) : calls (set_connection x w) = calls w.
Proof. reflexivity. Qed.

Lemma reads_set_connection x (w : world) : reads (set_connection x w) = reads w.
Proof. reflexivity. Qed.

Lemma connection_set_connection x (w : world) : connection (set_connection x w) = x.
Proof. reflexivity. Qed.

Lemma engine_set_connection x (w : world) : engine (set_connection x w) = engine w.
Proof. reflexivity. Qed.

Lemma tables_set_connection x (w : world) : tables (set_connection x w) = tables w.
Proof. reflexivity. Qed.

Lemma pending_set_connection x (w : world) : pending (set_connection x w) = pending w.
Proof. reflexivity. Qed.

Lemma executed_set_connection x (w : world) : executed (set_connection x w) = executed w.
Proof. reflexivity. Qed.

Lemma env_set_engine x (w : world) : env (set_engine x w) = env w.
Proof. reflexivity. Qed.

Lemma calls_set_engine x (w : world) : calls (set_engine x w) = calls w.
Proof. reflexivity. Qed.

Lemma reads_set_engine x (w : world) : reads (set_engine x w) = reads w.
Proof. reflexivity. Qed.

Lemma connection_set_engine x (w : world) : connection (set_engine x w) = connection w.
Proof. reflexivity. Qed.

Lemma engine_set_engine x (w : world) : engine (set_engine x w) = x.
Proof. reflexivity. Qed.

Lemma tables_set_engine x (w : world) : tables (set_engine x w) = tables w.
Proof. reflexivity. Qed.

Lemma pending_set_engine x (w : world) : pending (set_engine x w) = pending w.
Proof. reflexivity. Qed.

Lemma executed_set_engine x (w : world) : executed (set_engine x w) = executed w.
Proof. reflexivity. Qed.

Lemma env_set_tables x (w : world) : env (set_tables x w) = env w.
Proof. reflexivity. Qed.

Lemma calls_set_tables x (w : world) : calls (set_tables x w) = calls w.
Proof. reflexivity. Qed.

Lemma reads_set_tables x (w : world) : reads (set_tables x w) = reads w.
Proof. reflexivity. Qed.

Lemma connection_set_tables x (w : world) : connection (set_tables x w) = connection w.
Proof. reflexivity. Qed.

Lemma engine_set_tables x (w : world) : engine (set_tables x w) = engine w.
Proof. reflexivity. Qed.

Lemma tables_set_tables x (w : world) : tables (set_tables x w) = x.
Proof. reflexivity. Qed.

Lemma pending_set_tables x (w : world) : pending (set_tables x w) = pending w.
Proof. reflexivity. Qed.

Lemma executed_set_tables x (w : world) : executed (set_tables x w) = executed w.
Proof. reflexivity. Qed.

Lemma env_set_pending x (w : world) : env (set_pending x w) = env w.
Proof. reflexivity. Qed.

Lemma calls_set_pending x (w : world) : calls (set_pending x w) = calls w.
Proof. reflexivity. Qed.

Lemma reads_set_pending x (w : world) : reads (set_pending x w) = reads w.
Proof. reflexivity. Qed.

Lemma connection_set_pending x (w : world) : connection (set_pending x w) = connection w.
Proof. reflexivity. Qed.

Lemma engine_set_pending x (w : world) : engine (set_pending x w) = engine w.
Proof. reflexivity. Qed.

Lemma tables_set_pending x (w : world) : tables (set_pending x w) = tables w.
Proof. reflexivity. Qed.

Lemma pending_set_pending x (w : world) : pending (set_pending x w) = x.
Proof. reflexivity. Qed.

Lemma executed_set_pending x (w : world) : executed (set_pending x w) = executed w.
Proof. reflexivity. Qed.

Lemma env_set_executed x (w : world) : env (set_executed x w) = env w.
Proof. reflexivity. Qed.

Lemma calls_set_executed x (w : world) : calls (set_executed x w) = calls w.
Proof. reflexivity. Qed.

Lemma reads_set_executed x (w : world) : reads (set_executed x w) = reads w.
Proof. reflexivity. Qed.

Lemma connection_set_executed x (w : world) : connection (set_executed x w) = connection w.
Proof. reflexivity. Qed.

Lemma engine_set_executed x (w : world) : engine (set_executed x w) = engine w.
Proof. reflexivity. Qed.

Lemma tables_set_executed x (w : world) : tables (set_executed x w) = tables w.
Proof. reflexivity. Qed.

Lemma pending_set_executed x (w : world) : pending (set_executed x w) = pending w.
Proof. reflexivity. Qed.

Lemma executed_set_executed x (w : world) : executed (set_executed x w) = x.
Proof. reflexivity. Qed.

Create Rewrite HintDb world.

#[export] Hint Rewrite
  env_set_calls calls_set_calls reads_set_calls connection_set_calls
  engine_set_calls tables_set_calls pending_set_calls executed_set_calls
  env_set_reads calls_set_reads reads_set_reads connection_set_reads
  engine_set_reads tables_set_reads pending_set_reads executed_set_reads
  env_set_connection calls_set_connection reads_set_connection connection_set_connection
  engine_set_connection tables_set_connection pending_set_connection executed_set_connection
  env_set_engine calls_set_engine reads_set_engine connection_set_engine
  engine_set_engine tables_set_engine pending_set_engine executed_set_engine
  env_set_tables calls_set_tables reads_set_tables connection_set_tables
  engine_set_tables tables_set_tables pending_set_tables executed_set_tables
  env_set_pending calls_set_pending reads_set_pending connection_set_pending
  engine_set_pending tables_set_pending pending_set_pending executed_set_pending
  env_set_executed calls_set_executed reads_set_executed connection_set_executed
  engine_set_executed tables_set_executed pending_set_executed executed_set_executed
  : world.

Lemma world_ext (w w' : world) :
  env w = env w' -> calls w = calls w' -> reads w = reads w' ->
  connection w = connection w' -> engine w = engine w' ->
  tables w = tables w' -> pending w = pending w' ->
  executed w = executed w' -> w = w'.
Proof.
  destruct w, w'; simpl; intros; subst; reflexivity.
Qed.

(** ** The primitives, step by step *)

Ltac run :=
  unfold bind, try_except, get, modify, ret, raise, external, datetime_now,
    set_calls, set_reads, set_connection, set_engine, set_tables,
    set_pending, set_executed;
  simpl.

Lemma bind_returned {A B : Type} (m : M A) (k : A -> M B) (w w' : world)
  (a : A) :
  m w = (Returned a, w') -> bind m k w = k a w'.
Proof. intros H. unfold bind. now rewrite H. Qed.

Lemma bind_raised {A B : Type} (m : M A) (k : A -> M B) (w w' : world)
  (e : exn) :
  m w = (Raised e, w') -> bind m k w = (Raised e, w').
Proof. intros H. unfold bind. now rewrite H. Qed.

Lemma try_except_returned {A : Type} (m : M A) (h : exn -> M A)
  (w w' : world) (a : A) :
  m w = (Returned a, w') -> try_except m h w = (Returned a, w').
Proof. intros H. unfold try_except. now rewrite H. Qed.

Lemma try_except_raised {A : Type} (m : M A) (h : exn -> M A)
  (w w' : world) (e : exn) :
  m w = (Raised e, w') -> try_except m h w = h e w'.
Proof. intros H. unfold try_except. now rewrite H. Qed.

Lemma try_except_bind {A B : Type} (m : M A) (k : A -> M B)
  (h : exn -> M B) (w w' : world) (a : A) :
  m w = (Returned a, w') ->
  try_except (bind m k) h w = try_except (k a) h w'.
Proof. intros H. unfold try_except, bind. now rewrite H. Qed.

(** A handler that returns makes the whole block return. *)
Lemma try_except_total {A : Type} (m : M A) (a0 : A) (w : world) :
  exists a w', try_except m (fun _ => ret a0) w = (Returned a, w').
Proof.
  unfold try_except. destruct (m w) as [[a|e] w']; unfold ret; eauto.
Qed.

Lemma get_connection_eq (w : world) :
  DatabaseConnector.get_connection w =
  match connection w with
  | NoSession =>
      if fault (env w) (calls w)
      then (Returned None, set_calls (S (calls w)) w)
      else (Returned (Some the_connection),
            set_connection OpenSession (set_calls (S (calls w)) w))
  | _ => (Returned (Some the_connection), w)
  end.
Proof.
  destruct w as [e n r c g tb pd ex].
  unfold DatabaseConnector.get_connection. run.
  destruct c; simpl; try reflexivity.
  destruct (fault e n); reflexivity.
Qed.

Lemma get_connection_returns (w : world) :
  exists c w', DatabaseConnector.get_connection w = (Returned c, w').
Proof.
  rewrite get_connection_eq.
  destruct (connection w); try destruct (fault _ _); eauto.
Qed.

Lemma cursor_open (w : world) :
  connection w = OpenSession ->
  cursor (Some the_connection) w = (Returned tt, w).
Proof. intros H. unfold cursor. run. now rewrite H. Qed.

Lemma cursor_execute_open (s : stmt) (w : world) :
  connection w = OpenSession ->
  cursor_execute s w =
  let w1 := set_calls (S (calls w)) (set_executed (executed w ++ [s]) w) in
  if fault (env w) (calls w) then (Raised DatabaseError, w1)
  else if is_insert s || is_truncate s
       then (Returned [], set_pending (pending w ++ [s]) w1)
       else (Returned (result_set s (catalog (env w))), w1).
Proof.
  destruct w as [e n r c g tb pd ex]. simpl. intros ->.
  unfold cursor_execute. run.
  destruct (fault e n); [reflexivity|].
  destruct s; reflexivity.
Qed.

Lemma commit_open (w : world) :
  connection w = OpenSession ->
  commit w =
  let w1 := set_calls (S (calls w)) w in
  if fault (env w) (calls w)
  then (Raised DatabaseError, set_pending [] w1)
  else (Returned tt,
        set_pending [] (set_tables (apply_all (pending w) (tables w)) w1)).
Proof.
  destruct w as [e n r c g tb pd ex]. simpl. intros ->.
  unfold commit. run.
  destruct (fault e n); reflexivity.
Qed.

Lemma rollback_open (w : world) :
  connection w = OpenSession ->
  rollback w = (Returned tt, set_pending [] w).
Proof.
  destruct w as [e n r c g tb pd ex]. simpl. intros ->. reflexivity.
Qed.

(** ** The Schema Inspector *)

Lemma get_table_columns_same (t : string) :
  CSVExtractor.get_table_columns t = JSONExtractor.get_table_columns t.
Proof. reflexivity. Qed.

Lemma result_set_catalog_rows (s : stmt) (cat : list catalog_row) :
  map (fun row => hd "" row) (result_set s cat)
  = map column_name (catalog_rows s cat).
Proof.
  unfold catalog_rows.
  destruct s; simpl; try rewrite map_map; try reflexivity.
  - now induction cat.
  - now induction cat.
Qed.

Lemma get_table_columns_open (t : string) (w : world) :
  connection w = OpenSession ->
  JSONExtractor.get_table_columns t w =
  (Returned (if fault (env w) (calls w) then []
             else map column_name
                    (catalog_rows (catalog_query t) (catalog (env w)))),
   set_calls (S (calls w))
     (set_executed (executed w ++ [catalog_query t]) w)).
Proof.
  intros H. unfold JSONExtractor.get_table_columns.
  unfold try_except, bind at 1. rewrite get_connection_eq, H.
  unfold bind at 1. rewrite cursor_open by exact H.
  assert (E : forall s, s = catalog_query t ->
     (rows <- cursor_execute s;; ret (map (fun row => hd "" row) rows)) w =
     (if fault (env w) (calls w) then Raised DatabaseError
      else Returned (map column_name (catalog_rows s (catalog (env w)))),
      set_calls (S (calls w)) (set_executed (executed w ++ [s]) w))).
  { intros s Hs. unfold bind. rewrite cursor_execute_open by exact H.
    cbv zeta. destruct (fault (env w) (calls w)); [reflexivity|].
    assert (Hq : is_insert s || is_truncate s = false).
    { subst s. unfold catalog_query.
      now destruct (split_qualified t) as [[? ?]|]. }
    rewrite Hq. unfold ret. now rewrite result_set_catalog_rows. }
  unfold catalog_query in *.
  destruct (split_qualified t) as [[a b]|];
    rewrite E by reflexivity;
    destruct (fault (env w) (calls w)); reflexivity.
Qed.

Lemma get_table_columns_eq (t : string) (w : world) :
  JSONExtractor.get_table_columns t w =
  match connection w with
  | OpenSession =>
      (Returned (if fault (env w) (calls w) then []
                 else map column_name
                        (catalog_rows (catalog_query t) (catalog (env w)))),
       set_calls (S (calls w))
         (set_executed (executed w ++ [catalog_query t]) w))
  | ClosedSession => (Returned [], w)
  | NoSession =>
      if fault (env w) (calls w)
      then (Returned [], set_calls (S (calls w)) w)
      else
        (Returned (if fault (env w) (S (calls w)) then []
                   else map column_name
                          (catalog_rows (catalog_query t) (catalog (env w)))),
         set_calls (S (S (calls w)))
           (set_executed (executed w ++ [catalog_query t])
              (set_connection OpenSession w)))
  end.
Proof.
  destruct (connection w) eqn:H.
  - unfold JSONExtractor.get_table_columns.
    destruct (fault (env w) (calls w)) eqn:F.
    + erewrite try_except_bind
        by (rewrite get_connection_eq, H, F; reflexivity).
      reflexivity.
    + set (w1 := set_connection OpenSession (set_calls (S (calls w)) w)).
      erewrite try_except_bind
        by (rewrite get_connection_eq, H, F; reflexivity).
      pose proof (get_table_columns_open t w1 eq_refl) as E.
      unfold JSONExtractor.get_table_columns in E.
      erewrite try_except_bind in E
        by (rewrite get_connection_eq; reflexivity).
      fold w1. rewrite E. destruct w; reflexivity.
  - now apply get_table_columns_open.
  - unfold JSONExtractor.get_table_columns.
    erewrite try_except_bind by (rewrite get_connection_eq, H; reflexivity).
    unfold cursor. run. now rewrite H.
Qed.

Lemma insert_by_ordinal_perm (r : catalog_row) (l : list catalog_row) :
  Permutation (insert_by_ordinal r l) (r :: l).
Proof.
  induction l as [|h t IH]; simpl; [reflexivity|].
  destruct (ordinal_position r <=? ordinal_position h); [reflexivity|].
  rewrite IH. apply perm_swap.
Qed.

Lemma order_by_ordinal_perm (l : list catalog_row) :
  Permutation (order_by_ordinal l) l.
Proof.
  induction l as [|h t IH]; simpl; [reflexivity|].
  rewrite insert_by_ordinal_perm. now constructor.
Qed.




(** ** The Document Loader, step by step *)

Section DocumentLoader.

Variables (table_name : string) (table_columns : list string)
          (file_name api_endpoint : option string)
          (response_status : option Z) (request_time : Z).

Let columns :=
  JSONExtractor.insert_columns table_columns file_name api_endpoint
    response_status.

Let placeholders :=
  JSONExtractor.insert_placeholders table_columns file_name api_endpoint
    response_status.

Let bump (k : nat) (r : nat) : nat :=
  if py_in "loaded_at" table_columns then r + k else r.

Let stmts (w : world) (json_data : list pyval) : list stmt :=
  insert_stmts table_name table_columns file_name api_endpoint
    response_status request_time (now (env w)) (reads w) json_data.

Lemma row_values_eq (json_obj : pyval) (w : world) :
  JSONExtractor.row_values table_columns file_name api_endpoint
    response_status request_time json_obj w =
  (Returned (row_values_at table_columns file_name api_endpoint
               response_status request_time (now (env w) (reads w)) json_obj),
   set_reads (bump 1 (reads w)) w).
Proof.
  destruct w as [e n r c g tb pd ex].
  unfold JSONExtractor.row_values, row_values_at, bump. run.
  destruct (py_in "loaded_at" table_columns); simpl;
    [rewrite Nat.add_1_r|]; reflexivity.
Qed.

(** The world after [a] statements were sent and [b] of them accepted. *)
Let after (w : world) (json_data : list pyval) (a b : nat) : world :=
  set_pending (pending w ++ firstn b (stmts w json_data))
    (set_executed (executed w ++ firstn a (stmts w json_data))
       (set_reads (bump a (reads w)) (set_calls (calls w + a) w))).

Lemma insert_records_step (j : pyval) (rest : list pyval) (n : nat)
  (w : world) :
  connection w = OpenSession ->
  let s0 := InsertInto table_name columns placeholders
              (row_values_at table_columns file_name api_endpoint
                 response_status request_time (now (env w) (reads w)) j) in
  let w1 := set_calls (S (calls w))
              (set_executed (executed w ++ [s0])
                 (set_reads (bump 1 (reads w)) w)) in
  JSONExtractor.insert_records table_name table_columns file_name
    api_endpoint response_status columns placeholders request_time
    (j :: rest) n w =
  if fault (env w) (calls w) then (Raised DatabaseError, w1)
  else JSONExtractor.insert_records table_name table_columns file_name
         api_endpoint response_status columns placeholders request_time
         rest (n + 1) (set_pending (pending w ++ [s0]) w1).
Proof.
  intros Hopen s0 w1. cbn [JSONExtractor.insert_records].
  erewrite bind_returned by apply row_values_eq.
  unfold bind at 1.
  rewrite cursor_execute_open by (destruct w; exact Hopen).
  subst s0 w1. destruct w as [e c r s g tb pd ex]. run.
  destruct (fault e c); reflexivity.
Qed.

Lemma insert_records_open (json_data : list pyval) :
  forall (n : nat) (w : world),
    connection w = OpenSession ->
    exists k,
      k <= List.length json_data
      /\ (forall i, i < k -> fault (env w) (calls w + i) = false)
      /\ ((k = List.length json_data
           /\ JSONExtractor.insert_records table_name table_columns file_name
                api_endpoint response_status columns placeholders
                request_time json_data n w
              = (Returned (n + k), after w json_data k k))
          \/ (k < List.length json_data
              /\ fault (env w) (calls w + k) = true
              /\ JSONExtractor.insert_records table_name table_columns
                   file_name api_endpoint response_status columns
                   placeholders request_time json_data n w
                 = (Raised DatabaseError, after w json_data (S k) k))).
Proof.
  induction json_data as [|j rest IH]; intros n w Hopen.
  - exists 0. split; [reflexivity|]. split; [intros i Hi; lia|].
    left. split; [reflexivity|].
    destruct w as [e c r s g tb pd ex]. unfold after, bump. run.
    rewrite !app_nil_r, !Nat.add_0_r.
    destruct (py_in "loaded_at" table_columns); reflexivity.
  - rewrite (insert_records_step j rest n w Hopen). cbv zeta.
    destruct (fault (env w) (calls w)) eqn:F.
    + exists 0. split; [simpl; lia|]. split; [intros i Hi; lia|].
      right. split; [simpl; lia|]. split; [now rewrite Nat.add_0_r|].
      destruct w as [e c r s g tb pd ex]. unfold after, stmts, bump. run.
      fold columns placeholders.
      rewrite !Nat.add_1_r, app_nil_r. reflexivity.
    + match goal with
      | |- context [JSONExtractor.insert_records _ _ _ _ _ _ _ _ rest _ ?x] =>
          set (w2 := x)
      end.
      assert (O2 : connection w2 = OpenSession) by (destruct w; exact Hopen).
      destruct (IH (n + 1) w2 O2) as (k & Hk & Hno & Hres).
      assert (C2 : forall i, calls w2 + i = calls w + S i)
        by (intros i; destruct w; simpl; lia).
      assert (E2 : env w2 = env w) by (destruct w; reflexivity).
      rewrite E2 in *.
      exists (S k). split; [simpl; lia|]. split.
      { intros i Hi. destruct i as [|i]; [now rewrite Nat.add_0_r|].
        rewrite <- C2. apply Hno. lia. }
      assert (A : forall a b,
        after w2 rest a b = after w (j :: rest) (S a) (S b)).
      { intros a b. subst w2.
        assert (St : stmts w (j :: rest)
                     = InsertInto table_name columns placeholders
                         (row_values_at table_columns file_name api_endpoint
                            response_status request_time
                            (now (env w) (reads w)) j)
                       :: insert_stmts table_name table_columns file_name
                            api_endpoint response_status request_time
                            (now (env w)) (bump 1 (reads w)) rest).
        { unfold stmts, bump. cbn [insert_stmts].
          now rewrite Nat.add_1_r. }
        apply world_ext; unfold after; rewrite St; unfold stmts;
          autorewrite with world; cbn [firstn];
          rewrite <- ?app_assoc; try reflexivity.
        - lia.
        - unfold bump. destruct (py_in "loaded_at" table_columns); lia. }
      destruct Hres as [(Hk' & Hr) | (Hk' & Hf & Hr)].
      * left. split; [simpl; lia|].
        rewrite Hr, A. do 2 f_equal. lia.
      * right. split; [simpl; lia|]. split.
        { rewrite <- C2. exact Hf. }
        rewrite Hr, A. reflexivity.
Qed.

End DocumentLoader.


Lemma insert_stmts_length t tc fn ep st rt clock (json_data : list pyval) :
  forall r,
    List.length (insert_stmts t tc fn ep st rt clock r json_data)
    = List.length json_data.
Proof.
  induction json_data as [|j rest IH]; intros r; cbn [insert_stmts];
    [reflexivity|].
  cbn [List.length]. now rewrite IH.
Qed.

Lemma load_to_landing_open (json_data : pyval) (t : string)
  (fn ep : option string) (st : option Z) (w : world) :
  connection w = OpenSession ->
  let recs := as_records json_data in
  let tc := if fault (env w) (calls w) then []
            else map column_name
                   (catalog_rows (catalog_query t) (catalog (env w))) in
  let stmts := insert_stmts t tc fn ep st (now (env w) (reads w))
                 (now (env w)) (S (reads w)) recs in
  exists k b w',
    JSONExtractor.load_to_landing json_data t fn ep st w = (Returned b, w')
    /\ k <= List.length recs
    /\ connection w' = OpenSession
    /\ env w' = env w
    /\ engine w' = engine w
    /\ pending w' = []
    /\ executed w' = executed w ++ catalog_query t :: firstn (S k) stmts
    /\ ((b = true /\ k = List.length recs
         /\ tables w' = apply_all (pending w ++ stmts) (tables w)
         /\ (forall i, 1 <= i <= S (List.length recs) ->
             fault (env w) (calls w + i) = false))
        \/ (b = false /\ tables w' = tables w
            /\ exists i, 1 <= i <= S (List.length recs)
                         /\ fault (env w) (calls w + i) = true)).
Proof.
  intros Hopen recs tc stmts.
  assert (Len : List.length stmts = List.length recs)
    by apply insert_stmts_length.
  unfold JSONExtractor.load_to_landing.
  change (match json_data with PList l => l | _ => [json_data] end)
    with recs.
  erewrite bind_returned by (rewrite get_connection_eq, Hopen; reflexivity).
  erewrite try_except_bind by (apply cursor_open, Hopen).
  erewrite try_except_bind by (apply get_table_columns_open, Hopen).
  fold tc.
  set (w1 := set_calls (S (calls w))
               (set_executed (executed w ++ [catalog_query t]) w)).
  erewrite try_except_bind by (unfold datetime_now; reflexivity).
  set (w2 := set_reads (S (reads w1)) w1).
  change (now (env w1) (reads w1)) with (now (env w) (reads w)).
  assert (O2 : connection w2 = OpenSession) by exact Hopen.
  destruct (insert_records_open t tc fn ep st (now (env w) (reads w)) recs
              0 w2 O2) as (k & Hk & Hno & Hres).
  change (insert_stmts t tc fn ep st (now (env w) (reads w))
            (now (env w2)) (reads w2) recs) with stmts in Hres.
  change (env w2) with (env w) in Hno, Hres.
  change (calls w2) with (S (calls w)) in Hno, Hres.
  destruct Hres as [(Hk' & Hr) | (Hk' & Hf & Hr)].
  - erewrite try_except_bind by exact Hr.
    match type of Hr with _ = (_, ?x) => set (w3 := x) in * end.
    assert (O3 : connection w3 = OpenSession) by exact Hopen.
    assert (P3 : pending w3 = pending w ++ stmts).
    { subst w3 k. autorewrite with world.
      rewrite firstn_all2 by lia.
      reflexivity. }
    assert (X3 : executed w3 = executed w ++ catalog_query t :: stmts).
    { subst w3 k. autorewrite with world.
      rewrite firstn_all2 by lia.
      subst w2 w1. autorewrite with world. now rewrite <- app_assoc. }
    assert (T3 : tables w3 = tables w) by reflexivity.
    assert (E3 : env w3 = env w) by reflexivity.
    assert (G3 : engine w3 = engine w) by reflexivity.
    assert (C3 : calls w3 = calls w + S k).
    { subst w3. autorewrite with world. subst w2 w1.
      autorewrite with world. lia. }
    clearbody w3. clear Hr.
    destruct (fault (env w3) (calls w3)) eqn:F.
    + erewrite try_except_raised
        by (erewrite bind_raised; [reflexivity|];
            rewrite commit_open by exact O3; cbv zeta; rewrite F;
            reflexivity).
      erewrite bind_returned by (apply rollback_open; exact O3).
      exists k, false. eexists. split; [reflexivity|].
      rewrite E3, C3 in F. subst k.
      rewrite firstn_all2 by lia.
      autorewrite with world.
      repeat split; auto.
      right. repeat split; auto.
      exists (S (List.length recs)). split; [lia | exact F].
    + erewrite try_except_bind
        by (rewrite commit_open by exact O3; cbv zeta; rewrite F;
            reflexivity).
      exists k, true. eexists. split; [reflexivity|].
      rewrite E3, C3 in F. subst k.
      rewrite firstn_all2 by lia.
      autorewrite with world. rewrite P3, T3.
      repeat split; auto.
      left. repeat split; auto.
      intros i Hi. destruct (Nat.eq_dec i (S (List.length recs))) as [->|Hne];
        [exact F|].
      replace (calls w + i) with (S (calls w) + (i - 1)) by lia.
      apply Hno. lia.
  - erewrite try_except_raised by (erewrite bind_raised; [reflexivity|exact Hr]).
    match type of Hr with _ = (_, ?x) => set (w3 := x) in * end.
    assert (O3 : connection w3 = OpenSession) by exact Hopen.
    assert (X3 : executed w3
                 = executed w ++ catalog_query t :: firstn (S k) stmts).
    { subst w3. autorewrite with world.
      subst w2 w1. autorewrite with world. now rewrite <- app_assoc. }
    assert (T3 : tables w3 = tables w) by reflexivity.
    assert (E3 : env w3 = env w) by reflexivity.
    assert (G3 : engine w3 = engine w) by reflexivity.
    clearbody w3. clear Hr.
    erewrite bind_returned by (apply rollback_open, O3).
    exists k, false. eexists. split; [reflexivity|].
    autorewrite with world.
    repeat split; auto; try lia.
    right. repeat split; auto.
    exists (S k). split; [lia|].
    replace (calls w + S k) with (S (calls w) + k) by lia. exact Hf.
Qed.

(** The Document Loader in each state of the session. *)
Lemma load_to_landing_closed (json_data : pyval) (t : string)
  (fn ep : option string) (st : option Z) (w : world) :
  connection w = ClosedSession ->
  JSONExtractor.load_to_landing json_data t fn ep st w
  = (Raised InterfaceError, w).
Proof.
  intros H. unfold JSONExtractor.load_to_landing.
  erewrite bind_returned by (rewrite get_connection_eq, H; reflexivity).
  erewrite try_except_raised
    by (erewrite bind_raised; [reflexivity|]; unfold cursor; run;
        rewrite H; reflexivity).
  unfold rollback. run. now rewrite H.
Qed.

Lemma load_to_landing_no_session (json_data : pyval) (t : string)
  (fn ep : option string) (st : option Z) (w : world) :
  connection w = NoSession ->
  JSONExtractor.load_to_landing json_data t fn ep st w =
  if fault (env w) (calls w)
  then (Returned false, set_calls (S (calls w)) w)
  else JSONExtractor.load_to_landing json_data t fn ep st
         (set_connection OpenSession (set_calls (S (calls w)) w)).
Proof.
  intros H. unfold JSONExtractor.load_to_landing.
  destruct (fault (env w) (calls w)) eqn:F.
  - erewrite bind_returned by (rewrite get_connection_eq, H, F; reflexivity).
    reflexivity.
  - erewrite bind_returned by (rewrite get_connection_eq, H, F; reflexivity).
    symmetry.
    erewrite bind_returned by (rewrite get_connection_eq; reflexivity).
    reflexivity.
Qed.

Lemma insert_columns_head tc fn ep st :
  exists rest, JSONExtractor.insert_columns tc fn ep st = "raw_data" :: rest.
Proof. rewrite insert_columns_filter. eauto. Qed.

Lemma row_values_at_head tc fn ep st rt la (j : pyval) :
  exists rest, row_values_at tc fn ep st rt la j = PJson j :: rest.
Proof.
  unfold row_values_at. rewrite !append_if, <- !app_assoc.
  cbn [app]. eauto.
Qed.

Lemma insert_stmts_records t tc fn ep st rt clock (json_data : list pyval) :
  forall r,
    Forall2 (inserts_record t) json_data
      (insert_stmts t tc fn ep st rt clock r json_data).
Proof.
  induction json_data as [|j rest IH]; intros r; cbn [insert_stmts];
    constructor; [|apply IH].
  destruct (insert_columns_head tc fn ep st) as (cs & ->).
  destruct (row_values_at_head tc fn ep st rt (clock r) j) as (vs & ->).
  unfold inserts_record. eauto.
Qed.




(** After a full run has closed the session, the connector still hands
    out the closed connection: [cursor()] raises, and so does the
    [rollback()] of the handler, which nothing catches. *)
Example closed_session_raises :
  fst (JSONExtractor.load_to_landing Examples.two_records "lnd_docs"
         None None None (Examples.closed Examples.calm))
  = Raised InterfaceError.
Proof.
  rewrite load_to_landing_closed; reflexivity.
Qed.

(** ** Timestamps of the Document Loader *)

Lemma stored_timestamps tc fn ep st rt la (j : pyval) :
  let r := combine (JSONExtractor.insert_columns tc fn ep st)
                   (row_values_at tc fn ep st rt la j) in
  row_get "request_timestamp" r
  = (if py_in "request_timestamp" tc then Some (PTime rt) else None)
  /\ row_get "loaded_at" r
     = (if py_in "loaded_at" tc then Some (PTime la) else None).
Proof.
  unfold JSONExtractor.insert_columns, row_values_at.
  generalize (py_in "loaded_at" tc), (py_in "file_name" tc && truthy fn),
    (py_in "api_endpoint" tc && truthy ep), (py_in "request_timestamp" tc),
    (py_in "response_status" tc && is_not_None st).
  intros [] [] [] [] []; split; reflexivity.
Qed.

Lemma nth_error_insert_stmts t tc fn ep st rt clock (json_data : list pyval) :
  forall r k s,
    nth_error (insert_stmts t tc fn ep st rt clock r json_data) k = Some s ->
    exists j,
      s = InsertInto t (JSONExtractor.insert_columns tc fn ep st)
            (JSONExtractor.insert_placeholders tc fn ep st)
            (row_values_at tc fn ep st rt
               (clock (if py_in "loaded_at" tc then r + k else r)) j).
Proof.
  induction json_data as [|j rest IH]; intros r k s H;
    cbn [insert_stmts] in H.
  - destruct k; discriminate.
  - destruct k as [|k]; cbn [nth_error] in H.
    + injection H as <-. exists j. rewrite Nat.add_0_r.
      now destruct (py_in "loaded_at" tc).
    + destruct (IH _ _ _ H) as (j' & ->). exists j'.
      destruct (py_in "loaded_at" tc); [|reflexivity].
      now rewrite Nat.add_succ_r.
Qed.

Lemma nth_error_firstn_Some {A : Type} (m : nat) (l : list A) :
  forall k x, nth_error (firstn m l) k = Some x -> nth_error l k = Some x.
Proof.
  revert m. induction l as [|a l IH]; intros [|m] [|k] x H;
    cbn [firstn nth_error] in *; try discriminate; auto.
  eapply IH, H.
Qed.

Lemma filter_inserts_firstn t tc fn ep st rt clock r (json_data : list pyval)
  (m : nat) :
  filter is_insert (firstn m (insert_stmts t tc fn ep st rt clock r json_data))
  = firstn m (insert_stmts t tc fn ep st rt clock r json_data).
Proof.
  revert r m. induction json_data as [|j rest IH]; intros r [|m];
    cbn [insert_stmts firstn filter is_insert]; try reflexivity.
  now rewrite IH.
Qed.

Lemma catalog_query_not_insert (t : string) :
  is_insert (catalog_query t) = false.
Proof. unfold catalog_query. now destruct (split_qualified t) as [[? ?]|]. Qed.

(** C1 (amended).  In every Document Loader call the request time is
    read from the clock once: every insert statement of the call whose
    column list has [request_timestamp] carries that one reading.  The
    value for [loaded_at] is read from the clock anew for each record: the
    statement for record number [k] carries the [k+1]-th reading after the
    request time. *)
Theorem request_time_once_loaded_at_per_record (json_data : pyval)
  (t : string) (fn ep : option string) (st : option Z) (w : world) :
  let w' := snd (JSONExtractor.load_to_landing json_data t fn ep st w) in
  exists new,
    executed w' = executed w ++ new
    /\ forall k tbl cols ph vals,
         nth_error (filter is_insert new) k
         = Some (InsertInto tbl cols ph vals) ->
         (In "request_timestamp" cols ->
          row_get "request_timestamp" (combine cols vals)
          = Some (PTime (now (env w) (reads w))))
         /\ (In "loaded_at" cols ->
             row_get "loaded_at" (combine cols vals)
             = Some (PTime (now (env w) (reads w + 1 + k)))).
Proof.
  intros w'.
  assert (Open : forall w0, connection w0 = OpenSession ->
    exists new,
      executed (snd (JSONExtractor.load_to_landing json_data t fn ep st w0))
      = executed w0 ++ new
      /\ forall k tbl cols ph vals,
           nth_error (filter is_insert new) k
           = Some (InsertInto tbl cols ph vals) ->
           (In "request_timestamp" cols ->
            row_get "request_timestamp" (combine cols vals)
            = Some (PTime (now (env w0) (reads w0))))
           /\ (In "loaded_at" cols ->
               row_get "loaded_at" (combine cols vals)
               = Some (PTime (now (env w0) (reads w0 + 1 + k))))).
  { intros w0 H0.
    destruct (load_to_landing_open json_data t fn ep st w0 H0)
      as (m & b & w1 & E & _ & _ & _ & _ & _ & X & _).
    rewrite E. cbn [snd]. eexists. split; [exact X|].
    intros k tbl cols ph vals H.
    cbn [filter] in H. rewrite catalog_query_not_insert in H.
    rewrite filter_inserts_firstn in H.
    apply nth_error_firstn_Some in H.
    apply nth_error_insert_stmts in H. destruct H as (j & H).
    injection H as -> -> -> ->.
    match goal with
    | |- context [row_values_at ?tc _ _ _ ?rt ?la j] =>
        destruct (stored_timestamps tc fn ep st rt la j) as (R1 & R2)
    end.
    cbv zeta in R1, R2. split; intros Hin.
    - apply insert_columns_In in Hin.
      destruct Hin as [Hin | [Hin _]]; [discriminate|].
      apply py_in_In in Hin. now rewrite R1, Hin.
    - apply insert_columns_In in Hin.
      destruct Hin as [Hin | [Hin _]]; [discriminate|].
      apply py_in_In in Hin. rewrite R2, Hin.
      do 3 f_equal. lia. }
  subst w'. destruct (connection w) eqn:C.
  - rewrite load_to_landing_no_session by exact C.
    destruct (fault (env w) (calls w)).
    + exists []. split; [now rewrite app_nil_r|].
      intros [|k] ? ? ? ? H; discriminate.
    + destruct (Open (set_connection OpenSession (set_calls (S (calls w)) w))
                  eq_refl) as (new & X & H).
      exists new. split; [exact X | exact H].
  - now apply Open.
  - rewrite load_to_landing_closed by exact C.
    exists []. split; [now rewrite app_nil_r|].
    intros [|k] ? ? ? ? H; discriminate.
Qed.

(** C1, counterexample.  Two records loaded in one successful call into
    [lnd_docs] get two different [loaded_at] values (and the same
    [request_timestamp]). *)
Lemma loaded_at_differs_within_one_call :
  let r := JSONExtractor.load_to_landing Examples.two_records "lnd_docs"
             None None None (Examples.fresh Examples.calm) in
  fst r = Returned true
  /\ map (row_get "loaded_at") (tables (snd r) "lnd_docs")
     = [Some (PTime 1001); Some (PTime 1002)]
  /\ map (row_get "request_timestamp") (tables (snd r) "lnd_docs")
     = [Some (PTime 1000); Some (PTime 1000)].
Proof.
  cbv zeta. repeat split; vm_compute; reflexivity.
Qed.

(** ** The statements of a Document Loader call *)

Lemma row_values_at_length tc fn ep st rt la (j : pyval) :
  List.length (row_values_at tc fn ep st rt la j)
  = List.length (JSONExtractor.insert_columns tc fn ep st).
Proof.
  unfold row_values_at, JSONExtractor.insert_columns.
  rewrite !length_append_if. reflexivity.
Qed.

Lemma In_insert_stmts t tc fn ep st rt clock (json_data : list pyval) r s :
  In s (insert_stmts t tc fn ep st rt clock r json_data) ->
  exists j la,
    s = InsertInto t (JSONExtractor.insert_columns tc fn ep st)
          (JSONExtractor.insert_placeholders tc fn ep st)
          (row_values_at tc fn ep st rt la j).
Proof.
  intros H. apply In_nth_error in H. destruct H as (k & H).
  apply nth_error_insert_stmts in H. destruct H as (j & ->). eauto.
Qed.

Lemma In_firstn {A : Type} (m : nat) (l : list A) (x : A) :
  In x (firstn m l) -> In x l.
Proof.
  revert m. induction l as [|a l IH]; intros [|m] H;
    cbn [firstn In] in *; try contradiction.
  destruct H as [H|H]; [now left | right; eapply IH, H].
Qed.

(** What a call sends: first the catalog query, then inserts whose column
    list is built from the Schema Inspector's answer. *)
Lemma load_to_landing_statements (json_data : pyval) (t : string)
  (fn ep : option string) (st : option Z) (w : world) :
  exists tc new,
    fst (JSONExtractor.get_table_columns t w) = Returned tc
    /\ executed (snd (JSONExtractor.load_to_landing json_data t fn ep st w))
       = executed w ++ new
    /\ forall s, In s new ->
         s = catalog_query t
         \/ exists j la,
              s = InsertInto t (JSONExtractor.insert_columns tc fn ep st)
                    (JSONExtractor.insert_placeholders tc fn ep st)
                    (row_values_at tc fn ep st (now (env w) (reads w)) la j).
Proof.
  assert (Open : forall w0, connection w0 = OpenSession ->
    exists new,
      executed (snd (JSONExtractor.load_to_landing json_data t fn ep st w0))
      = executed w0 ++ new
      /\ forall s, In s new ->
           s = catalog_query t
           \/ exists j la,
                s = InsertInto t
                      (JSONExtractor.insert_columns
                         (if fault (env w0) (calls w0) then []
                          else map column_name
                                 (catalog_rows (catalog_query t)
                                    (catalog (env w0)))) fn ep st)
                      (JSONExtractor.insert_placeholders
                         (if fault (env w0) (calls w0) then []
                          else map column_name
                                 (catalog_rows (catalog_query t)
                                    (catalog (env w0)))) fn ep st)
                      (row_values_at
                         (if fault (env w0) (calls w0) then []
                          else map column_name
                                 (catalog_rows (catalog_query t)
                                    (catalog (env w0)))) fn ep st
                         (now (env w0) (reads w0)) la j)).
  { intros w0 H0.
    destruct (load_to_landing_open json_data t fn ep st w0 H0)
      as (m & b & w1 & E & _ & _ & _ & _ & _ & X & _).
    rewrite E. cbn [snd]. eexists. split; [exact X|].
    intros s [<-|H]; [now left|]. right.
    apply In_firstn in H. eapply In_insert_stmts, H. }
  rewrite get_table_columns_eq.
  destruct (connection w) eqn:C.
  - rewrite load_to_landing_no_session by exact C.
    destruct (fault (env w) (calls w)).
    + exists [], []. split; [reflexivity|].
      split; [now rewrite app_nil_r | intros s []].
    + destruct (Open (set_connection OpenSession (set_calls (S (calls w)) w))
                  eq_refl) as (new & X & H).
      eexists. exists new. split; [reflexivity|]. split; [exact X | exact H].
  - destruct (Open w C) as (new & X & H).
    eexists. exists new. split; [reflexivity|]. split; [exact X | exact H].
  - rewrite load_to_landing_closed by exact C.
    exists [], []. split; [reflexivity|].
    split; [now rewrite app_nil_r | intros s []].
Qed.

(** C4 (amended).  In every Document Loader call the column list of the
    insert statements is [raw_data], always, followed by each optional
    metadata column if and only if the Schema Inspector reported it for the
    destination and, for [file_name] and [api_endpoint], the argument is a
    non-empty string, for [response_status], the argument is not [None];
    [loaded_at] and [request_timestamp] need no argument.  The list has no
    repeats, one placeholder and one value per column, and so names no
    column that the destination lacks other than [raw_data]; building it
    cannot fail. *)
Theorem insert_columns_exact (json_data : pyval) (t : string)
  (fn ep : option string) (st : option Z) (w : world) :
  exists tc new,
    fst (JSONExtractor.get_table_columns t w) = Returned tc
    /\ executed (snd (JSONExtractor.load_to_landing json_data t fn ep st w))
       = executed w ++ new
    /\ (forall tbl cols ph vals,
          In (InsertInto tbl cols ph vals) new ->
          tbl = t
          /\ cols = JSONExtractor.insert_columns tc fn ep st
          /\ List.length ph = List.length cols
          /\ List.length vals = List.length cols)
    /\ (forall c,
          In c (JSONExtractor.insert_columns tc fn ep st) <->
          c = "raw_data"
          \/ (In c tc
              /\ (c = "loaded_at"
                  \/ (c = "file_name" /\ truthy fn = true)
                  \/ (c = "api_endpoint" /\ truthy ep = true)
                  \/ c = "request_timestamp"
                  \/ (c = "response_status" /\ st <> None))))
    /\ NoDup (JSONExtractor.insert_columns tc fn ep st).
Proof.
  destruct (load_to_landing_statements json_data t fn ep st w)
    as (tc & new & G & X & H).
  exists tc, new. split; [exact G|]. split; [exact X|].
  split; [|split; [apply insert_columns_In | apply insert_columns_NoDup]].
  intros tbl cols ph vals Hin.
  destruct (H _ Hin) as [E | (j & la & E)].
  - unfold catalog_query in E.
    destruct (split_qualified t) as [[? ?]|]; discriminate.
  - injection E as -> -> -> ->.
    repeat split.
    + apply insert_placeholders_length.
    + apply row_values_at_length.
Qed.

(** C4, counterexample.  The destination [lnd_items] has an
    [api_endpoint] column, yet a call that passes no endpoint (a file
    loaded from object storage) leaves the column out of the statement. *)
Lemma api_endpoint_needs_its_argument :
  let tc := ["raw_data"; "loaded_at"; "api_endpoint"; "response_status"] in
  In "api_endpoint" tc
  /\ JSONExtractor.insert_columns tc (Some "items.json") None None
     = ["raw_data"; "loaded_at"]
  /\ ~ In "api_endpoint"
         (JSONExtractor.insert_columns tc (Some "items.json") None None).
Proof.
  cbv zeta. split; [simpl; tauto|]. split; [reflexivity|].
  simpl. intuition discriminate.
Qed.

(** ** The structured column policy of the Tabular Loader *)

Lemma df_assign_columns (name : string) (v : pyval) (df : DataFrame)
  (c : string) :
  In c (df_columns (df_assign name v df)) <-> In c (df_columns df) \/ c = name.
Proof.
  unfold df_assign. destruct (py_in name (df_columns df)) eqn:E;
    cbn [df_columns].
  - apply py_in_In in E. split; [now left|].
    intros [H| ->]; assumption.
  - rewrite in_app_iff. cbn [In]. intuition congruence.
Qed.

Lemma df_select_columns (labels : list string) (df : DataFrame) (c : string) :
  In c (df_columns (df_select labels df)) <->
  In c labels /\ In c (df_columns df).
Proof.
  unfold df_select. cbn [df_columns]. rewrite in_flat_map. split.
  - intros (l & Hl & Hc). apply filter_In in Hc. destruct Hc as [Hc E].
    apply String.eqb_eq in E. subst l. now split.
  - intros [Hl Hc]. exists c. split; [exact Hl|].
    apply filter_In. split; [exact Hc | apply String.eqb_refl].
Qed.

(** C6 (amended).  In structured mode the columns handed to the bulk
    append are exactly the destination columns that are a normalized source
    column name, or [loaded_at], or, when the caller gave a non-empty
    source file, [source_file].  Source columns without a destination
    column are dropped and destination columns without a source column are
    left alone; neither is an error. *)
Theorem structured_columns_exact (df : DataFrame) (table_columns : list string)
  (source_file : option string) (t : Z) (c : string) :
  let loaded_at := if py_in "loaded_at" table_columns then Some t else None in
  In c (df_columns
          (CSVExtractor.structured_frame df table_columns source_file
             loaded_at)) <->
  In c table_columns
  /\ (In c (map camel_to_snake (df_columns df))
      \/ c = "loaded_at"
      \/ (c = "source_file" /\ truthy source_file = true)).
Proof.
  intros loaded_at. unfold CSVExtractor.structured_frame.
  rewrite df_select_columns, filter_In, py_in_In.
  set (df1 := match loaded_at with
              | Some t0 => df_assign "loaded_at" (PTime t0)
                             (set_columns (map camel_to_snake (df_columns df)) df)
              | None => set_columns (map camel_to_snake (df_columns df)) df
              end).
  assert (H1 : In c (df_columns df1) <->
               In c (map camel_to_snake (df_columns df))
               \/ (c = "loaded_at" /\ In c table_columns)).
  { subst df1 loaded_at.
    destruct (py_in "loaded_at" table_columns) eqn:E.
    - rewrite df_assign_columns. cbn [set_columns df_columns].
      apply py_in_In in E.
      split; (intros [H|H]; [now left|]); right;
        [subst c; now split | now destruct H].
    - cbn [set_columns df_columns]. apply py_in_false in E.
      split; [now left|]. intros [H|[-> H]]; [exact H | contradiction]. }
  destruct (py_in "source_file" table_columns && truthy source_file) eqn:E.
  - rewrite df_assign_columns, H1.
    apply andb_true_iff in E. destruct E as [E1 E2]. apply py_in_In in E1.
    intuition (subst; auto).
  - rewrite H1. apply andb_false_iff in E.
    rewrite py_in_false in E.
    intuition (subst; auto); congruence.
Qed.

(** C6, counterexample.  [lnd_users] declares [source_file], but a frame
    loaded without a source file name gets no such column. *)
Lemma source_file_needs_its_argument :
  let tc := ["id"; "source_file"] in
  let df := {| df_columns := ["Id"; "Name"]; df_rows := [[PInt 1; PStr "a"]] |} in
  In "source_file" tc
  /\ df_columns (CSVExtractor.structured_frame df tc None None) = ["id"].
Proof.
  cbv zeta. split; [simpl; tauto | reflexivity].
Qed.

(** ** Reading a successful run backwards *)



(** ** Tables under a transaction *)

Lemma update_same (t : string) (rows : list row) (tb : string -> list row) :
  update t rows tb t = rows.
Proof. unfold update. now rewrite String.eqb_refl. Qed.

Lemma update_other (t t' : string) (rows : list row)
  (tb : string -> list row) :
  t' <> t -> update t rows tb t' = tb t'.
Proof.
  intros H. unfold update. destruct (String.eqb t' t) eqn:E;
    [apply String.eqb_eq in E; contradiction | reflexivity].
Qed.

Lemma apply_all_app (a b : list stmt) (tb : string -> list row) :
  apply_all (a ++ b) tb = apply_all b (apply_all a tb).
Proof. unfold apply_all. apply fold_left_app. Qed.

(** Whatever came before, after a [TRUNCATE] the table is empty. *)
Lemma apply_all_truncate_last (p : list stmt) (t : string)
  (tb : string -> list row) :
  apply_all (p ++ [TruncateTable t]) tb t = [].
Proof. rewrite apply_all_app. cbn. apply update_same. Qed.

(** Inserts of the records of a batch append their rows to the table and
    touch no other. *)
Lemma apply_all_inserts (t : string) (recs : list pyval) (stmts : list stmt) :
  Forall2 (inserts_record t) recs stmts ->
  forall tb,
    apply_all stmts tb t = tb t ++ map stored_row stmts
    /\ (forall t', t' <> t -> apply_all stmts tb t' = tb t').
Proof.
  induction 1 as [|r s recs stmts (cs & ph & vs & ->) _ IH]; intros tb.
  - cbn. now rewrite app_nil_r.
  - cbn [apply_all fold_left apply_stmt map stored_row].
    destruct (IH (update t (tb t ++ [combine ("raw_data" :: cs)
                                       (PJson r :: vs)]) tb)) as [I1 I2].
    unfold apply_all in *. split.
    + rewrite I1, update_same, <- app_assoc. reflexivity.
    + intros t' Ht. rewrite I2 by exact Ht. now apply update_other.
Qed.



(** ** Qualified table names *)

Lemma string_of_list_ascii_app (a b : list ascii) :
  string_of_list_ascii (a ++ b)
  = (string_of_list_ascii a ++ string_of_list_ascii b)%string.
Proof. induction a as [|c a IH]; cbn; [reflexivity | now rewrite IH]. Qed.

Lemma is_dot_inv (c : ascii) : PyStr.is_dot c = true -> c = "."%char.
Proof.
  destruct c as [[] [] [] [] [] [] [] []]; vm_compute; congruence.
Qed.

Lemma split_first_dot_join (l a b : list ascii) :
  PyStr.split_first_dot l = Some (a, b) -> l = a ++ "."%char :: b.
Proof.
  revert a b. induction l as [|c l IH]; intros a b H; cbn in H;
    [discriminate|].
  destruct (PyStr.is_dot c) eqn:D.
  - injection H as <- <-. now rewrite (is_dot_inv c D).
  - destruct (PyStr.split_first_dot l) as [[a' b']|]; [|discriminate].
    injection H as <- <-. cbn. now rewrite (IH a' b' eq_refl).
Qed.

(** Schema and table put together again name the same table. *)
Lemma split_qualified_join (t a b : string) :
  split_qualified t = Some (a, b) -> (a ++ "." ++ b)%string = t.
Proof.
  unfold split_qualified. intros H.
  destruct (PyStr.split_first_dot (list_ascii_of_string t)) as [[a' b']|] eqn:E;
    [|discriminate].
  injection H as <- <-. apply split_first_dot_join in E.
  rewrite <- (string_of_list_ascii_of_string t), E.
  now rewrite string_of_list_ascii_app.
Qed.

(** ** The structured path of the Tabular Loader *)

Lemma get_engine_frame (w w1 : world) (e : bool) :
  DatabaseConnector.get_engine w = (Returned e, w1) ->
  tables w1 = tables w /\ pending w1 = pending w
  /\ connection w1 = connection w.
Proof.
  destruct w as [en n r c g tb pd ex].
  unfold DatabaseConnector.get_engine. run.
  destruct g; simpl; [|destruct (fault en n)]; intros H;
    injection H as <- <-; auto.
Qed.

Lemma get_connection_frame (w w1 : world) (c : option connection_object) :
  DatabaseConnector.get_connection w = (Returned c, w1) ->
  tables w1 = tables w /\ pending w1 = pending w.
Proof.
  rewrite get_connection_eq.
  destruct (connection w); [destruct (fault (env w) (calls w))| |];
    intros H; injection H as <- <-; auto.
Qed.


Lemma to_sql_eq (df : DataFrame) (name : string) (schema : option string)
  (w : world) :
  to_sql df name schema w =
  let target := match schema with
                | Some s => (s ++ "." ++ name)%string
                | None => name
                end in
  let w1 := set_calls (S (calls w)) w in
  if fault (env w) (calls w) then (Raised DatabaseError, w1)
  else (Returned tt,
        set_tables
          (update target
             (tables w target ++ map (combine (df_columns df)) (df_rows df))
             (tables w)) w1).
Proof.
  destruct w as [en n r c g tb pd ex]. unfold to_sql. run.
  destruct (fault en n); reflexivity.
Qed.



Lemma csv_load_after_inspection (df : DataFrame) (t : string)
  (sf : option string) (w w1 : world) (tc : list string) :
  CSVExtractor.get_table_columns t w = (Returned tc, w1) ->
  CSVExtractor.load_to_landing df t sf w =
  try_except
    (success <-
       (if py_in "raw_data" tc
        then JSONExtractor.load_to_landing (PList (to_dict_records df)) t sf
               None None
        else
          loaded_at <- (if py_in "loaded_at" tc
                        then (x <- datetime_now;; ret (Some x))
                        else ret None);;
          CSVExtractor.truncate_and_append
            (CSVExtractor.structured_frame df tc sf loaded_at) t);;
     ret success)
    (fun _ => ret false) w1.
Proof.
  intros H. unfold CSVExtractor.load_to_landing.
  erewrite try_except_bind by exact H. reflexivity.
Qed.




(** ** Delegation of the Tabular Loader *)


(** Without faults the Document Loader succeeds on every session that has
    not been closed, and what it commits depends on the tables, the
    pending statements and the clock alone. *)
Lemma load_to_landing_fault_free (json_data : pyval) (t : string)
  (fn ep : option string) (st : option Z) (w : world) :
  (forall n, fault (env w) n = false) ->
  connection w <> ClosedSession ->
  exists w',
    JSONExtractor.load_to_landing json_data t fn ep st w = (Returned true, w')
    /\ tables w'
       = apply_all
           (pending w
            ++ insert_stmts t
                 (map column_name
                    (catalog_rows (catalog_query t) (catalog (env w))))
                 fn ep st (now (env w) (reads w)) (now (env w))
                 (S (reads w)) (as_records json_data))
           (tables w).
Proof.
  intros F C.
  assert (Open : forall w0, connection w0 = OpenSession -> env w0 = env w ->
    exists w',
      JSONExtractor.load_to_landing json_data t fn ep st w0
      = (Returned true, w')
      /\ tables w'
         = apply_all
             (pending w0
              ++ insert_stmts t
                   (map column_name
                      (catalog_rows (catalog_query t) (catalog (env w))))
                   fn ep st (now (env w) (reads w0)) (now (env w))
                   (S (reads w0)) (as_records json_data))
             (tables w0)).
  { intros w0 H0 E0.
    destruct (load_to_landing_open json_data t fn ep st w0 H0)
      as (k & b & w' & E & _ & _ & _ & _ & _ & _ & R).
    rewrite E0, F in R.
    destruct R as [(-> & _ & T & _) | (_ & _ & i & _ & Hi)].
    - exists w'. split; [exact E | exact T].
    - rewrite F in Hi. discriminate. }
  destruct (connection w) eqn:Cw; [| |congruence].
  - rewrite load_to_landing_no_session by exact Cw. rewrite F.
    apply (Open (set_connection OpenSession (set_calls (S (calls w)) w)));
      reflexivity.
  - now apply Open.
Qed.



Example tabular_rows_become_documents :
  let df := {| df_columns := ["Id"; "Name"];
               df_rows := [[PInt 1; PStr "a"]; [PInt 2; PStr "b"]] |} in
  let r := CSVExtractor.load_to_landing df "lnd_docs" (Some "users.csv")
             (Examples.fresh Examples.calm) in
  fst r = Returned true
  /\ map (row_get "raw_data") (tables (snd r) "lnd_docs")
     = [Some (PJson (PDict [("Id", PInt 1); ("Name", PStr "a")]));
        Some (PJson (PDict [("Id", PInt 2); ("Name", PStr "b")]))].
Proof.
  cbv zeta. split; vm_compute; reflexivity.
Qed.

(** ** The orchestrator's loops *)

Lemma filter_length_all (results : list bool) :
  (List.length (filter (fun ok => ok) results) =? List.length results)
  = all_succeeded results.
Proof.
  unfold all_succeeded.
  induction results as [|b rest IH]; [reflexivity|].
  destruct b; cbn [filter forallb List.length andb].
  - exact IH.
  - apply Nat.eqb_neq.
    pose proof (filter_length_le (fun ok => ok) rest). lia.
Qed.

Section Loop.

Variable process : string -> string -> M bool.

Hypothesis process_returns :
  forall key table_name w, exists ok w',
    process key table_name w = (Returned ok, w').

(** The counting loop visits every entry and counts the successes. *)
Lemma extract_loop_eq (items : list (string * string)) :
  forall n w,
    extract_loop process items n w =
    (Returned (n + List.length
                     (filter (fun ok => ok)
                        (fst (run_entries process items w)))),
     snd (run_entries process items w)).
Proof.
  induction items as [|[key table_name] rest IH]; intros n w.
  - cbn. unfold ret. now rewrite Nat.add_0_r.
  - cbn [extract_loop run_entries].
    destruct (process_returns key table_name w) as (ok & w1 & E).
    erewrite bind_returned by exact E. rewrite E, IH.
    destruct (run_entries process rest w1) as [results w2].
    cbn [fst snd]. destruct ok; cbn [filter List.length]; f_equal; f_equal; lia.
Qed.

Lemma run_entries_length (items : list (string * string)) :
  forall w, List.length (fst (run_entries process items w)) = List.length items.
Proof.
  induction items as [|[key table_name] rest IH]; intros w; [reflexivity|].
  cbn [run_entries]. destruct (process key table_name w) as [o w1].
  specialize (IH w1). destruct (run_entries process rest w1) as [results w2].
  cbn [fst List.length] in *. now rewrite IH.
Qed.

(** [successful == total] says that every entry succeeded. *)
Lemma counting_loop_all (items : list (string * string)) (w : world) :
  try_except
    (successful <- extract_loop process items 0;;
     ret (successful =? List.length items))
    (fun _ => ret false) w
  = (Returned (all_succeeded (fst (run_entries process items w))),
     snd (run_entries process items w)).
Proof.
  apply try_except_returned.
  erewrite bind_returned by apply extract_loop_eq.
  unfold ret. cbn [Nat.add].
  now rewrite <- (run_entries_length items w), filter_length_all.
Qed.

End Loop.

Lemma extract_file_returns (cfg : s3_config) (key table_name : string)
  (w : world) :
  exists ok w',
    PublicS3Extractor.extract_file cfg key table_name w = (Returned ok, w').
Proof. apply try_except_total. Qed.

Lemma extract_endpoint_returns (endpoint table_name : string) (w : world) :
  exists ok w',
    APIExtractor.extract_endpoint endpoint table_name w = (Returned ok, w').
Proof. apply try_except_total. Qed.

Lemma s3_extract_all_eq (cfg : s3_config) (w : world) :
  let r := run_entries (PublicS3Extractor.extract_file cfg) (files cfg) w in
  PublicS3Extractor.extract_all cfg w
  = (Returned (all_succeeded (fst r)), snd r).
Proof.
  apply counting_loop_all. apply extract_file_returns.
Qed.

Lemma api_extract_all_eq (cfg : api_config) (w : world) :
  let r := run_entries APIExtractor.extract_endpoint (endpoints cfg) w in
  APIExtractor.extract_all cfg w = (Returned (all_succeeded (fst r)), snd r).
Proof.
  apply counting_loop_all. apply extract_endpoint_returns.
Qed.

Lemma close_connection_eq (w : world) :
  DatabaseConnector.close_connection w =
  (Returned tt,
   match connection w with
   | NoSession => w
   | _ => set_pending [] (set_connection ClosedSession w)
   end).
Proof.
  unfold DatabaseConnector.close_connection. run.
  destruct (connection w); reflexivity.
Qed.

(** C7.  Each [extract_all] processes every entry of its mapping, in the
    mapping's order, each entry in the world the earlier entries left
    behind and whatever their results were, and returns [true] if and only
    if every entry succeeded.  The orchestrator's own [extract_all] runs
    the object-storage mapping to its end, then the API mapping to its
    end, returns [true] if and only if every entry of both succeeded, and
    closes the session last. *)
Theorem extract_all_runs_every_entry (cfg : config) (w : world) :
  let s3_run :=
    run_entries (PublicS3Extractor.extract_file (s3 cfg)) (files (s3 cfg)) w in
  let api_run (w0 : world) :=
    run_entries APIExtractor.extract_endpoint (endpoints (api cfg)) w0 in
  PublicS3Extractor.extract_all (s3 cfg) w
  = (Returned (all_succeeded (fst s3_run)), snd s3_run)
  /\ (forall w0,
        APIExtractor.extract_all (api cfg) w0
        = (Returned (all_succeeded (fst (api_run w0))), snd (api_run w0)))
  /\ MainExtractor.extract_all cfg w
     = (Returned (all_succeeded (fst s3_run)
                  && all_succeeded (fst (api_run (snd s3_run)))),
        snd (DatabaseConnector.close_connection (snd (api_run (snd s3_run)))))
  /\ List.length (fst s3_run) = List.length (files (s3 cfg))
  /\ (forall w0,
        List.length (fst (api_run w0)) = List.length (endpoints (api cfg)))
  /\ (forall results,
        all_succeeded results = true <-> Forall (fun ok => ok = true) results).
Proof.
  intros s3_run api_run.
  pose proof (s3_extract_all_eq (s3 cfg) w) as S3. cbv zeta in S3.
  fold s3_run in S3.
  assert (API : forall w0,
    APIExtractor.extract_all (api cfg) w0
    = (Returned (all_succeeded (fst (api_run w0))), snd (api_run w0)))
    by (intros w0; apply api_extract_all_eq).
  split; [exact S3|]. split; [exact API|]. split.
  - unfold MainExtractor.extract_all.
    erewrite bind_returned.
    2:{ apply try_except_returned.
        erewrite bind_returned
          by (unfold MainExtractor.extract_from_s3;
              apply try_except_returned; exact S3).
        erewrite bind_returned
          by (unfold MainExtractor.extract_from_api;
              apply try_except_returned; apply API).
        reflexivity. }
    rewrite close_connection_eq.
    erewrite bind_returned by apply close_connection_eq.
    reflexivity.
  - split; [apply run_entries_length|].
    split; [intros w0; apply run_entries_length|].
    intros results. unfold all_succeeded.
    rewrite forallb_forall, Forall_forall. reflexivity.
Qed.

(** A run over the sample configuration: the first entry of each mapping
    fails, the later ones are still loaded, and the result is [false]. *)
Example failed_entry_does_not_stop_the_run :
  let r := MainExtractor.extract_all Examples.sample_config
             (Examples.fresh Examples.online) in
  fst r = Returned false
  /\ fst (run_entries (PublicS3Extractor.extract_file Examples.sample_s3)
            (files Examples.sample_s3) (Examples.fresh Examples.online))
     = [false; true; true]
  /\ List.length (tables (snd r) "lnd_prices") = 2
  /\ List.length (tables (snd r) "lnd_docs") = 2
  /\ List.length (tables (snd r) "lnd_items") = 3.
Proof.
  cbv zeta. repeat split; vm_compute; reflexivity.
Qed.

(** ** Format classification of the object-storage fetcher *)

Lemma extract_from_object_returns (v : pyval) (t : string)
  (source : option string) (w : world) :
  exists ok w',
    JSONExtractor.extract_from_object v t source w = (Returned ok, w').
Proof. apply try_except_total. Qed.

Lemma extract_from_dataframe_returns (df : DataFrame) (t : string)
  (source : option string) (w : world) :
  exists ok w',
    CSVExtractor.extract_from_dataframe df t source w = (Returned ok, w').
Proof. apply try_except_total. Qed.

Lemma public_url_truthy (cfg : s3_config) (key : string) :
  truthy (Some ("https://" ++ bucket_name cfg ++ ".s3." ++ region cfg
                  ++ ".amazonaws.com/" ++ key)%string) = true.
Proof. reflexivity. Qed.

(** C10.  Once the download has succeeded, the format is decided by the
    lowercased file key alone: a key whose lowercased form ends in [.json]
    goes to the JSON pipeline, one that ends in [.csv] to the tabular
    pipeline, whatever the case of the letters in the key, and only a key
    that ends in neither is rejected: the call returns [false] and nothing
    is sent to the database. *)
Theorem extract_file_format_ignores_case (cfg : s3_config)
  (key t : string) (w : world) (r : response) :
  let url := ("https://" ++ bucket_name cfg ++ ".s3." ++ region cfg
                ++ ".amazonaws.com/" ++ key)%string in
  let w1 := set_calls (S (calls w)) w in
  http (env w) (calls w) url = Some r ->
  ((400 <=? status_code r) && (status_code r <? 600))%Z = false ->
  (str_endswith (str_lower key) ".json" = true ->
   PublicS3Extractor.extract_file cfg key t w =
   match json_body r with
   | Some v => JSONExtractor.extract_from_object v t (Some key) w1
   | None => (Returned false, w1)
   end)
  /\ (str_endswith (str_lower key) ".json" = false ->
      str_endswith (str_lower key) ".csv" = true ->
      PublicS3Extractor.extract_file cfg key t w =
      match csv_body r with
      | Some df => CSVExtractor.extract_from_dataframe df t (Some key) w1
      | None => (Returned false, w1)
      end)
  /\ (str_endswith (str_lower key) ".json" = false ->
      str_endswith (str_lower key) ".csv" = false ->
      PublicS3Extractor.extract_file cfg key t w = (Returned false, w1))
  /\ (forall key',
        str_lower key' = str_lower key ->
        str_endswith (str_lower key') ".json"
        = str_endswith (str_lower key) ".json"
        /\ str_endswith (str_lower key') ".csv"
           = str_endswith (str_lower key) ".csv").
Proof.
  intros url w1 Hget Hstatus. subst url.
  assert (Body : PublicS3Extractor.extract_file cfg key t w =
    try_except
      (if str_endswith (str_lower key) ".json"
       then json_data <- response_json r;;
            JSONExtractor.extract_from_object json_data t (Some key)
       else if str_endswith (str_lower key) ".csv"
            then df <- read_csv r;;
                 CSVExtractor.extract_from_dataframe df t (Some key)
            else ret false)
      (fun _ => ret false) w1).
  { unfold PublicS3Extractor.extract_file.
    erewrite try_except_bind by reflexivity.
    cbv beta iota. rewrite public_url_truthy. cbn [negb].
    erewrite try_except_bind
      by (unfold requests_get; rewrite Hget; reflexivity).
    erewrite try_except_bind
      by (unfold raise_for_status; rewrite Hstatus; reflexivity).
    reflexivity. }
  rewrite Body. clear Body.
  split; [|split; [|split]].
  - intros ->. unfold response_json.
    destruct (json_body r) as [v|].
    + destruct (extract_from_object_returns v t (Some key) w1)
        as (ok & w' & E).
      rewrite E. apply try_except_returned.
      erewrite bind_returned by reflexivity. exact E.
    + reflexivity.
  - intros -> ->. unfold read_csv.
    destruct (csv_body r) as [df|].
    + destruct (extract_from_dataframe_returns df t (Some key) w1)
        as (ok & w' & E).
      rewrite E. apply try_except_returned.
      erewrite bind_returned by reflexivity. exact E.
    + reflexivity.
  - intros -> ->. reflexivity.
  - intros key' ->. split; reflexivity.
Qed.

(** The theorem at work: the download of [DATA.CSV] succeeds, the key is
    taken as a tabular file, and the parsed frame goes to the Tabular
    Loader. *)
Lemma extract_file_format_ignores_case_witness :
  let w := Examples.fresh Examples.online in
  let r := Examples.ok_response None (Some Examples.prices_frame) in
  PublicS3Extractor.extract_file Examples.sample_s3 "DATA.CSV" "lnd_prices" w
  = match csv_body r with
    | Some df =>
        CSVExtractor.extract_from_dataframe df "lnd_prices" (Some "DATA.CSV")
          (set_calls (S (calls w)) w)
    | None => (Returned false, set_calls (S (calls w)) w)
    end.
Proof.
  cbv zeta.
  refine (proj1 (proj2 (extract_file_format_ignores_case Examples.sample_s3
                          "DATA.CSV" "lnd_prices"
                          (Examples.fresh Examples.online)
                          (Examples.ok_response None
                             (Some Examples.prices_frame)) _ _)) _ _);
    vm_compute; reflexivity.
Defined.

Example mixed_case_keys_are_accepted :
  let w := Examples.fresh Examples.online in
  fst (PublicS3Extractor.extract_file Examples.sample_s3 "DATA.CSV"
         "lnd_prices" w) = Returned true
  /\ fst (PublicS3Extractor.extract_file Examples.sample_s3 "data.Json"
            "lnd_docs" w) = Returned true
  /\ PublicS3Extractor.extract_file Examples.sample_s3 "notes.txt"
       "lnd_docs" w = (Returned false, set_calls 1 w).
Proof.
  cbv zeta. repeat split; vm_compute; reflexivity.
Qed.

(** ** More on column-name normalization *)

Lemma sub_runs_keeps (cls : ascii -> bool) (c : ascii) (s : list ascii) :
  forall b, In c s -> cls c = false -> In c (PyStr.sub_runs cls b s).
Proof.
  induction s as [|a t IH]; intros b H Hc; [destruct H|].
  cbn [PyStr.sub_runs]. destruct H as [->|H].
  - rewrite Hc. now left.
  - destruct (cls a); [destruct b|]; cbn [In]; auto.
Qed.

Lemma sub_runs_Forall_outside (cls : ascii -> bool) (P : ascii -> Prop)
  (s : list ascii) :
  P PyStr.underscore ->
  Forall (fun c => cls c = false -> P c) s ->
  forall b, Forall P (PyStr.sub_runs cls b s).
Proof.
  intros Hu H. induction H as [|c t Hc Ht IH]; intros b;
    cbn [PyStr.sub_runs]; [constructor|].
  destruct (cls c) eqn:E; [destruct b|]; auto.
Qed.

Lemma sub_camel_keeps (c : ascii) (s : list ascii) :
  In c s -> In c (PyStr.sub_camel s).
Proof.
  enough (G : (In c s -> In c (PyStr.sub_camel s))
              /\ forall a, In c (a :: s) -> In c (PyStr.sub_camel (a :: s)))
    by apply G.
  induction s as [|x t [IH1 IH2]].
  - split; [intros []|]. intros a H. exact H.
  - assert (G1 : In c (x :: t) -> In c (PyStr.sub_camel (x :: t)))
      by apply IH2.
    split; [exact G1|]. intros a H. rewrite sub_camel_cons2.
    destruct (PyStr.is_lower_or_digit a && PyStr.is_upper x).
    + destruct H as [->|[->|H]]; cbn [In]; auto.
    + destruct H as [->|H]; cbn [In]; auto.
Qed.

Lemma lower_char_underscore (c : ascii) :
  PyStr.is_underscore (PyStr.lower_char c) = PyStr.is_underscore c.
Proof. destruct c as [[] [] [] [] [] [] [] []]; reflexivity. Qed.

Lemma lstrip_nil (cls : ascii -> bool) (s : list ascii) :
  PyStr.lstrip cls s = [] <-> Forall (fun c => cls c = true) s.
Proof.
  induction s as [|c t IH]; cbn [PyStr.lstrip].
  - split; [constructor | reflexivity].
  - destruct (cls c) eqn:E.
    + rewrite IH. split; [now constructor | now inversion 1].
    + split; [discriminate | inversion 1; congruence].
Qed.

Lemma strip_nil (cls : ascii -> bool) (s : list ascii) :
  PyStr.strip cls s = [] <-> Forall (fun c => cls c = true) s.
Proof.
  unfold PyStr.strip, PyStr.rstrip. split.
  - intros H. apply (f_equal (@rev ascii)) in H.
    rewrite rev_involutive in H. cbn in H.
    apply lstrip_nil in H. apply Forall_rev in H.
    rewrite rev_involutive in H.
    destruct (PyStr.lstrip cls s) eqn:E; [now apply lstrip_nil|].
    pose proof (lstrip_head_ok cls s) as Hh. rewrite E in Hh. cbn in Hh.
    inversion H; subst. rewrite H2 in Hh. discriminate.
  - intros H. apply lstrip_nil in H. rewrite H. reflexivity.
Qed.

Lemma sub_runs_nil (cls : ascii -> bool) (s : list ascii) :
  PyStr.sub_runs cls false s = [] <-> s = [].
Proof.
  split; [|now intros ->].
  destruct s as [|c t]; [reflexivity|]. cbn [PyStr.sub_runs].
  destruct (cls c); discriminate.
Qed.

Lemma string_of_list_ascii_nil (l : list ascii) :
  string_of_list_ascii l = "" <-> l = [].
Proof. destruct l; split; intros H; try reflexivity; discriminate. Qed.

(** X3 groundwork: which characters a name must be made of to vanish. *)
Lemma camel_to_snake_chars_nil (name : list ascii) :
  camel_to_snake_chars name = [] <->
  Forall (fun c => PyStr.is_space_or_dash c || PyStr.is_underscore c = true)
    name.
Proof.
  unfold camel_to_snake_chars. rewrite sub_runs_nil, strip_nil.
  unfold PyStr.lower. rewrite Forall_map. split.
  - intros H. apply Forall_forall. intros c Hc.
    destruct (PyStr.is_space_or_dash c) eqn:E; [reflexivity|].
    cbn [orb]. rewrite <- lower_char_underscore.
    rewrite Forall_forall in H. apply H.
    apply sub_camel_keeps, sub_runs_keeps; assumption.
  - intros H.
    eapply Forall_impl;
      [intros c Hc; rewrite lower_char_underscore; exact Hc|].
    apply sub_camel_Forall; [reflexivity|].
    apply sub_runs_Forall_outside; [reflexivity|].
    eapply Forall_impl; [|exact H]. cbv beta. intros c Hc E.
    rewrite E in Hc. exact Hc.
Qed.

(** X1.  The result of [camel_to_snake] is always in normal form: it has
    no whitespace, no hyphen and no capital A-Z, lowering would not change
    it, it neither starts nor ends with an underscore, and it has no two
    underscores in a row. *)
Theorem camel_to_snake_shape (name : string) :
  let out := list_ascii_of_string (camel_to_snake name) in
  Forall (fun c => PyStr.is_space c = false /\ PyStr.is_dash c = false
                   /\ PyStr.is_upper c = false /\ PyStr.lower_char c = c) out
  /\ head_ok PyStr.is_underscore out = true
  /\ head_ok PyStr.is_underscore (rev out) = true
  /\ no_double PyStr.is_underscore out = true.
Proof.
  intros out. subst out. unfold camel_to_snake.
  rewrite list_ascii_of_string_of_list_ascii.
  destruct (camel_to_snake_chars_normalized (list_ascii_of_string name))
    as (S & H1 & H2 & H3).
  split; [|auto].
  eapply Forall_impl; [|exact S]. intros c Hc.
  destruct (settled_inv c Hc) as (A & B & C).
  unfold PyStr.is_space_or_dash in A. apply orb_false_iff in A.
  tauto.
Qed.

(** X2.  The names [camel_to_snake] leaves alone are exactly the names in
    normal form. *)
Theorem camel_to_snake_fixed_points (name : string) :
  camel_to_snake name = name <-> normalized (list_ascii_of_string name).
Proof.
  split.
  - intros H. rewrite <- H. unfold camel_to_snake.
    rewrite list_ascii_of_string_of_list_ascii.
    apply camel_to_snake_chars_normalized.
  - intros H. unfold camel_to_snake.
    rewrite camel_to_snake_chars_fixes_normalized by exact H.
    apply string_of_list_ascii_of_string.
Qed.

(** X3.  A name normalizes to the empty string exactly when it is made of
    whitespace, hyphens and underscores only (the empty name included). *)
Theorem camel_to_snake_empty (name : string) :
  camel_to_snake name = "" <->
  Forall (fun c => PyStr.is_space c || PyStr.is_dash c
                   || PyStr.is_underscore c = true)
    (list_ascii_of_string name).
Proof.
  unfold camel_to_snake.
  rewrite string_of_list_ascii_nil, camel_to_snake_chars_nil.
  reflexivity.
Qed.

Example camel_to_snake_separators_only : camel_to_snake " -_ - " = "".
Proof. reflexivity. Qed.

(** ** Qualified names and the three inspectors *)

Lemma list_ascii_of_string_app (a b : string) :
  list_ascii_of_string (a ++ b)
  = list_ascii_of_string a ++ list_ascii_of_string b.
Proof. induction a as [|c a IH]; cbn; [reflexivity | now rewrite IH]. Qed.

Lemma split_first_dot_none (l : list ascii) :
  PyStr.split_first_dot l = None <-> existsb PyStr.is_dot l = false.
Proof.
  induction l as [|c l IH]; cbn; [tauto|].
  destruct (PyStr.is_dot c); cbn; [split; discriminate|].
  destruct (PyStr.split_first_dot l) as [[a b]|].
  - split; [discriminate|]. intros H. apply IH in H. discriminate.
  - tauto.
Qed.

Lemma split_first_dot_app (a b : list ascii) :
  existsb PyStr.is_dot a = false ->
  PyStr.split_first_dot (a ++ "."%char :: b) = Some (a, b).
Proof.
  induction a as [|c a IH]; cbn; [reflexivity|].
  intros H. apply orb_false_iff in H. destruct H as [Hc Ha].
  now rewrite Hc, IH.
Qed.

Lemma split_first_dot_prefix (l a b : list ascii) :
  PyStr.split_first_dot l = Some (a, b) -> existsb PyStr.is_dot a = false.
Proof.
  revert a b. induction l as [|c l IH]; intros a b H; cbn in H;
    [discriminate|].
  destruct (PyStr.is_dot c) eqn:D.
  - injection H as <- <-. reflexivity.
  - destruct (PyStr.split_first_dot l) as [[a' b']|]; [|discriminate].
    injection H as <- <-. cbn. rewrite D. eapply IH. reflexivity.
Qed.

(** A name put together from a dot-free part, a dot and a rest splits
    back into the two. *)
Lemma split_qualified_joined (a b : string) :
  has_dot a = false ->
  split_qualified (a ++ "." ++ b) = Some (a, b).
Proof.
  intros H. unfold split_qualified, has_dot in *.
  rewrite !list_ascii_of_string_app. cbn [list_ascii_of_string app].
  change (list_ascii_of_string "." ++ list_ascii_of_string b)
    with ("."%char :: list_ascii_of_string b).
  rewrite split_first_dot_app by exact H.
  now rewrite !string_of_list_ascii_of_string.
Qed.

Lemma split_qualified_no_dot (t : string) :
  split_qualified t = None <-> has_dot t = false.
Proof.
  unfold split_qualified, has_dot.
  rewrite <- split_first_dot_none.
  destruct (PyStr.split_first_dot (list_ascii_of_string t)) as [[? ?]|];
    split; congruence.
Qed.

(** X4.  Splitting a table name at its first dot and joining the parts
    again are inverse to each other: a name splits into [(a, b)] exactly
    when it is [a.b] with no dot in [a], and it does not split exactly when
    it has no dot. *)
Theorem split_qualified_round_trip (t a b : string) :
  (split_qualified t = Some (a, b) <->
   t = (a ++ "." ++ b)%string /\ has_dot a = false)
  /\ (split_qualified t = None <-> has_dot t = false).
Proof.
  split; [split|].
  - intros H. split; [symmetry; now apply split_qualified_join|].
    unfold split_qualified in H.
    destruct (PyStr.split_first_dot (list_ascii_of_string t))
      as [[a' b']|] eqn:E; [|discriminate].
    injection H as <- <-. unfold has_dot.
    rewrite list_ascii_of_string_of_list_ascii.
    eapply split_first_dot_prefix, E.
  - intros [-> H]. now apply split_qualified_joined.
  - apply split_qualified_no_dot.
Qed.

Lemma In_order_by_ordinal (r : catalog_row) (l : list catalog_row) :
  In r (order_by_ordinal l) <-> In r l.
Proof.
  split; apply Permutation_in;
    [|symmetry]; apply order_by_ordinal_perm.
Qed.

Lemma In_catalog_rows (s : stmt) (cat : list catalog_row) (r : catalog_row) :
  In r (catalog_rows s cat) <-> In r cat /\ selects s r = true.
Proof. unfold catalog_rows. now rewrite In_order_by_ordinal, filter_In. Qed.

(** X5.  Asked for a bare table name, the Schema Inspector selects the
    catalog lines of every table of that name, whatever its schema: each
    column it reports for [schema.table] it also reports, from the same
    state, for [table], and a successful bare lookup reports the columns
    of all schemas' tables of that name. *)
Theorem bare_name_sees_every_schema (schema table : string) (w : world) :
  has_dot schema = false -> has_dot table = false ->
  exists qualified bare,
    fst (JSONExtractor.get_table_columns (schema ++ "." ++ table) w)
    = Returned qualified
    /\ fst (JSONExtractor.get_table_columns table w) = Returned bare
    /\ incl qualified bare
    /\ (connection w = OpenSession -> fault (env w) (calls w) = false ->
        forall r, In r (catalog (env w)) -> table_name r = table ->
                  In (column_name r) bare).
Proof.
  intros Hs Ht.
  assert (Q : catalog_query (schema ++ "." ++ table)
              = SelectColumns (Some schema) table).
  { unfold catalog_query.
    now rewrite (split_qualified_joined schema table Hs). }
  assert (B : catalog_query table = SelectColumns None table).
  { unfold catalog_query.
    destruct (split_qualified_no_dot table) as [_ E].
    now rewrite E. }
  rewrite !get_table_columns_eq, Q, B.
  assert (I : incl
    (map column_name
       (catalog_rows (SelectColumns (Some schema) table) (catalog (env w))))
    (map column_name
       (catalog_rows (SelectColumns None table) (catalog (env w))))).
  { intros c Hc. apply in_map_iff in Hc. destruct Hc as (r & <- & Hr).
    apply in_map. apply In_catalog_rows in Hr. apply In_catalog_rows.
    destruct Hr as [Hr Hm]. split; [exact Hr|].
    cbn in *. now apply andb_true_iff in Hm. }
  destruct (connection w) eqn:C.
  - destruct (fault (env w) (calls w));
      [|destruct (fault (env w) (S (calls w)))];
      eexists; eexists; cbn [fst];
      (split; [reflexivity|]); (split; [reflexivity|]);
      (split; [first [exact I | apply incl_refl]|]); discriminate.
  - destruct (fault (env w) (calls w)) eqn:F;
      eexists; eexists; cbn [fst];
      (split; [reflexivity|]); (split; [reflexivity|]);
      (split; [first [exact I | apply incl_refl]|]);
      intros _ F'; [discriminate|].
    intros r Hr Hn. apply in_map. apply In_catalog_rows.
    split; [exact Hr|]. cbn. now apply String.eqb_eq.
  - exists [], []. cbn [fst]. repeat split; try apply incl_refl.
    discriminate.
Qed.

(** The theorem at work on the sample catalog. *)
Lemma bare_name_sees_every_schema_witness :
  exists qualified bare,
    fst (JSONExtractor.get_table_columns "public.lnd_docs"
           (Examples.stocked Examples.calm)) = Returned qualified
    /\ fst (JSONExtractor.get_table_columns "lnd_docs"
              (Examples.stocked Examples.calm)) = Returned bare
    /\ incl qualified bare.
Proof.
  destruct (bare_name_sees_every_schema "public" "lnd_docs"
              (Examples.stocked Examples.calm) eq_refl eq_refl)
    as (q & b & Hq & Hb & I & _).
  exists q, b. repeat split; assumption.
Defined.

Lemma main_get_table_columns_open (t : string) (w : world) :
  connection w = OpenSession ->
  fst (MainExtractor.get_table_columns t w)
  = Returned (if fault (env w) (calls w) then []
              else map column_name
                     (catalog_rows (SelectColumns None t) (catalog (env w)))).
Proof.
  intros H. unfold MainExtractor.get_table_columns.
  erewrite try_except_bind by (rewrite get_connection_eq, H; reflexivity).
  erewrite try_except_bind by (apply cursor_open, H).
  unfold try_except, bind. rewrite cursor_execute_open by exact H.
  cbv zeta. destruct (fault (env w) (calls w)); [reflexivity|].
  cbn [is_insert is_truncate orb fst ret].
  unfold ret. cbn [fst]. now rewrite result_set_catalog_rows.
Qed.

Lemma main_get_table_columns_result (t : string) (w : world) :
  fst (MainExtractor.get_table_columns t w) = Returned []
  \/ fst (MainExtractor.get_table_columns t w)
     = Returned (map column_name
                   (catalog_rows (SelectColumns None t) (catalog (env w)))).
Proof.
  destruct (connection w) eqn:C.
  - unfold MainExtractor.get_table_columns.
    destruct (fault (env w) (calls w)) eqn:F.
    + left.
      erewrite try_except_bind
        by (rewrite get_connection_eq, C, F; reflexivity).
      reflexivity.
    + pose proof (main_get_table_columns_open t
                    (set_connection OpenSession (set_calls (S (calls w)) w))
                    eq_refl) as E.
      unfold MainExtractor.get_table_columns in E.
      erewrite try_except_bind in E
        by (rewrite get_connection_eq; reflexivity).
      erewrite try_except_bind
        by (rewrite get_connection_eq, C, F; reflexivity).
      rewrite E. autorewrite with world.
      destruct (fault (env w) (S (calls w))); auto.
  - rewrite main_get_table_columns_open by exact C.
    destruct (fault (env w) (calls w)); auto.
  - left. unfold MainExtractor.get_table_columns.
    erewrite try_except_bind by (rewrite get_connection_eq, C; reflexivity).
    unfold cursor. run. now rewrite C.
Qed.

(** X6.  The orchestrator's own inspector does not understand qualified
    names.  For a name without a dot it is the Schema Inspector of the
    loaders; for a name with a dot it asks the catalog for a table of that
    full name, so that, table names in the catalog having no dot, it
    reports no column at all. *)
Theorem main_inspector_ignores_schema (t : string) (w : world) :
  (has_dot t = false ->
   MainExtractor.get_table_columns t w = JSONExtractor.get_table_columns t w)
  /\ (has_dot t = true ->
      (forall r, In r (catalog (env w)) -> has_dot (table_name r) = false) ->
      fst (MainExtractor.get_table_columns t w) = Returned []).
Proof.
  split.
  - intros H.
    destruct (split_qualified_no_dot t) as [_ E].
    unfold MainExtractor.get_table_columns, JSONExtractor.get_table_columns.
    now rewrite (E H).
  - intros H Hcat.
    destruct (main_get_table_columns_result t w) as [E|E]; [exact E|].
    rewrite E. f_equal.
    replace (catalog_rows (SelectColumns None t) (catalog (env w)))
      with (@nil catalog_row); [reflexivity|].
    symmetry.
    destruct (catalog_rows (SelectColumns None t) (catalog (env w)))
      as [|r l] eqn:R; [reflexivity|].
    assert (Hr : In r (catalog_rows (SelectColumns None t) (catalog (env w))))
      by (rewrite R; now left).
    apply In_catalog_rows in Hr. destruct Hr as [Hr Hm].
    cbn in Hm. apply String.eqb_eq in Hm.
    specialize (Hcat r Hr). congruence.
Qed.

Example main_inspector_misses_qualified_table :
  let w := Examples.stocked Examples.calm in
  fst (JSONExtractor.get_table_columns "public.lnd_docs" w)
  = Returned ["raw_data"; "loaded_at"; "request_timestamp"]
  /\ fst (MainExtractor.get_table_columns "public.lnd_docs" w) = Returned [].
Proof. cbv zeta. split; vm_compute; reflexivity. Qed.

(** ** Truncation through the connector *)

Lemma get_engine_eq (w : world) :
  DatabaseConnector.get_engine w =
  if engine w then (Returned true, w)
  else if fault (env w) (calls w)
       then (Returned false, set_calls (S (calls w)) w)
       else (Returned true, set_engine true (set_calls (S (calls w)) w)).
Proof.
  destruct w as [en n r c g tb pd ex].
  unfold DatabaseConnector.get_engine. run.
  destruct g; simpl; [reflexivity|]. destruct (fault en n); reflexivity.
Qed.

Lemma truncate_table_open (t : string) (w : world) :
  connection w = OpenSession ->
  exists w',
    DatabaseConnector.truncate_table t w
    = (Returned (negb (fault (env w) (calls w))
                 && negb (fault (env w) (S (calls w)))), w')
    /\ env w' = env w /\ connection w' = OpenSession
    /\ engine w' = engine w /\ pending w' = []
    /\ calls w' = (if fault (env w) (calls w) then S (calls w)
                   else S (S (calls w)))
    /\ tables w'
       = (if negb (fault (env w) (calls w))
             && negb (fault (env w) (S (calls w)))
          then apply_all (pending w ++ [TruncateTable t]) (tables w)
          else tables w).
Proof.
  intros H. unfold DatabaseConnector.truncate_table.
  erewrite try_except_bind by (rewrite get_connection_eq, H; reflexivity).
  erewrite try_except_bind by reflexivity.
  erewrite try_except_bind by (apply cursor_open, H).
  destruct (fault (env w) (calls w)) eqn:F0.
  - erewrite try_except_raised
      by (erewrite bind_raised; [reflexivity|];
          rewrite cursor_execute_open by exact H; cbv zeta; rewrite F0;
          reflexivity).
    erewrite bind_returned by reflexivity.
    autorewrite with world. rewrite H.
    erewrite bind_returned by (apply rollback_open; exact H).
    eexists. split; [reflexivity|]. autorewrite with world.
    repeat split; auto.
  - erewrite try_except_bind
      by (rewrite cursor_execute_open by exact H; cbv zeta; rewrite F0;
          reflexivity).
    set (w1 := set_pending (pending w ++ [TruncateTable t])
                 (set_calls (S (calls w))
                    (set_executed (executed w ++ [TruncateTable t]) w))).
    assert (O1 : connection w1 = OpenSession) by exact H.
    destruct (fault (env w) (S (calls w))) eqn:F1.
    + erewrite try_except_raised
        by (erewrite bind_raised; [reflexivity|];
            rewrite commit_open by exact O1; cbv zeta;
            change (fault (env w1) (calls w1))
              with (fault (env w) (S (calls w)));
            rewrite F1; reflexivity).
      erewrite bind_returned by reflexivity.
      autorewrite with world. subst w1. autorewrite with world. rewrite H.
      erewrite bind_returned by (apply rollback_open; exact H).
      eexists. split; [reflexivity|]. autorewrite with world.
      repeat split; auto.
    + erewrite try_except_bind
        by (rewrite commit_open by exact O1; cbv zeta;
            change (fault (env w1) (calls w1))
              with (fault (env w) (S (calls w)));
            rewrite F1; reflexivity).
      eexists. split; [reflexivity|]. autorewrite with world.
      subst w1. autorewrite with world. repeat split; auto.
Qed.

Lemma truncate_table_closed (t : string) (w : world) :
  connection w = ClosedSession ->
  DatabaseConnector.truncate_table t w = (Raised InterfaceError, w).
Proof.
  intros H. unfold DatabaseConnector.truncate_table.
  erewrite try_except_bind by (rewrite get_connection_eq, H; reflexivity).
  erewrite try_except_bind by reflexivity.
  erewrite try_except_raised
    by (erewrite bind_raised; [reflexivity|]; unfold cursor; run;
        rewrite H; reflexivity).
  erewrite bind_returned by reflexivity. rewrite H.
  erewrite bind_raised; [reflexivity|].
  unfold rollback. erewrite bind_returned by reflexivity.
  rewrite H. reflexivity.
Qed.

Lemma truncate_table_no_session (t : string) (w : world) :
  connection w = NoSession ->
  DatabaseConnector.truncate_table t w =
  if fault (env w) (calls w)
  then (Returned false, set_calls (S (calls w)) w)
  else DatabaseConnector.truncate_table t
         (set_connection OpenSession (set_calls (S (calls w)) w)).
Proof.
  intros H. unfold DatabaseConnector.truncate_table.
  destruct (fault (env w) (calls w)) eqn:F.
  - erewrite try_except_bind
      by (rewrite get_connection_eq, H, F; reflexivity).
    erewrite try_except_raised by reflexivity.
    run. now rewrite H.
  - erewrite try_except_bind
      by (rewrite get_connection_eq, H, F; reflexivity).
    symmetry.
    erewrite try_except_bind by (rewrite get_connection_eq; reflexivity).
    reflexivity.
Qed.

(** X7.  [truncate_table] of the connector, on a session that has not been
    closed, never raises and reports the truth: it returns [true] exactly
    when a connection is there and neither the statement nor the commit
    fails, and then the table is empty; when it returns [false] no table
    has changed.  The orchestrator's wrapper returns the same, and on a
    closed session, where the connector's function raises from its
    handler, the wrapper returns [false]. *)
Theorem truncate_table_reports_the_truth (t : string) (w : world) :
  let q := match connection w with NoSession => S (calls w) | _ => calls w end in
  let connected := match connection w with
                   | NoSession => negb (fault (env w) (calls w))
                   | _ => true
                   end in
  (connection w <> ClosedSession ->
   exists b w',
     DatabaseConnector.truncate_table t w = (Returned b, w')
     /\ MainExtractor.truncate_table t w = (Returned b, w')
     /\ (b = true <->
         connected = true /\ fault (env w) q = false
         /\ fault (env w) (S q) = false)
     /\ (b = true -> tables w' t = [])
     /\ (b = false -> tables w' = tables w))
  /\ (connection w = ClosedSession ->
      DatabaseConnector.truncate_table t w = (Raised InterfaceError, w)
      /\ MainExtractor.truncate_table t w = (Returned false, w)).
Proof.
  intros q connected.
  assert (Open : forall w0, connection w0 = OpenSession ->
    exists b w',
      DatabaseConnector.truncate_table t w0 = (Returned b, w')
      /\ (b = true <->
          fault (env w0) (calls w0) = false
          /\ fault (env w0) (S (calls w0)) = false)
      /\ (b = true -> tables w' t = [])
      /\ (b = false -> tables w' = tables w0)).
  { intros w0 H0.
    destruct (truncate_table_open t w0 H0)
      as (w' & E & _ & _ & _ & _ & _ & T).
    eexists. exists w'. split; [exact E|].
    destruct (fault (env w0) (calls w0)) eqn:F0;
      [|destruct (fault (env w0) (S (calls w0))) eqn:F1];
      cbn [negb andb] in *.
    - split; [split; [discriminate | intros [? ?]; congruence]|].
      split; [discriminate | intros _; exact T].
    - split; [split; [discriminate | intros [? ?]; congruence]|].
      split; [discriminate | intros _; exact T].
    - split; [tauto|]. split; [|discriminate].
      intros _. rewrite T. apply apply_all_truncate_last. }
  split.
  - intros Hc.
    assert (G : exists b w',
      DatabaseConnector.truncate_table t w = (Returned b, w')
      /\ (b = true <->
          connected = true /\ fault (env w) q = false
          /\ fault (env w) (S q) = false)
      /\ (b = true -> tables w' t = [])
      /\ (b = false -> tables w' = tables w)).
    { subst q connected. destruct (connection w) eqn:C; [| |congruence].
      - rewrite truncate_table_no_session by exact C.
        destruct (fault (env w) (calls w)) eqn:F.
        + exists false. eexists. split; [reflexivity|].
          split; [split; [discriminate | intros [? _]; discriminate]|].
          split; [discriminate | reflexivity].
        + destruct (Open (set_connection OpenSession
                            (set_calls (S (calls w)) w)) eq_refl)
            as (b & w' & E & I & T & U).
          autorewrite with world in I, U.
          exists b, w'. split; [exact E|].
          split; [rewrite I; cbn; tauto | auto].
      - destruct (Open w C) as (b & w' & E & I & T & U).
        exists b, w'. split; [exact E|]. split; [rewrite I; tauto | auto]. }
    destruct G as (b & w' & E & G).
    exists b, w'. split; [exact E|]. split; [|exact G].
    unfold MainExtractor.truncate_table. now apply try_except_returned.
  - intros C. split; [now apply truncate_table_closed|].
    unfold MainExtractor.truncate_table.
    erewrite try_except_raised by (apply truncate_table_closed, C).
    reflexivity.
Qed.

(** ** [load_to_landing_table] *)



(** ** The structured path, forwards *)

Lemma to_sql_target (df : DataFrame) (t : string) (w : world) :
  match split_qualified t with
  | Some (schema_name, table_name_only) =>
      to_sql df table_name_only (Some schema_name)
  | None => to_sql df t None
  end w =
  if fault (env w) (calls w) then (Raised DatabaseError, set_calls (S (calls w)) w)
  else (Returned tt,
        set_tables (update t (tables w t ++ frame_rows df) (tables w))
          (set_calls (S (calls w)) w)).
Proof.
  destruct (split_qualified t) as [[a b]|] eqn:Q; rewrite to_sql_eq; cbv zeta.
  - now rewrite (split_qualified_join t a b Q).
  - reflexivity.
Qed.

(** The inner block on an open session, step by step: the engine, the
    truncation, its commit, the append. *)
Lemma truncate_and_append_open (df : DataFrame) (t : string) (w : world) :
  connection w = OpenSession ->
  let engine_ok := engine w || negb (fault (env w) (calls w)) in
  let q := if engine w then calls w else S (calls w) in
  let f := fault (env w) in
  let committed := engine_ok && negb (f q) && negb (f (S q)) in
  exists w',
    CSVExtractor.truncate_and_append df t w
    = (Returned (committed && negb (f (S (S q)))), w')
    /\ tables w'
       = (if committed
          then let tb := apply_all (pending w ++ [TruncateTable t]) (tables w) in
               if f (S (S q)) then tb
               else update t (tb t ++ frame_rows df) tb
          else tables w).
Proof.
  intros H engine_ok q f committed.
  unfold CSVExtractor.truncate_and_append.
  assert (Rest : forall w1,
    connection w1 = OpenSession -> env w1 = env w -> calls w1 = q ->
    tables w1 = tables w -> pending w1 = pending w ->
    exists w',
      try_except
        (connection <- DatabaseConnector.get_connection;;
         cursor connection;;
         cursor_execute (TruncateTable t);;
         commit;;
         match split_qualified t with
         | Some (schema_name, table_name_only) =>
             to_sql df table_name_only (Some schema_name)
         | None => to_sql df t None
         end;;
         ret true) (fun _ => ret false) w1
      = (Returned (negb (f q) && negb (f (S q)) && negb (f (S (S q)))), w')
      /\ tables w'
         = (if negb (f q) && negb (f (S q))
            then let tb := apply_all (pending w ++ [TruncateTable t])
                             (tables w) in
                 if f (S (S q)) then tb
                 else update t (tb t ++ frame_rows df) tb
            else tables w)).
  { intros w1 O1 E1 C1 T1 P1.
    erewrite try_except_bind by (rewrite get_connection_eq, O1; reflexivity).
    erewrite try_except_bind by (apply cursor_open, O1).
    assert (F1 : fault (env w1) (calls w1) = f q)
      by (rewrite E1, C1; reflexivity).
    destruct (f q) eqn:F0.
    - eexists. split.
      + erewrite try_except_raised; [reflexivity|].
        erewrite bind_raised; [reflexivity|].
        rewrite cursor_execute_open by exact O1. cbv zeta.
        now rewrite F1.
      + autorewrite with world. exact T1.
    - erewrite try_except_bind
        by (rewrite cursor_execute_open by exact O1; cbv zeta; rewrite F1;
            reflexivity).
      set (w2 := set_pending (pending w1 ++ [TruncateTable t])
                   (set_calls (S (calls w1))
                      (set_executed (executed w1 ++ [TruncateTable t]) w1))).
      assert (O2 : connection w2 = OpenSession) by exact O1.
      assert (F2 : fault (env w2) (calls w2) = f (S q)).
      { subst w2. autorewrite with world. now rewrite E1, C1. }
      destruct (f (S q)) eqn:Fc.
      + eexists. split.
        * erewrite try_except_raised; [reflexivity|].
          erewrite bind_raised; [reflexivity|].
          rewrite commit_open by exact O2. cbv zeta. now rewrite F2.
        * autorewrite with world. subst w2. autorewrite with world. exact T1.
      + erewrite try_except_bind
          by (rewrite commit_open by exact O2; cbv zeta; rewrite F2;
              reflexivity).
        set (w3 := set_pending []
                     (set_tables (apply_all (pending w2) (tables w2))
                        (set_calls (S (calls w2)) w2))).
        assert (F3 : fault (env w3) (calls w3) = f (S (S q))).
        { subst w3 w2. autorewrite with world. now rewrite E1, C1. }
        assert (T3 : tables w3
                     = apply_all (pending w ++ [TruncateTable t]) (tables w)).
        { subst w3 w2. autorewrite with world. now rewrite P1, T1. }
        cbn [negb andb]. cbv zeta.
        destruct (f (S (S q))) eqn:Fa.
        * eexists. split.
          -- erewrite try_except_raised; [reflexivity|].
             erewrite bind_raised; [reflexivity|].
             rewrite to_sql_target. now rewrite F3.
          -- autorewrite with world. exact T3.
        * eexists. split.
          -- apply try_except_returned.
             erewrite bind_returned; [reflexivity|].
             rewrite to_sql_target. now rewrite F3.
          -- autorewrite with world. now rewrite T3. }
  subst committed engine_ok q.
  destruct (engine w) eqn:G.
  - erewrite try_except_bind by (rewrite get_engine_eq, G; reflexivity).
    erewrite try_except_bind by reflexivity.
    cbn [orb andb]. apply Rest; auto.
  - destruct (fault (env w) (calls w)) eqn:F.
    + eexists. split.
      * erewrite try_except_bind by (rewrite get_engine_eq, G, F; reflexivity).
        erewrite try_except_raised; [reflexivity|].
        erewrite bind_raised; reflexivity.
      * reflexivity.
    + erewrite try_except_bind by (rewrite get_engine_eq, G, F; reflexivity).
      erewrite try_except_bind by reflexivity.
      cbn [orb negb andb].
      apply (Rest (set_engine true (set_calls (S (calls w)) w))); auto.
Qed.

(** X9.  Truncation and append are two transactions.  When the truncation
    and its commit succeed and the append then fails, the inner block of
    the Tabular Loader returns [false] and leaves the destination empty:
    the rows it held are lost although the load failed. *)
Theorem failed_append_leaves_table_empty (df : DataFrame) (t : string)
  (w : world) :
  connection w = OpenSession ->
  let q := if engine w then calls w else S (calls w) in
  engine w || negb (fault (env w) (calls w)) = true ->
  fault (env w) q = false ->
  fault (env w) (S q) = false ->
  fault (env w) (S (S q)) = true ->
  exists w',
    CSVExtractor.truncate_and_append df t w = (Returned false, w')
    /\ tables w' t = [].
Proof.
  intros H q G F0 F1 F2.
  destruct (truncate_and_append_open df t w H) as (w' & E & T).
  cbv zeta in E, T. fold q in E, T.
  rewrite G, F0, F1, F2 in E, T. cbn [negb andb] in E, T.
  exists w'. split; [exact E|]. rewrite T. apply apply_all_truncate_last.
Qed.

(** The theorem at work: the append into [lnd_docs], external call number
    4, fails; the old row is gone. *)
Lemma failed_append_leaves_table_empty_witness :
  tables (Examples.stocked (Examples.failing_at 4)) "lnd_docs"
  = [Examples.old_row]
  /\ exists w',
       CSVExtractor.truncate_and_append Examples.prices_frame "lnd_docs"
         (Examples.stocked (Examples.failing_at 4)) = (Returned false, w')
       /\ tables w' "lnd_docs" = [].
Proof.
  split; [reflexivity|].
  apply (failed_append_leaves_table_empty Examples.prices_frame "lnd_docs"
           (Examples.stocked (Examples.failing_at 4))); reflexivity.
Defined.

(** ** Frames through the structured policy *)








(** ** The Tabular Loader when nothing fails *)

(** With no fault and a session that is not closed, the inspector returns
    the catalog's columns and leaves an open session behind. *)
Lemma get_table_columns_fault_free (t : string) (w : world) :
  (forall n, fault (env w) n = false) ->
  connection w <> ClosedSession ->
  exists w1,
    CSVExtractor.get_table_columns t w
    = (Returned (map column_name
                   (catalog_rows (catalog_query t) (catalog (env w)))), w1)
    /\ connection w1 = OpenSession /\ env w1 = env w /\ reads w1 = reads w
    /\ tables w1 = tables w /\ pending w1 = pending w.
Proof.
  intros F C.
  change (CSVExtractor.get_table_columns t w)
    with (JSONExtractor.get_table_columns t w).
  rewrite get_table_columns_eq.
  destruct (connection w) eqn:E; [| |congruence]; rewrite !F;
    eexists; (split; [reflexivity|]); autorewrite with world; auto.
Qed.




(** ** What the Document Loader stores beside the document *)

Lemma stored_metadata tc fn ep st rt la (j : pyval) :
  let r := combine (JSONExtractor.insert_columns tc fn ep st)
                   (row_values_at tc fn ep st rt la j) in
  row_get "raw_data" r = Some (PJson j)
  /\ row_get "file_name" r
     = (if py_in "file_name" tc && truthy fn then Some (str_arg fn) else None)
  /\ row_get "api_endpoint" r
     = (if py_in "api_endpoint" tc && truthy ep then Some (str_arg ep)
        else None)
  /\ row_get "response_status" r
     = (if py_in "response_status" tc && is_not_None st
        then Some (int_arg st) else None).
Proof.
  unfold JSONExtractor.insert_columns, row_values_at.
  generalize (py_in "loaded_at" tc), (py_in "file_name" tc && truthy fn),
    (py_in "api_endpoint" tc && truthy ep), (py_in "request_timestamp" tc),
    (py_in "response_status" tc && is_not_None st).
  intros [] [] [] [] []; repeat split; reflexivity.
Qed.

Lemma insert_stmts_rows t tc fn ep st rt clock (json_data : list pyval) :
  forall r,
    Forall2
      (fun j s =>
         exists la,
           s = InsertInto t (JSONExtractor.insert_columns tc fn ep st)
                 (JSONExtractor.insert_placeholders tc fn ep st)
                 (row_values_at tc fn ep st rt la j))
      json_data (insert_stmts t tc fn ep st rt clock r json_data).
Proof.
  induction json_data as [|j rest IH]; intros r; cbn [insert_stmts];
    constructor; [eauto | apply IH].
Qed.

(** The rows a fault-free Document Loader call adds, with what each holds
    under the metadata columns. *)
Lemma load_to_landing_rows (json_data : pyval) (t : string)
  (fn ep : option string) (st : option Z) (w : world) :
  (forall n, fault (env w) n = false) ->
  connection w <> ClosedSession ->
  pending w = [] ->
  let tc := map column_name
              (catalog_rows (catalog_query t) (catalog (env w))) in
  exists w' rows,
    JSONExtractor.load_to_landing json_data t fn ep st w = (Returned true, w')
    /\ tables w' t = tables w t ++ rows
    /\ (forall t', t' <> t -> tables w' t' = tables w t')
    /\ Forall2
         (fun j r =>
            row_get "raw_data" r = Some (PJson j)
            /\ row_get "file_name" r
               = (if py_in "file_name" tc && truthy fn
                  then Some (str_arg fn) else None)
            /\ row_get "api_endpoint" r
               = (if py_in "api_endpoint" tc && truthy ep
                  then Some (str_arg ep) else None)
            /\ row_get "response_status" r
               = (if py_in "response_status" tc && is_not_None st
                  then Some (int_arg st) else None))
         (as_records json_data) rows.
Proof.
  intros F C P tc.
  destruct (load_to_landing_fault_free json_data t fn ep st w F C)
    as (w' & H & T).
  rewrite P in T. cbn [app] in T. fold tc in T.
  set (stmts := insert_stmts t tc fn ep st (now (env w) (reads w))
                  (now (env w)) (S (reads w)) (as_records json_data)) in *.
  destruct (apply_all_inserts t (as_records json_data) stmts
              (insert_stmts_records _ _ _ _ _ _ _ _ _) (tables w))
    as (T1 & T2).
  exists w', (map stored_row stmts). rewrite T.
  split; [exact H|]. split; [exact T1|]. split; [exact T2|].
  subst stmts.
  generalize (insert_stmts_rows t tc fn ep st (now (env w) (reads w))
                (now (env w)) (as_records json_data) (S (reads w))).
  generalize (insert_stmts t tc fn ep st (now (env w) (reads w))
                (now (env w)) (S (reads w)) (as_records json_data)).
  generalize (as_records json_data).
  induction 1 as [|j s js ss (la & ->) _ IH]; cbn [map]; constructor;
    [|exact IH].
  cbn [stored_row]. apply stored_metadata.
Qed.

(** ** The API fetcher *)

Lemma make_api_request_with_details_eq (endpoint : string) (w : world) :
  APIExtractor.make_api_request_with_details endpoint w =
  (Returned
     match http (env w) (calls w) endpoint with
     | Some r =>
         if ((400 <=? status_code r) && (status_code r <? 600))%Z then None
         else match json_body r with
              | Some v => Some (v, status_code r)
              | None => None
              end
     | None => None
     end,
   set_calls (S (calls w)) w).
Proof.
  unfold APIExtractor.make_api_request_with_details, try_except, bind,
    requests_get, raise_for_status, response_json, raise, ret.
  destruct (http (env w) (calls w) endpoint) as [r|]; [|reflexivity].
  destruct ((400 <=? status_code r) && (status_code r <? 600))%Z;
    [reflexivity|].
  destruct (json_body r); reflexivity.
Qed.

(** X12.  A fetch that succeeds, into a world without faults: the API
    fetcher returns [True], keeps the rows the destination held and adds
    one row per record of the response, in order.  Each new row holds its
    record under [raw_data] and, where the destination declares the
    column, the endpoint URL under [api_endpoint] and under [file_name]
    and the response's status code under [response_status]. *)
Theorem extract_endpoint_stores_endpoint_and_status (endpoint t : string)
  (r : response) (v : pyval) (w : world) :
  http (env w) (calls w) endpoint = Some r ->
  ((400 <=? status_code r) && (status_code r <? 600))%Z = false ->
  json_body r = Some v ->
  (forall n, fault (env w) n = false) ->
  connection w <> ClosedSession ->
  pending w = [] ->
  endpoint <> "" ->
  let tc := map column_name
              (catalog_rows (catalog_query t) (catalog (env w))) in
  exists w' rows,
    APIExtractor.extract_endpoint endpoint t w = (Returned true, w')
    /\ tables w' t = tables w t ++ rows
    /\ Forall2
         (fun j row =>
            row_get "raw_data" row = Some (PJson j)
            /\ row_get "file_name" row
               = (if py_in "file_name" tc then Some (PStr endpoint) else None)
            /\ row_get "api_endpoint" row
               = (if py_in "api_endpoint" tc then Some (PStr endpoint)
                  else None)
            /\ row_get "response_status" row
               = (if py_in "response_status" tc
                  then Some (PInt (status_code r)) else None))
         (as_records v) rows.
Proof.
  intros Hh Hs Hj F C P Ne tc.
  set (w1 := set_calls (S (calls w)) w).
  destruct (load_to_landing_rows v t (Some endpoint) (Some endpoint)
              (Some (status_code r)) w1) as (w' & rows & H & T & _ & R).
  { exact F. } { exact C. } { exact P. }
  exists w', rows. split; [|split].
  - apply try_except_returned.
    erewrite bind_returned by apply make_api_request_with_details_eq.
    rewrite Hh, Hs, Hj. exact H.
  - exact T.
  - cbv zeta in R. change (env w1) with (env w) in R. fold tc in R.
    assert (Tr : truthy (Some endpoint) = true).
    { cbn. destruct (String.eqb_spec endpoint ""); [contradiction|reflexivity]. }
    rewrite Tr, !Bool.andb_true_r in R. exact R.
Qed.

(** The theorem at work: three items served with status 200 become three
    rows of [lnd_items]. *)
Lemma extract_endpoint_stores_endpoint_and_status_witness :
  exists w' rows,
    APIExtractor.extract_endpoint "https://api.example/items" "lnd_items"
      (Examples.fresh Examples.online) = (Returned true, w')
    /\ tables w' "lnd_items" = rows
    /\ Forall2
         (fun j row =>
            row_get "raw_data" row = Some (PJson j)
            /\ row_get "file_name" row = None
            /\ row_get "api_endpoint" row
               = Some (PStr "https://api.example/items")
            /\ row_get "response_status" row = Some (PInt 200))
         [PInt 7; PInt 8; PInt 9] rows.
Proof.
  apply (extract_endpoint_stores_endpoint_and_status
           "https://api.example/items" "lnd_items"
           (Examples.ok_response (Some (PList [PInt 7; PInt 8; PInt 9])) None)
           (PList [PInt 7; PInt 8; PInt 9])
           (Examples.fresh Examples.online)).
  - vm_compute; reflexivity.
  - vm_compute; reflexivity.
  - reflexivity.
  - intros n; reflexivity.
  - discriminate.
  - reflexivity.
  - discriminate.
Defined.


(** ** An orchestrator whose session has been closed *)

Lemma extract_endpoint_closed (endpoint t : string) (w : world) :
  connection w = ClosedSession ->
  APIExtractor.extract_endpoint endpoint t w
  = (Returned false, set_calls (S (calls w)) w).
Proof.
  intros C. unfold APIExtractor.extract_endpoint.
  erewrite try_except_bind by apply make_api_request_with_details_eq.
  destruct (match http (env w) (calls w) endpoint with
            | Some r => _ | None => _ end) as [[v s]|]; [|reflexivity].
  erewrite try_except_raised; [reflexivity|].
  now apply load_to_landing_closed.
Qed.

Lemma extract_from_object_closed (v : pyval) (t : string)
  (src : option string) (w : world) :
  connection w = ClosedSession ->
  JSONExtractor.extract_from_object v t src w = (Returned false, w).
Proof.
  intros C. unfold JSONExtractor.extract_from_object.
  erewrite try_except_raised; [reflexivity|].
  now apply load_to_landing_closed.
Qed.

Lemma get_engine_returns (w : world) :
  exists e w1,
    DatabaseConnector.get_engine w = (Returned e, w1)
    /\ connection w1 = connection w.
Proof.
  assert (H : exists e w1,
            DatabaseConnector.get_engine w = (Returned e, w1))
    by (unfold DatabaseConnector.get_engine; apply try_except_total).
  destruct H as (e & w1 & H).
  exists e, w1. split; [exact H|].
  now apply get_engine_frame in H.
Qed.

Lemma truncate_and_append_closed (df : DataFrame) (t : string) (w : world) :
  connection w = ClosedSession ->
  exists w',
    CSVExtractor.truncate_and_append df t w = (Returned false, w')
    /\ connection w' = ClosedSession.
Proof.
  intros C. unfold CSVExtractor.truncate_and_append.
  destruct (get_engine_returns w) as (e & w1 & G & C1). rewrite C in C1.
  erewrite try_except_bind by exact G.
  destruct e; cbn [negb].
  - erewrite try_except_bind by reflexivity.
    erewrite try_except_bind by (rewrite get_connection_eq, C1; reflexivity).
    erewrite try_except_raised
      by (erewrite bind_raised; [reflexivity|]; unfold cursor; run;
          rewrite C1; reflexivity).
    exists w1. split; [reflexivity | exact C1].
  - erewrite try_except_raised by reflexivity.
    exists w1. split; [reflexivity | exact C1].
Qed.

Lemma csv_load_closed (df : DataFrame) (t : string) (sf : option string)
  (w : world) :
  connection w = ClosedSession ->
  exists w',
    CSVExtractor.load_to_landing df t sf w = (Returned false, w')
    /\ connection w' = ClosedSession.
Proof.
  intros C.
  assert (G : CSVExtractor.get_table_columns t w = (Returned [], w)).
  { change (CSVExtractor.get_table_columns t w)
      with (JSONExtractor.get_table_columns t w).
    rewrite get_table_columns_eq, C. reflexivity. }
  rewrite (csv_load_after_inspection df t sf w w [] G).
  cbn [py_in existsb].
  destruct (truncate_and_append_closed
              (CSVExtractor.structured_frame df [] sf None) t w C)
    as (w' & H & C').
  exists w'. split; [|exact C'].
  apply try_except_returned.
  erewrite bind_returned; [reflexivity|].
  erewrite bind_returned by reflexivity. exact H.
Qed.

Lemma extract_file_closed (cfg : s3_config) (key t : string) (w : world) :
  connection w = ClosedSession ->
  exists w',
    PublicS3Extractor.extract_file cfg key t w = (Returned false, w')
    /\ connection w' = ClosedSession.
Proof.
  intros C.
  unfold PublicS3Extractor.extract_file, PublicS3Extractor.get_public_url.
  set (url := ("https://" ++ bucket_name cfg ++ ".s3." ++ region cfg
                 ++ ".amazonaws.com/" ++ key)%string).
  assert (T : truthy (Some url) = true) by reflexivity.
  erewrite try_except_bind by reflexivity.
  cbv beta iota. rewrite T. cbn [negb].
  set (w1 := set_calls (S (calls w)) w).
  assert (C1 : connection w1 = ClosedSession) by exact C.
  destruct (http (env w) (calls w) url) as [r|] eqn:Hh.
  2:{ erewrite try_except_raised
        by (erewrite bind_raised; [reflexivity|]; unfold requests_get;
            rewrite Hh; reflexivity).
      exists w1. split; [reflexivity | exact C1]. }
  erewrite try_except_bind
    by (unfold requests_get; rewrite Hh; reflexivity).
  unfold raise_for_status.
  destruct ((400 <=? status_code r) && (status_code r <? 600))%Z.
  { erewrite try_except_raised by reflexivity.
    exists w1. split; [reflexivity | exact C1]. }
  erewrite try_except_bind by reflexivity.
  destruct (str_endswith (str_lower key) ".json").
  - unfold response_json. destruct (json_body r) as [v|].
    + erewrite try_except_bind by reflexivity.
      exists w1. split; [|exact C1].
      apply try_except_returned. now apply extract_from_object_closed.
    + erewrite try_except_raised by reflexivity.
      exists w1. split; [reflexivity | exact C1].
  - destruct (str_endswith (str_lower key) ".csv").
    + unfold read_csv. destruct (csv_body r) as [df|].
      * erewrite try_except_bind by reflexivity.
        destruct (csv_load_closed df t (Some key) w1 C1) as (w' & H & C').
        exists w'. split; [|exact C'].
        apply try_except_returned.
        unfold CSVExtractor.extract_from_dataframe.
        apply try_except_returned. exact H.
      * erewrite try_except_raised by reflexivity.
        exists w1. split; [reflexivity | exact C1].
    + exists w1. split; [reflexivity | exact C1].
Qed.

Lemma all_succeeded_repeat_false (n : nat) :
  all_succeeded (repeat false n) = (n =? 0).
Proof. destruct n; reflexivity. Qed.

Lemma run_entries_closed (process : string -> string -> M bool)
  (items : list (string * string)) :
  (forall key t w, connection w = ClosedSession ->
     exists w', process key t w = (Returned false, w')
                /\ connection w' = ClosedSession) ->
  forall w, connection w = ClosedSession ->
    fst (run_entries process items w) = repeat false (List.length items)
    /\ connection (snd (run_entries process items w)) = ClosedSession.
Proof.
  intros P. induction items as [|[key t] rest IH]; intros w C.
  - split; [reflexivity | exact C].
  - cbn [run_entries]. destruct (P key t w C) as (w1 & -> & C1).
    destruct (IH w1 C1) as (R1 & R2).
    destruct (run_entries process rest w1) as [results w2].
    cbn [fst snd] in *. rewrite R1. split; [reflexivity | exact R2].
Qed.

Lemma main_extract_all_eq (cfg : config) (w : world) :
  let s3_run :=
    run_entries (PublicS3Extractor.extract_file (s3 cfg)) (files (s3 cfg)) w in
  let api_run :=
    run_entries APIExtractor.extract_endpoint (endpoints (api cfg))
      (snd s3_run) in
  MainExtractor.extract_all cfg w
  = (Returned (all_succeeded (fst s3_run) && all_succeeded (fst api_run)),
     snd (DatabaseConnector.close_connection (snd api_run))).
Proof.
  intros s3_run api_run. unfold MainExtractor.extract_all.
  erewrite bind_returned.
  2:{ apply try_except_returned.
      erewrite bind_returned
        by (unfold MainExtractor.extract_from_s3;
            apply try_except_returned; apply s3_extract_all_eq).
      erewrite bind_returned
        by (unfold MainExtractor.extract_from_api;
            apply try_except_returned; apply api_extract_all_eq).
      reflexivity. }
  erewrite bind_returned by apply close_connection_eq.
  rewrite close_connection_eq. reflexivity.
Qed.

(** X14.  The orchestrator is good for one full run.  The connector keeps
    its closed session and hands it out again, so on a closed session every
    object-storage entry and every API entry fails, whatever the network
    serves and whatever the database would do, and a full run over a
    mapping that is not empty returns [False] and leaves the session
    closed. *)
Theorem closed_session_fails_every_entry (cfg : config) (w : world) :
  connection w = ClosedSession ->
  (forall key t,
     exists w',
       PublicS3Extractor.extract_file (s3 cfg) key t w = (Returned false, w')
       /\ connection w' = ClosedSession)
  /\ (forall endpoint t,
        APIExtractor.extract_endpoint endpoint t w
        = (Returned false, set_calls (S (calls w)) w))
  /\ (files (s3 cfg) <> [] \/ endpoints (api cfg) <> [] ->
      exists w',
        MainExtractor.extract_all cfg w = (Returned false, w')
        /\ connection w' = ClosedSession).
Proof.
  intros C. split; [|split].
  - intros key t. now apply extract_file_closed.
  - intros endpoint t. now apply extract_endpoint_closed.
  - intros N. rewrite main_extract_all_eq. cbv zeta.
    destruct (run_entries_closed (PublicS3Extractor.extract_file (s3 cfg))
                (files (s3 cfg))
                (fun key t w0 => extract_file_closed (s3 cfg) key t w0) w C)
      as (S1 & S2).
    assert (PA : forall key t w0, connection w0 = ClosedSession ->
              exists w', APIExtractor.extract_endpoint key t w0
                         = (Returned false, w')
                         /\ connection w' = ClosedSession).
    { intros key t w0 C0. eexists. split;
        [now apply extract_endpoint_closed | exact C0]. }
    destruct (run_entries_closed APIExtractor.extract_endpoint
                (endpoints (api cfg)) PA _ S2) as (A1 & A2).
    rewrite S1, A1, !all_succeeded_repeat_false, close_connection_eq, A2.
    assert (B : (List.length (files (s3 cfg)) =? 0)
                && (List.length (endpoints (api cfg)) =? 0) = false).
    { destruct N as [N|N].
      - destruct (files (s3 cfg)); [contradiction|reflexivity].
      - destruct (endpoints (api cfg)); [contradiction|].
        apply Bool.andb_false_r. }
    rewrite B. eexists. split; [reflexivity|].
    cbn [snd]. autorewrite with world. reflexivity.
Qed.

(** The theorem at work: the first full run succeeds and closes the
    session; the second, with the same network and database, fails. *)
Lemma closed_session_fails_every_entry_witness :
  fst (MainExtractor.extract_all served_config
         (Examples.fresh Examples.online)) = Returned true
  /\ exists w',
       MainExtractor.extract_all served_config
         (snd (MainExtractor.extract_all served_config
                 (Examples.fresh Examples.online)))
       = (Returned false, w')
       /\ connection w' = ClosedSession.
Proof.
  split; [vm_compute; reflexivity|].
  apply (closed_session_fails_every_entry served_config
           (snd (MainExtractor.extract_all served_config
                   (Examples.fresh Examples.online)))).
  - vm_compute; reflexivity.
  - left. discriminate.
Defined.

(** ** The connector's session *)

(** X15.  The session is created on first use and handed out again from
    then on.  [get_connection] never raises; it returns [None] exactly when
    there was no session and connecting failed, and then there is still no
    session, so that the next call connects again.  A session that exists,
    open or closed, is returned as it is, without a new connection, and
    asking twice costs no more than asking once. *)
Theorem get_connection_reuses_session (w : world) :
  exists c w1,
    DatabaseConnector.get_connection w = (Returned c, w1)
    /\ (c = None <->
        connection w = NoSession /\ fault (env w) (calls w) = true)
    /\ (c = None -> connection w1 = NoSession)
    /\ (connection w <> NoSession -> w1 = w)
    /\ (c <> None -> DatabaseConnector.get_connection w1 = (Returned c, w1)).
Proof.
  rewrite get_connection_eq.
  destruct (connection w) eqn:C; [destruct (fault (env w) (calls w)) eqn:F| |];
    eexists; eexists; (split; [reflexivity|]);
    (split; [split; [intros H; try discriminate; auto
                    | intros (H1 & H2); congruence] |]);
    (split; [intros H; try discriminate; exact C |]);
    (split; [intros H; congruence |]);
    intros H; try congruence; rewrite get_connection_eq;
    autorewrite with world; try rewrite C; reflexivity.
Qed.

(** ** The orchestrator's dispatch *)

Lemma lower_char_idempotent (c : ascii) :
  PyStr.lower_char (PyStr.lower_char c) = PyStr.lower_char c.
Proof. destruct c as [[] [] [] [] [] [] [] []]; reflexivity. Qed.

Lemma list_ascii_of_str_lower (s : string) :
  list_ascii_of_string (str_lower s)
  = PyStr.lower (list_ascii_of_string s).
Proof. unfold str_lower. apply list_ascii_of_string_of_list_ascii. Qed.

Lemma str_lower_idempotent (s : string) :
  str_lower (str_lower s) = str_lower s.
Proof.
  unfold str_lower at 1. rewrite list_ascii_of_str_lower.
  unfold str_lower, PyStr.lower. rewrite map_map. f_equal.
  apply map_ext. intros c. apply lower_char_idempotent.
Qed.

(** X16.  [run_extraction] never raises and reads the source name
    without regard to case: a name and its lower-case form run the same
    extraction.  A name that is none of [s3], [api] and [all] in lower case
    returns [False] and touches nothing; [s3] and [api] are the run over
    the one mapping and nothing more, [all] is the full run, which ends by
    closing the session. *)
Theorem run_extraction_dispatch (cfg : config) (source : string) (w : world) :
  MainExtractor.run_extraction cfg (str_lower source) w
  = MainExtractor.run_extraction cfg source w
  /\ (exists ok w',
        MainExtractor.run_extraction cfg source w = (Returned ok, w'))
  /\ MainExtractor.run_extraction cfg source w
     = (if String.eqb (str_lower source) "s3"
        then PublicS3Extractor.extract_all (s3 cfg) w
        else if String.eqb (str_lower source) "api"
        then APIExtractor.extract_all (api cfg) w
        else if String.eqb (str_lower source) "all"
        then MainExtractor.extract_all cfg w
        else (Returned false, w)).
Proof.
  split; [|split].
  - unfold MainExtractor.run_extraction. now rewrite str_lower_idempotent.
  - unfold MainExtractor.run_extraction. apply try_except_total.
  - unfold MainExtractor.run_extraction.
    destruct (String.eqb (str_lower source) "s3").
    { rewrite s3_extract_all_eq. cbv zeta.
      apply try_except_returned. unfold MainExtractor.extract_from_s3.
      apply try_except_returned. apply s3_extract_all_eq. }
    destruct (String.eqb (str_lower source) "api").
    { rewrite api_extract_all_eq. cbv zeta.
      apply try_except_returned. unfold MainExtractor.extract_from_api.
      apply try_except_returned. apply api_extract_all_eq. }
    destruct (String.eqb (str_lower source) "all"); [|reflexivity].
    rewrite main_extract_all_eq. cbv zeta.
    apply try_except_returned. apply main_extract_all_eq.
Qed.

(** ** File extensions, as written and in lower case *)

Lemma starts_with_map (f : ascii -> ascii) (p : list ascii) :
  forall s, PyStr.starts_with p s = true ->
    PyStr.starts_with (map f p) (map f s) = true.
Proof.
  induction p as [|a p IH]; intros [|b s] H; cbn in *;
    try reflexivity; try discriminate.
  apply andb_prop in H. destruct H as (E & H).
  apply Ascii.eqb_eq in E. subst b.
  now rewrite Ascii.eqb_refl, IH.
Qed.

Lemma ends_with_lower (s suffix : list ascii) :
  PyStr.lower suffix = suffix ->
  PyStr.ends_with s suffix = true ->
  PyStr.ends_with (PyStr.lower s) suffix = true.
Proof.
  unfold PyStr.ends_with, PyStr.lower. intros L H.
  apply (starts_with_map PyStr.lower_char) in H.
  now rewrite !map_rev, L in H.
Qed.

Lemma str_endswith_lower (p suffix : string) :
  str_lower suffix = suffix ->
  str_endswith p suffix = true ->
  str_endswith (str_lower p) suffix = true.
Proof.
  unfold str_endswith. intros L H. rewrite list_ascii_of_str_lower.
  apply ends_with_lower; [|exact H].
  rewrite <- list_ascii_of_str_lower, L. reflexivity.
Qed.

Lemma csv_is_not_json (p : string) :
  str_endswith p ".csv" = true -> str_endswith p ".json" = false.
Proof.
  unfold str_endswith, PyStr.ends_with.
  change (rev (list_ascii_of_string ".csv")) with ["v"; "s"; "c"; "."]%char.
  change (rev (list_ascii_of_string ".json"))
    with ["n"; "o"; "s"; "j"; "."]%char.
  destruct (rev (list_ascii_of_string p)) as [|c l]; [discriminate|].
  cbn [PyStr.starts_with]. intros H.
  apply andb_prop in H. destruct H as (E & _).
  apply Ascii.eqb_eq in E. subst c. reflexivity.
Qed.

(** X17.  [load_data] goes by the extension as it is written, the
    object-storage fetcher by the extension in lower case.  Whatever
    [load_data] reads as CSV or as JSON the fetcher classifies the same
    way, and a path that ends in neither [.csv] nor [.json] as written
    raises [ValueError] before any file is read.  The converse fails:
    [DATA.CSV] is CSV for the fetcher and unsupported for [load_data]. *)
Theorem load_data_extension_as_written
  (read_csv_file read_json_file : string -> option DataFrame)
  (file_path : string) (w : world) :
  (str_endswith file_path ".csv" = true ->
   dataExtraction.load_data read_csv_file read_json_file file_path w
   = (match read_csv_file file_path with
      | Some df => Returned df
      | None => Raised GenericException
      end, w)
   /\ str_endswith (str_lower file_path) ".json" = false
   /\ str_endswith (str_lower file_path) ".csv" = true)
  /\ (str_endswith file_path ".csv" = false ->
      str_endswith file_path ".json" = true ->
      dataExtraction.load_data read_csv_file read_json_file file_path w
      = (match read_json_file file_path with
         | Some df => Returned df
         | None => Raised GenericException
         end, w)
      /\ str_endswith (str_lower file_path) ".json" = true)
  /\ (str_endswith file_path ".csv" = false ->
      str_endswith file_path ".json" = false ->
      dataExtraction.load_data read_csv_file read_json_file file_path w
      = (Raised ValueError, w))
  /\ (str_endswith "DATA.CSV" ".csv" = false
      /\ str_endswith (str_lower "DATA.CSV") ".csv" = true).
Proof.
  unfold dataExtraction.load_data.
  split; [|split; [|split; [|split; reflexivity]]].
  - intros C. rewrite C. split; [now destruct (read_csv_file file_path)|].
    split.
    + apply csv_is_not_json. now apply str_endswith_lower.
    + now apply str_endswith_lower.
  - intros C J. rewrite C, J.
    split; [now destruct (read_json_file file_path)|].
    now apply str_endswith_lower.
  - intros C J. now rewrite C, J.
Qed.

(** ** The entry points for files and strings *)

(** X18.  The entry points of the two loaders contain every failure.  A
    file that cannot be read or parsed, or a string that is not JSON,
    gives [False] and nothing else happens: the database is not asked for
    anything.  What parses is loaded as the parsed value would be, a file
    under its own path as source name.  On a closed session, where the
    Document Loader itself raises, the entry points return [False]. *)
Theorem entry_points_contain_failures (read_json : string -> option pyval)
  (json_loads : string -> option pyval)
  (read_csv_file : string -> option DataFrame)
  (path text t : string) (src : option string) (w : world) :
  JSONExtractor.extract_from_file read_json path t w
  = match read_json path with
    | Some v => JSONExtractor.extract_from_object v t (Some path) w
    | None => (Returned false, w)
    end
  /\ JSONExtractor.extract_from_string json_loads text t src w
     = match json_loads text with
       | Some v => JSONExtractor.extract_from_object v t src w
       | None => (Returned false, w)
       end
  /\ CSVExtractor.extract_from_file read_csv_file path t w
     = match read_csv_file path with
       | Some df => CSVExtractor.extract_from_dataframe df t (Some path) w
       | None => (Returned false, w)
       end
  /\ (connection w = ClosedSession ->
      forall v,
        JSONExtractor.load_to_landing v t src None None w
        = (Raised InterfaceError, w)
        /\ JSONExtractor.extract_from_object v t src w = (Returned false, w)).
Proof.
  split; [|split; [|split]].
  - unfold JSONExtractor.extract_from_file, JSONExtractor.extract_from_object.
    destruct (read_json path); reflexivity.
  - unfold JSONExtractor.extract_from_string,
      JSONExtractor.extract_from_object.
    destruct (json_loads text); reflexivity.
  - unfold CSVExtractor.extract_from_file,
      CSVExtractor.extract_from_dataframe.
    destruct (read_csv_file path) as [df|]; [|reflexivity].
    erewrite try_except_bind by reflexivity. reflexivity.
  - intros C v. split.
    + now apply load_to_landing_closed.
    + now apply extract_from_object_closed.
Qed.

(** ** Documents made of rows *)

Lemma dict_set_fresh (k : string) (v : pyval) (d : list (string * pyval)) :
  ~ In k (map fst d) -> dict_set k v d = d ++ [(k, v)].
Proof.
  induction d as [|[k' v'] d IH]; intros N; [reflexivity|].
  cbn [dict_set]. cbn [map fst In] in N.
  destruct (String.eqb_spec k k') as [->|_]; [tauto|].
  cbn [app]. rewrite IH by tauto. reflexivity.
Qed.

Lemma dict_of_pairs_distinct (kvs : list (string * pyval)) :
  NoDup (map fst kvs) -> dict_of_pairs kvs = kvs.
Proof.
  unfold dict_of_pairs.
  enough (G : forall acc, NoDup (map fst (acc ++ kvs)) ->
            fold_left (fun d kv => dict_set (fst kv) (snd kv) d) kvs acc
            = acc ++ kvs) by (intros N; apply (G [] N)).
  induction kvs as [|[k v] kvs IH]; intros acc N; cbn [fold_left].
  - now rewrite app_nil_r.
  - cbn [fst snd]. rewrite dict_set_fresh.
    + rewrite IH; rewrite <- app_assoc; [reflexivity | exact N].
    + rewrite map_app in N. cbn [map fst] in N.
      apply NoDup_remove_2 in N. intros I. apply N.
      apply in_or_app. now left.
Qed.

Lemma combine_labels_distinct (cols : list string) :
  NoDup cols -> forall r : list pyval, NoDup (map fst (combine cols r)).
Proof.
  induction 1 as [|c cols N _ IH]; intros [|v r]; cbn [combine map fst];
    try constructor.
  - intros I. apply N. apply in_map_iff in I.
    destruct I as ([c' v'] & E & I). cbn in E. subst c'.
    eapply in_combine_l, I.
  - apply IH.
Qed.

(** X19.  Document mode keeps the labels of the source.  With labels
    that are pairwise distinct, a fault-free load of a frame into a
    destination with a document column returns [True], keeps the rows the
    destination held and adds one row per row of the frame, in order; the
    document of each new row maps every label, as written in the source
    and not normalized, to that row's cell. *)
Theorem document_mode_keeps_source_labels (df : DataFrame) (t : string)
  (sf : option string) (w : world) :
  (forall n, fault (env w) n = false) ->
  connection w <> ClosedSession ->
  pending w = [] ->
  py_in "raw_data"
    (map column_name (catalog_rows (catalog_query t) (catalog (env w))))
  = true ->
  NoDup (df_columns df) ->
  exists w' rows,
    CSVExtractor.load_to_landing df t sf w = (Returned true, w')
    /\ tables w' t = tables w t ++ rows
    /\ map (row_get "raw_data") rows
       = map (fun r => Some (PJson (PDict (combine (df_columns df) r))))
           (df_rows df).
Proof.
  intros F C P R N.
  destruct (get_table_columns_fault_free t w F C)
    as (w1 & G & O1 & E1 & R1 & T1 & P1).
  rewrite (csv_load_after_inspection df t sf w w1 _ G), R.
  destruct (load_to_landing_rows (PList (to_dict_records df)) t sf None None
              w1) as (w' & rows & H & T & _ & S).
  { now rewrite E1. } { congruence. } { congruence. }
  exists w', rows. split; [|split].
  - apply try_except_returned.
    erewrite bind_returned by exact H. reflexivity.
  - now rewrite T, T1.
  - cbn [as_records] in S. unfold to_dict_records in S.
    clear - S N. revert rows S.
    induction (df_rows df) as [|r rs IH]; intros rows S;
      inversion S as [|j row js rows' (D & _) S']; subst; cbn [map];
      [reflexivity|].
    rewrite D, (IH _ S'), dict_of_pairs_distinct
      by now apply combine_labels_distinct.
    reflexivity.
Qed.

(** The theorem at work: the camel-case labels of the sample frame are the
    keys of the stored documents. *)
Lemma document_mode_keeps_source_labels_witness :
  exists w' rows,
    CSVExtractor.load_to_landing Examples.prices_frame "lnd_docs" None
      (Examples.stocked Examples.calm) = (Returned true, w')
    /\ tables w' "lnd_docs" = [Examples.old_row] ++ rows
    /\ map (row_get "raw_data") rows
       = [Some (PJson (PDict [("Id", PInt 1); ("Price", PInt 10);
                              ("Remark", PStr "x")]));
          Some (PJson (PDict [("Id", PInt 2); ("Price", PInt 20);
                              ("Remark", PStr "y")]))].
Proof.
  apply (document_mode_keeps_source_labels Examples.prices_frame "lnd_docs"
           None (Examples.stocked Examples.calm)).
  - intros n; reflexivity.
  - discriminate.
  - reflexivity.
  - reflexivity.
  - repeat constructor; cbn; intuition discriminate.
Defined.

(** ** What no loader does to the session *)

Lemma keeps_ret {A : Type} (a : A) : keeps (ret a).
Proof. intros w. split; [reflexivity | auto]. Qed.

Lemma keeps_raise {A : Type} (e : exn) : keeps (@raise A e).
Proof. intros w. split; [reflexivity | auto]. Qed.

Lemma keeps_get {A : Type} (f : world -> A) : keeps (get f).
Proof. intros w. split; [reflexivity | auto]. Qed.

Lemma keeps_modify (f : world -> world) :
  (forall w, env (f w) = env w) ->
  (forall w, connection w <> ClosedSession ->
             connection (f w) <> ClosedSession) ->
  keeps (modify f).
Proof. intros E C w. split; [apply E | apply C]. Qed.

Lemma keeps_external (e : exn) : keeps (external e).
Proof.
  intros w. unfold external.
  destruct (fault (env w) (calls w)); split; auto.
Qed.

Lemma keeps_datetime_now : keeps datetime_now.
Proof. intros w. split; [reflexivity | auto]. Qed.

Lemma keeps_requests_get (url : string) : keeps (requests_get url).
Proof.
  intros w. unfold requests_get.
  destruct (http (env w) (calls w) url); split; auto.
Qed.

Lemma keeps_bind {A B : Type} (m : M A) (k : A -> M B) :
  keeps m -> (forall a, keeps (k a)) -> keeps (bind m k).
Proof.
  intros Hm Hk w. unfold bind. specialize (Hm w).
  destruct (m w) as [[a|e] w1]; cbn [snd] in *; [|exact Hm].
  specialize (Hk a w1). destruct Hm as (E1 & C1), Hk as (E2 & C2).
  split; [congruence | auto].
Qed.

Lemma keeps_try_except {A : Type} (m : M A) (h : exn -> M A) :
  keeps m -> (forall e, keeps (h e)) -> keeps (try_except m h).
Proof.
  intros Hm Hh w. unfold try_except. specialize (Hm w).
  destruct (m w) as [[a|e] w1]; cbn [snd] in *; [exact Hm|].
  specialize (Hh e w1). destruct Hm as (E1 & C1), Hh as (E2 & C2).
  split; [congruence | auto].
Qed.

Ltac keeps_step :=
  first
    [ apply keeps_ret | apply keeps_raise | apply keeps_get
    | apply keeps_external | apply keeps_datetime_now
    | apply keeps_requests_get
    | apply keeps_bind; [|intro]
    | apply keeps_try_except; [|intro]
    | apply keeps_modify;
      [ intro; autorewrite with world; reflexivity
      | intro; autorewrite with world; solve [auto | discriminate] ]
    | match goal with
      | |- keeps (match ?x with _ => _ end) => destruct x
      end ].

Lemma keeps_cursor (c : option connection_object) : keeps (cursor c).
Proof. unfold cursor. repeat keeps_step. Qed.

Lemma keeps_cursor_execute (s : stmt) : keeps (cursor_execute s).
Proof. unfold cursor_execute. repeat keeps_step. Qed.

Lemma keeps_commit : keeps commit.
Proof. unfold commit. repeat keeps_step. Qed.

Lemma keeps_rollback : keeps rollback.
Proof. unfold rollback. repeat keeps_step. Qed.

Lemma keeps_to_sql (df : DataFrame) (name : string) (schema : option string) :
  keeps (to_sql df name schema).
Proof. unfold to_sql. repeat keeps_step. Qed.

Lemma keeps_get_connection : keeps DatabaseConnector.get_connection.
Proof. unfold DatabaseConnector.get_connection. repeat keeps_step. Qed.

Lemma keeps_get_engine : keeps DatabaseConnector.get_engine.
Proof. unfold DatabaseConnector.get_engine. repeat keeps_step. Qed.

Ltac keeps_db :=
  first
    [ apply keeps_cursor | apply keeps_cursor_execute | apply keeps_commit
    | apply keeps_rollback | apply keeps_to_sql | apply keeps_get_connection
    | apply keeps_get_engine | keeps_step ].

Lemma keeps_truncate_table (t : string) :
  keeps (DatabaseConnector.truncate_table t).
Proof. unfold DatabaseConnector.truncate_table. repeat keeps_db. Qed.

Lemma keeps_load_to_landing_table (pd_DataFrame : pyval -> option DataFrame)
  (data : DatabaseConnector.table_data) (t : string) :
  keeps (DatabaseConnector.load_to_landing_table pd_DataFrame data t).
Proof.
  unfold DatabaseConnector.load_to_landing_table.
  repeat first [apply keeps_truncate_table | keeps_db].
Qed.

Lemma keeps_get_table_columns (t : string) :
  keeps (JSONExtractor.get_table_columns t).
Proof. unfold JSONExtractor.get_table_columns. repeat keeps_db. Qed.

Lemma keeps_row_values tc fn ep st rt (j : pyval) :
  keeps (JSONExtractor.row_values tc fn ep st rt j).
Proof. unfold JSONExtractor.row_values. repeat keeps_db. Qed.

Lemma keeps_insert_records t tc fn ep st cols ph rt (js : list pyval) :
  forall n, keeps (JSONExtractor.insert_records t tc fn ep st cols ph rt js n).
Proof.
  induction js as [|j js IH]; intros n; cbn [JSONExtractor.insert_records].
  - apply keeps_ret.
  - repeat first [apply keeps_row_values | apply IH | keeps_db].
Qed.

Lemma keeps_json_load (v : pyval) (t : string) (fn ep : option string)
  (st : option Z) :
  keeps (JSONExtractor.load_to_landing v t fn ep st).
Proof.
  unfold JSONExtractor.load_to_landing.
  repeat first [apply keeps_get_table_columns | apply keeps_insert_records
               | keeps_db].
Qed.

Lemma keeps_truncate_and_append (df : DataFrame) (t : string) :
  keeps (CSVExtractor.truncate_and_append df t).
Proof. unfold CSVExtractor.truncate_and_append. repeat keeps_db. Qed.

Lemma keeps_csv_load (df : DataFrame) (t : string) (sf : option string) :
  keeps (CSVExtractor.load_to_landing df t sf).
Proof.
  unfold CSVExtractor.load_to_landing.
  repeat first [apply (keeps_get_table_columns t) | apply keeps_json_load
               | apply keeps_truncate_and_append | keeps_db].
Qed.

Lemma keeps_extract_loop (process : string -> string -> M bool)
  (items : list (string * string)) :
  (forall key t, keeps (process key t)) ->
  forall n, keeps (extract_loop process items n).
Proof.
  intros P. induction items as [|[key t] rest IH]; intros n;
    cbn [extract_loop].
  - apply keeps_ret.
  - apply keeps_bind; [apply P | intro; apply IH].
Qed.

Lemma keeps_extract_file (cfg : s3_config) (key t : string) :
  keeps (PublicS3Extractor.extract_file cfg key t).
Proof.
  unfold PublicS3Extractor.extract_file, PublicS3Extractor.get_public_url,
    raise_for_status, response_json, read_csv,
    JSONExtractor.extract_from_object, CSVExtractor.extract_from_dataframe.
  repeat first [apply keeps_json_load | apply keeps_csv_load | keeps_db].
Qed.

Lemma keeps_extract_endpoint (endpoint t : string) :
  keeps (APIExtractor.extract_endpoint endpoint t).
Proof.
  unfold APIExtractor.extract_endpoint,
    APIExtractor.make_api_request_with_details, raise_for_status,
    response_json.
  repeat first [apply keeps_json_load | keeps_db].
Qed.

(** X20.  No loader and no fetcher closes the session: whatever fails,
    a session that is not closed before one of these calls is not closed
    after it.  Of everything the orchestrator runs, the closing step at the
    end of the full run alone closes a session, and it closes every
    session there is. *)
Theorem loaders_never_close_the_session (cfg : config) (w : world) :
  connection w <> ClosedSession ->
  (forall v t fn ep st,
     connection (snd (JSONExtractor.load_to_landing v t fn ep st w))
     <> ClosedSession)
  /\ (forall df t sf,
        connection (snd (CSVExtractor.load_to_landing df t sf w))
        <> ClosedSession)
  /\ (forall t,
        connection (snd (DatabaseConnector.truncate_table t w))
        <> ClosedSession)
  /\ connection (snd (PublicS3Extractor.extract_all (s3 cfg) w))
     <> ClosedSession
  /\ connection (snd (APIExtractor.extract_all (api cfg) w))
     <> ClosedSession
  /\ connection (snd (MainExtractor.extract_all cfg w)) <> OpenSession.
Proof.
  intros C.
  split; [intros; now apply keeps_json_load|].
  split; [intros; now apply keeps_csv_load|].
  split; [intros; now apply keeps_truncate_table|].
  split; [|split].
  - apply (keeps_try_except
             (successful <- extract_loop
                              (PublicS3Extractor.extract_file (s3 cfg))
                              (files (s3 cfg)) 0;;
              ret (successful =? List.length (files (s3 cfg))))
             (fun _ => ret false)); [|intro; apply keeps_ret|exact C].
    apply keeps_bind; [|intro; apply keeps_ret].
    apply keeps_extract_loop, keeps_extract_file.
  - apply (keeps_try_except
             (successful <- extract_loop APIExtractor.extract_endpoint
                              (endpoints (api cfg)) 0;;
              ret (successful =? List.length (endpoints (api cfg))))
             (fun _ => ret false)); [|intro; apply keeps_ret|exact C].
    apply keeps_bind; [|intro; apply keeps_ret].
    apply keeps_extract_loop, keeps_extract_endpoint.
  - rewrite main_extract_all_eq. cbv zeta. cbn [snd].
    rewrite close_connection_eq. cbn [snd].
    destruct (connection (snd (run_entries _ _ _))) eqn:E;
      autorewrite with world; try rewrite E; discriminate.
Qed.

(** The theorem at work, on a fresh process with the sample network. *)
Lemma loaders_never_close_the_session_witness :
  connection
    (snd (CSVExtractor.load_to_landing Examples.prices_frame "lnd_prices"
            None (Examples.fresh Examples.online)))
  <> ClosedSession.
Proof.
  apply (loaders_never_close_the_session served_config
           (Examples.fresh Examples.online)).
  discriminate.
Defined.

(** ** Loading the same data twice *)




(** ** A download that fails *)

(** X22.  A download that fails never reaches the database.  When the
    request for the file's public URL meets a transport error or a 4xx or
    5xx status, the object-storage fetcher returns [False] whatever the
    key's extension, and nothing but the request has happened. *)
Theorem failed_download_touches_nothing (cfg : s3_config) (key t : string)
  (w : world) :
  let url := ("https://" ++ bucket_name cfg ++ ".s3." ++ region cfg
                ++ ".amazonaws.com/" ++ key)%string in
  match http (env w) (calls w) url with
  | Some r => ((400 <=? status_code r) && (status_code r <? 600))%Z
  | None => true
  end = true ->
  PublicS3Extractor.extract_file cfg key t w
  = (Returned false, set_calls (S (calls w)) w).
Proof.
  intros url H.
  unfold PublicS3Extractor.extract_file, PublicS3Extractor.get_public_url.
  fold url.
  assert (T : truthy (Some url) = true) by reflexivity.
  erewrite try_except_bind by reflexivity.
  cbv beta iota. rewrite T. cbn [negb].
  destruct (http (env w) (calls w) url) as [r|] eqn:Hh.
  - erewrite try_except_bind
      by (unfold requests_get; rewrite Hh; reflexivity).
    unfold raise_for_status. rewrite H.
    erewrite try_except_raised by reflexivity. reflexivity.
  - erewrite try_except_raised
      by (erewrite bind_raised; [reflexivity|]; unfold requests_get;
          rewrite Hh; reflexivity).
    reflexivity.
Qed.

(** The theorem at work: a key the sample network does not serve. *)
Lemma failed_download_touches_nothing_witness :
  PublicS3Extractor.extract_file Examples.sample_s3 "missing.csv"
    "lnd_prices" (Examples.fresh Examples.online)
  = (Returned false,
     set_calls 1 (Examples.fresh Examples.online)).
Proof.
  apply (failed_download_touches_nothing Examples.sample_s3 "missing.csv"
           "lnd_prices" (Examples.fresh Examples.online)).
  vm_compute; reflexivity.
Defined.
